(** * sf-events: the extraction engine, the date classifier and the grouping

    A shallow embedding of [process-html.js] (the function [extractEvents]
    and the grouping loop of [processHtmlFiles]) and of the revision of the
    same script that still carries the two date filters ([todaysEvents] and
    [strictlyFilteredEvents]).

    Conventions of the embedding:
    - a JavaScript string is a [string] whose characters are its code units
      (code units below 256);
    - a value that comes out of [JSON.parse], or a field of an event record
      that may hold one, is a [JSValue];
    - a [throw] is the constructor [Throw] of [Exc]; every [try]/[catch] of
      the source is a [match] on it;
    - what the JavaScript host computes (JSON.parse, Date parsing, Intl
      formatting, WHATWG URL resolution) is a field of the record [Host];
    - the page is a [RawDocument]: the results of the searches the script
      runs on the text, and the nodes [cheerio] finds for a selector;
    - the object [eventsByRegion], used as a dictionary, is the list of its
      own properties in the order of their creation; a lookup that finds no
      own property goes on to [Object.prototype], whose twelve names
      ([constructor], [toString], [__proto__], ...) every object inherits;
    - [console.log] and the [DEBUG_SOURCE] branches only print and are
      left out.

    Around the engine, the file also embeds the naming of the dumps shared
    by [fetch-html.js] and [process-html.js] ([sanitizeFilename],
    [getHtmlFilePath]), the loop of [processHtmlFiles] over the fetched
    rows of sources.csv, the markdown report with [eventsByRegion] in the
    order in which [for ... in] enumerates it, and the part of
    [cleanup-events.js] that finds the JSON text in the answer of the
    model. The file system is a pair of functions on file names; the
    browser of [fetch-html.js] and the HTTP call of [cleanup-events.js] are
    not modelled. *)

From Stdlib Require Import ZArith Bool Ascii String List Lia DecimalString.
From stdpp Require Import base option list strings.

Import ListNotations.
Local Open Scope Z_scope.

(** ** Strings *)

Module Str.

Definition codeUnit (c : ascii) : N := N_of_ascii c.

(** [\s] of a regular expression and the white space of [trim], for code
    units below 256: TAB, LF, VT, FF, CR, SP and NBSP. *)
Definition isWhiteSpace (c : ascii) : bool :=
  let n := codeUnit c in
  ((9 <=? n) && (n <=? 13) || (n =? 32) || (n =? 160))%N.

Definition isDigit (c : ascii) : bool :=
  let n := codeUnit c in ((48 <=? n) && (n <=? 57))%N.

(** [\w]: ASCII letters, digits and the underscore. *)
Definition isWordChar (c : ascii) : bool :=
  let n := codeUnit c in
  (isDigit c || (65 <=? n) && (n <=? 90) || (97 <=? n) && (n <=? 122) || (n =? 95))%N.

Definition lowerChar (c : ascii) : ascii :=
  let n := codeUnit c in
  if ((65 <=? n) && (n <=? 90) || (192 <=? n) && (n <=? 222) && negb (n =? 215))%N
  then ascii_of_N (n + 32) else c.

Fixpoint toLowerCase (s : string) : string :=
  match s with
  | EmptyString => EmptyString
  | String c s' => String (lowerChar c) (toLowerCase s')
  end.

Fixpoint startsWith (s p : string) : bool :=
  match p, s with
  | EmptyString, _ => true
  | String a p', String b s' => Ascii.eqb a b && startsWith s' p'
  | String _ _, EmptyString => false
  end.

(** [s.includes(needle)] *)
Fixpoint includes (s needle : string) : bool :=
  startsWith s needle ||
  match s with
  | EmptyString => false
  | String _ s' => includes s' needle
  end.

(** [s.endsWith(suffix)] *)
Fixpoint endsWith (s suffix : string) : bool :=
  String.eqb s suffix ||
  match s with
  | EmptyString => false
  | String _ s' => endsWith s' suffix
  end.

Fixpoint trimStart (s : string) : string :=
  match s with
  | String c s' => if isWhiteSpace c then trimStart s' else s
  | EmptyString => EmptyString
  end.

Fixpoint allWhiteSpace (s : string) : bool :=
  match s with
  | EmptyString => true
  | String c s' => isWhiteSpace c && allWhiteSpace s'
  end.

Fixpoint trimEnd (s : string) : string :=
  match s with
  | EmptyString => EmptyString
  | String c s' => if allWhiteSpace s then EmptyString else String c (trimEnd s')
  end.

Definition trim (s : string) : string := trimEnd (trimStart s).

(** [s.replace(/\s+/g, ' ')]: every maximal run of white space becomes one
    space; [inRun] tells that the previous character was white space. *)
Fixpoint collapseFrom (inRun : bool) (s : string) : string :=
  match s with
  | EmptyString => EmptyString
  | String c s' =>
      if isWhiteSpace c
      then (if inRun then collapseFrom true s' else String " " (collapseFrom true s'))
      else String c (collapseFrom false s')
  end.

Definition collapseWhiteSpace (s : string) : string := collapseFrom false s.

(** [texts.join(' ')] *)
Fixpoint join (sep : string) (texts : list string) : string :=
  match texts with
  | [] => EmptyString
  | [t] => t
  | t :: rest => t +:+ sep +:+ join sep rest
  end.

(** [n.toString()] and [`${n}`] for an integer [n]. *)
Definition ofZ (n : Z) : string := NilZero.string_of_int (Z.to_int n).

Fixpoint allDigits (s : string) : bool :=
  match s with
  | EmptyString => true
  | String c s' => isDigit c && allDigits s'
  end.

(** [Number(s)] for a string of decimal digits. *)
Fixpoint digitsValue (acc : Z) (s : string) : Z :=
  match s with
  | EmptyString => acc
  | String c s' => digitsValue (10 * acc + (Z.of_N (codeUnit c) - 48)) s'
  end.

(** Splits at the first occurrence of the separator character. *)
Fixpoint splitAt (sep : ascii) (s : string) : option (string * string) :=
  match s with
  | EmptyString => None
  | String c s' =>
      if Ascii.eqb c sep then Some (EmptyString, s')
      else match splitAt sep s' with
           | Some (a, b) => Some (String c a, b)
           | None => None
           end
  end.

(** [/^\d+SEP\d+$/.test(s)] followed by [s.split(SEP).map(Number)]: the two
    numbers when the string has that shape. *)
Definition twoNumbers (sep : ascii) (s : string) : option (Z * Z) :=
  match splitAt sep s with
  | Some (a, b) =>
      if negb (String.eqb a "") && negb (String.eqb b "") && allDigits a && allDigits b
      then Some (digitsValue 0 a, digitsValue 0 b) else None
  | None => None
  end.

Definition head (s : string) : option ascii :=
  match s with EmptyString => None | String c _ => Some c end.

Fixpoint drop (n : nat) (s : string) : string :=
  match n, s with
  | O, _ => s
  | S n', String _ s' => drop n' s'
  | S _, EmptyString => EmptyString
  end.

Fixpoint lastChar (dflt : option ascii) (s : string) : option ascii :=
  match s with
  | EmptyString => dflt
  | String c s' => lastChar (Some c) s'
  end.

Definition isWord (c : option ascii) : bool :=
  match c with Some a => isWordChar a | None => false end.

(** The assertion [\b] between two neighbouring positions. *)
Definition wordBoundary (before after : option ascii) : bool :=
  xorb (isWord before) (isWord after).

(** [new RegExp(`\\b${lit}\\b`).test(s)] for a literal [lit] without
    metacharacters, scanning [s] whose preceding character is [prev]. *)
Fixpoint testWordBoundedFrom (prev : option ascii) (lit s : string) : bool :=
  (wordBoundary prev (head s) && startsWith s lit &&
   wordBoundary (lastChar prev lit) (head (drop (String.length lit) s))) ||
  match s with
  | EmptyString => false
  | String c s' => testWordBoundedFrom (Some c) lit s'
  end.

Definition testWordBounded (lit s : string) : bool :=
  testWordBoundedFrom None lit s.

End Str.

(** ** Exceptions *)

(** The result of an expression that may throw. *)
Inductive Exc (A : Type) : Type :=
  | Ok (a : A)
  | Throw.
Arguments Ok {A} a.
Arguments Throw {A}.

Definition bindExc {A B : Type} (e : Exc A) (k : A -> Exc B) : Exc B :=
  match e with
  | Ok a => k a
  | Throw => Throw
  end.

Notation "'let!' x ':=' e 'in' k" := (bindExc e (fun x => k))
  (at level 10, x name, e at level 100, k at level 200).

(** ** Values *)

(** The values [JSON.parse] can return, and [undefined]. A number is an
    integer below 2^53 in absolute value, which [`${n}`] prints with all
    its digits (the code only tests numbers for truthiness and prints
    them). *)
#[warnings="-register-all"]
Inductive JSValue : Type :=
  | JUndefined
  | JNull
  | JBool (b : bool)
  | JNum (n : Z)
  | JStr (s : string)
  | JArr (items : list JSValue)
  | JObj (props : list (string * JSValue)).

Module JS.

Definition truthy (v : JSValue) : bool :=
  match v with
  | JUndefined | JNull => false
  | JBool b => b
  | JNum n => negb (n =? 0)
  | JStr s => negb (String.eqb s "")
  | JArr _ | JObj _ => true
  end.

(** [a || b] and [a && b] *)
Definition or (a b : JSValue) : JSValue := if truthy a then a else b.
Definition and (a b : JSValue) : JSValue := if truthy a then b else a.

Definition isNullish (v : JSValue) : bool :=
  match v with JUndefined | JNull => true | _ => false end.

Definition isArray (v : JSValue) : bool :=
  match v with JArr _ => true | _ => false end.

Fixpoint lookupProp (k : string) (props : list (string * JSValue)) : JSValue :=
  match props with
  | [] => JUndefined
  | (k', v) :: rest => if String.eqb k k' then v else lookupProp k rest
  end.

(** [v.k] for the property names the code reads, none of which is an index,
    [length] or a method of strings or arrays: reading from [null] or
    [undefined] throws a TypeError, an object gives its own property, and
    anything else gives [undefined]. *)
Definition getp (v : JSValue) (k : string) : Exc JSValue :=
  match v with
  | JUndefined | JNull => Throw
  | JObj props => Ok (lookupProp k props)
  | _ => Ok JUndefined
  end.

(** [v?.k] *)
Definition getopt (v : JSValue) (k : string) : Exc JSValue :=
  if isNullish v then Ok JUndefined else getp v k.

(** [v[0]] *)
Definition getFirst (v : JSValue) : Exc JSValue :=
  match v with
  | JUndefined | JNull => Throw
  | JArr items => Ok (List.hd JUndefined items)
  | JObj props => Ok (lookupProp "0" props)
  | JStr (String c _) => Ok (JStr (String c EmptyString))
  | _ => Ok JUndefined
  end.

(** [v === 'text'] *)
Definition isStr (v : JSValue) (text : string) : bool :=
  match v with JStr s => String.eqb s text | _ => false end.

(** [`${v}`] *)
Fixpoint ToString (v : JSValue) : string :=
  match v with
  | JUndefined => "undefined"
  | JNull => "null"
  | JBool true => "true"
  | JBool false => "false"
  | JNum n => Str.ofZ n
  | JStr s => s
  | JObj _ => "[object Object]"
  | JArr items =>
      (fix joinItems (l : list JSValue) : string :=
         match l with
         | [] => EmptyString
         | x :: rest =>
             (if isNullish x then EmptyString else ToString x) +:+
             match rest with
             | [] => EmptyString
             | _ :: _ => "," +:+ joinItems rest
             end
         end) items
  end.

(** The receiver of [forEach], [some], [filter] and [flatMap]: the items of
    an array; on any other value the method is [undefined] and the call
    throws. *)
Definition arrayItems (v : JSValue) : Exc (list JSValue) :=
  match v with JArr items => Ok items | _ => Throw end.

(** [text.toLowerCase()] where [text] is the date of a record: a method of
    strings only. *)
Definition toLowerCase (v : JSValue) : Exc string :=
  match v with JStr s => Ok (Str.toLowerCase s) | _ => Throw end.

End JS.

(** ** Dates *)

(** The local-time fields of a valid [Date]: [getFullYear()], [getMonth()]
    (0 to 11), [getDate()] and the milliseconds since local midnight. *)
Record DateFields : Type := mkDate {
  getFullYear : Z;
  getMonth : Z;
  getDate : Z;
  msOfDay : Z
}.

Inductive JSDate : Type :=
  | InvalidDate
  | ValidDate (f : DateFields).

Module Cal.

(** Days from 1970-01-01 to the civil date [y]-[m]-[d], [m] from 1 to 12. *)
Definition daysFromCivil (y m d : Z) : Z :=
  let y' := if m <=? 2 then y - 1 else y in
  let era := y' / 400 in
  let yoe := y' - era * 400 in
  let mp := (m + 9) mod 12 in
  let doy := (153 * mp + 2) / 5 + d - 1 in
  let doe := yoe * 365 + yoe / 4 - yoe / 100 + doy in
  era * 146097 + doe - 719468.

(** The civil date (year, month from 1 to 12, day) of a day number. *)
Definition civilFromDays (z : Z) : Z * Z * Z :=
  let z' := z + 719468 in
  let era := z' / 146097 in
  let doe := z' - era * 146097 in
  let yoe := (doe - doe / 1460 + doe / 36524 - doe / 146096) / 365 in
  let doy := doe - (365 * yoe + yoe / 4 - yoe / 100) in
  let mp := (5 * doy + 2) / 153 in
  let d := doy - (153 * mp + 2) / 5 + 1 in
  let m := if mp <? 10 then mp + 3 else mp - 9 in
  let y := yoe + era * 400 in
  (if m <=? 2 then y + 1 else y, m, d).

(** [d.getDay()]: 0 is Sunday. *)
Definition getDay (f : DateFields) : Z :=
  (daysFromCivil (getFullYear f) (getMonth f + 1) (getDate f) + 4) mod 7.

(** [new Date(year, monthIndex, day)]: local midnight of the day reached
    after carrying months into years and days into months; a time value
    more than 100,000,000 days from the epoch is an invalid date. *)
Definition newDate (year monthIndex day : Z) : JSDate :=
  let yr := if (0 <=? year) && (year <=? 99) then 1900 + year else year in
  let t := daysFromCivil (yr + monthIndex / 12) (monthIndex mod 12 + 1) 1 + day - 1 in
  if Z.abs t <=? 100000000
  then match civilFromDays t with
       | (y, m, d) => ValidDate (mkDate y (m - 1) d 0)
       end
  else InvalidDate.

End Cal.

(** ** The host *)

(** What the JavaScript engine supplies and the script only calls:
    - [JSON_parse text]: [JSON.parse(text)], throwing a SyntaxError;
    - [Date_new v]: [new Date(v)], whose reading of a string that is not
      in the ISO format is implementation-defined;
    - [toLocaleDateString d]: [d.toLocaleDateString('en-US', {weekday:
      'short', month: 'short', day: 'numeric'})];
    - [toLocaleTimeString d]: [d.toLocaleTimeString('en-US', {hour:
      'numeric', minute: '2-digit', hour12: true})];
    - [URL_href url base]: [new URL(url, new URL(base)).href], throwing a
      TypeError when either URL does not parse. *)
Record Host : Type := mkHost {
  JSON_parse : string -> Exc JSValue;
  Date_new : JSValue -> JSDate;
  toLocaleDateString : JSDate -> string;
  toLocaleTimeString : JSDate -> string;
  URL_href : string -> string -> Exc string
}.

(** ** The data model *)

(** A row of [sources.csv]. The parser gives every cell as a string; a
    missing cell is the empty string, which the script treats like
    [undefined] everywhere (both are falsy and only tested for that). *)
Module Src.
Record SourceInfo : Type := mk {
  source : string;
  region : string;
  container_selector : string;
  title_selector : string;
  date_selector : string;
  time_selector : string;
  url_selector : string;
  extraction_type : string
}.
End Src.
Abbreviation SourceInfo := Src.SourceInfo.

(** The object pushed on [events]. The JSON strategies store values of the
    parsed document as they are, so these fields are [JSValue]s; the HTML
    strategy stores strings. *)
Record EventRecord : Type := mkEvent {
  title : JSValue;
  date : JSValue;
  time : JSValue;
  url : JSValue;
  venue : JSValue;
  region : string;
  source_url : string;
  is_today : bool
}.

(** A node of the tree built by [cheerio.load], seen through what the
    script asks of it: its text, its [href] attribute and, for a selector,
    the descendants that match it in document order. The selector engine
    throws on a selector it cannot parse. *)
#[warnings="-register-all"]
Inductive Element : Type :=
  | mkElement (text : string) (href : option string)
              (find : string -> Exc (list Element)).

Definition text (e : Element) : string :=
  match e with mkElement t _ _ => t end.
Definition attr_href (e : Element) : option string :=
  match e with mkElement _ h _ => h end.
Definition find (e : Element) (selector : string) : Exc (list Element) :=
  match e with mkElement _ _ f => f selector end.

(** The fetched page, seen through the searches the script runs on it:
    - [serverDataMatch]: group 1 of
      [/window\.__SERVER_DATA__\s*=\s*(\{[\s\S]*?\}\});/] when the page
      includes [window.__SERVER_DATA__] and the expression matches;
    - [ldJsonMatches]: for every match of
      [/<script type="application\/ld\+json">([\s\S]*?)<\/script>/g], the
      text between the two tags;
    - [jsonScriptTags]: the same for
      [/<script[^>]*?type="application\/json"[^>]*?>([\s\S]*?)<\/script>/gs];
    - [select selector]: [$(selector)] on [cheerio.load(html)]. *)
Record RawDocument : Type := mkDocument {
  serverDataMatch : option string;
  ldJsonMatches : list string;
  jsonScriptTags : list string;
  select : string -> Exc (list Element)
}.

(** ** Statements

    The body of [extractEvents] pushes on the array [events], sets the flag
    [foundEvents], returns from inside loops and catches what is thrown. A
    statement takes the two variables and gives them back with the way it
    ended. *)

Record Frame : Type := mkFrame {
  events : list EventRecord;
  foundEvents : bool
}.

Inductive Signal : Type :=
  | Next      (* the statement completed; go on with the following one *)
  | Return    (* [return events;] was executed *)
  | Raise.    (* an exception is propagating *)

Definition Stmt : Type := Frame -> Signal * Frame.

Module Stm.

Definition skip : Stmt := fun fr => (Next, fr).

Definition seq (s1 s2 : Stmt) : Stmt :=
  fun fr =>
    match s1 fr with
    | (Next, fr') => s2 fr'
    | stop => stop
    end.

(** [try { s } catch (e) { }] *)
Definition tryCatch (s : Stmt) : Stmt :=
  fun fr =>
    match s fr with
    | (Raise, fr') => (Next, fr')
    | other => other
    end.

(** Evaluates an expression, then runs the statement that uses its value. *)
Definition eval {A : Type} (e : Exc A) (k : A -> Stmt) : Stmt :=
  fun fr =>
    match e with
    | Ok a => k a fr
    | Throw => (Raise, fr)
    end.

(** [for (const x of xs) { body }] *)
Fixpoint forOf {A : Type} (xs : list A) (body : A -> Stmt) : Stmt :=
  match xs with
  | [] => skip
  | x :: rest => seq (body x) (forOf rest body)
  end.

(** [events.push(r)] *)
Definition push (r : EventRecord) : Stmt :=
  fun fr => (Next, mkFrame (events fr ++ [r]) (foundEvents fr)).

(** [foundEvents = b] *)
Definition setFound (b : bool) : Stmt :=
  fun fr => (Next, mkFrame (events fr) b).

(** [if (!foundEvents) { s }] *)
Definition unlessFound (s : Stmt) : Stmt :=
  fun fr => if foundEvents fr then (Next, fr) else s fr.

(** [if (events.length > 0) { return events; }] *)
Definition returnIfEvents : Stmt :=
  fun fr =>
    match events fr with
    | [] => (Next, fr)
    | _ :: _ => (Return, fr)
    end.

(** [return events;] *)
Definition returnEvents : Stmt := fun fr => (Return, fr).

(** [arr.forEach(event => { ... events.push(record) ... })], where the
    callback either leaves early ([None]) or pushes one record. *)
Definition forEachPush (arr : JSValue) (record : JSValue -> Exc (option EventRecord)) : Stmt :=
  eval (JS.arrayItems arr) (fun items =>
    forOf items (fun event =>
      eval (record event) (fun r =>
        match r with
        | Some e => push e
        | None => skip
        end))).

End Stm.

Declare Scope stmt_scope.
Delimit Scope stmt_scope with stmt.
Notation "s1 ;; s2" := (Stm.seq s1 s2)
  (at level 100, s2 at level 200, right associativity) : stmt_scope.

(** ** The extraction engine: [extractEvents] of process-html.js *)

Section Engine.

Variable host : Host.

(** [const today = new Date()] and the three constants read from it. *)
Variable today : DateFields.

Definition todayDate : Z := getDate today.
Definition todayMonth : Z := getMonth today + 1.
Definition todayYear : Z := getFullYear today.

Definition monthNames : list string :=
  ["january"; "february"; "march"; "april"; "may"; "june";
   "july"; "august"; "september"; "october"; "november"; "december"].
Definition shortMonthNames : list string :=
  ["jan"; "feb"; "mar"; "apr"; "may"; "jun"; "jul"; "aug"; "sep"; "oct"; "nov"; "dec"].
Definition dayNames : list string :=
  ["sunday"; "monday"; "tuesday"; "wednesday"; "thursday"; "friday"; "saturday"].
Definition shortDayNames : list string :=
  ["sun"; "mon"; "tue"; "wed"; "thu"; "fri"; "sat"].

(** [names[i]] as the argument of [includes]: outside the array the element
    is [undefined], which [includes] reads as the text "undefined". *)
Definition nameAt (names : list string) (i : Z) : string :=
  if i <? 0 then "undefined" else nth (Z.to_nat i) names "undefined".

(** [dateObj.getDate() === todayDate && dateObj.getMonth() === todayMonth - 1
    && dateObj.getFullYear() === todayYear]; the getters of an invalid date
    give NaN. *)
Definition isSameDay (dateObj : JSDate) : bool :=
  match dateObj with
  | InvalidDate => false
  | ValidDate f =>
      (getDate f =? todayDate) && (getMonth f =? todayMonth - 1) &&
      (getFullYear f =? todayYear)
  end.

(** [let isToday = false; if (dateObj) { isToday = ... }] where [dateObj] is
    [null] or a Date. *)
Definition isTodayOf (dateObj : option JSDate) : bool :=
  match dateObj with
  | Some d => isSameDay d
  | None => false
  end.

(** [dateObj ? dateObj.toLocaleDateString(...) : other] *)
Definition dateOr (dateObj : option JSDate) (other : JSValue) : JSValue :=
  match dateObj with
  | Some d => JStr (toLocaleDateString host d)
  | None => other
  end.

Definition timeOr (dateObj : option JSDate) (other : JSValue) : JSValue :=
  match dateObj with
  | Some d => JStr (toLocaleTimeString host d)
  | None => other
  end.

(** The parameters of [extractEvents(html, source, sourceUrl)]. *)
Variable html : RawDocument.
Variable source : SourceInfo.
Variable sourceUrl : string.

(** *** Eventbrite *)

(** The callback of [eventResults.forEach] (SERVER_DATA). *)
Definition serverDataEvent (event : JSValue) : Exc (option EventRecord) :=
  let! name := JS.getp event "name" in
  if negb (JS.truthy name) then Ok None else
  let! start_date := JS.getp event "start_date" in
  let! start_time := JS.getp event "start_time" in
  let dateObj :=
    if JS.truthy start_date
    then Some (Date_new host (JStr (JS.ToString start_date +:+ "T" +:+
                                    JS.ToString (JS.or start_time (JStr "00:00")))))
    else None in
  let time :=
    if JS.truthy start_time
    then JStr (toLocaleTimeString host
                 (Date_new host (JStr ("2000-01-01T" +:+ JS.ToString start_time))))
    else JStr "" in
  let! url := JS.getp event "url" in
  let! primary_venue := JS.getp event "primary_venue" in
  let! venueName := JS.getopt primary_venue "name" in
  Ok (Some {| title := name;
              date := dateOr dateObj (JStr "");
              time := time;
              url := url;
              venue := JS.or venueName (JStr (Src.source source));
              region := Src.region source;
              source_url := sourceUrl;
              is_today := isTodayOf dateObj |}).

(** The callback of [eventData.forEach] (ld+json found by the Eventbrite
    branch). *)
Definition eventbriteLdEvent (event : JSValue) : Exc (option EventRecord) :=
  let! name := JS.getp event "name" in
  if negb (JS.truthy name) then Ok None else
  let! startDate := JS.getp event "startDate" in
  let! datePublished := JS.getp event "datePublished" in
  let dateObj :=
    if JS.truthy startDate then Some (Date_new host startDate)
    else if JS.truthy datePublished then Some (Date_new host datePublished)
    else None in
  let! url := JS.getp event "url" in
  let! offers := JS.getp event "offers" in
  let! offersUrl := JS.getopt offers "url" in
  let! location := JS.getp event "location" in
  let! locationName := JS.getopt location "name" in
  Ok (Some {| title := name;
              date := dateOr dateObj (JStr "");
              time := timeOr dateObj (JStr "");
              url := JS.or url offersUrl;
              venue := JS.or locationName (JStr (Src.source source));
              region := Src.region source;
              source_url := sourceUrl;
              is_today := isTodayOf dateObj |}).

(** [parsedJson.some(item => item['@type'] === 'Event')] *)
Fixpoint someIsEvent (items : list JSValue) : Exc bool :=
  match items with
  | [] => Ok false
  | item :: rest =>
      let! ty := JS.getp item "@type" in
      if JS.isStr ty "Event" then Ok true else someIsEvent rest
  end.

(** [parsedJson && (parsedJson['@type'] === 'Event' ||
    (Array.isArray(parsedJson) && parsedJson.some(...)))] *)
Definition holdsEvent (parsedJson : JSValue) : Exc bool :=
  if negb (JS.truthy parsedJson) then Ok false else
  let! ty := JS.getp parsedJson "@type" in
  if JS.isStr ty "Event" then Ok true else
  match parsedJson with
  | JArr items => someIsEvent items
  | _ => Ok false
  end.

(** The loop over [jsonLdMatches]: the first block that parses and holds an
    event gives [{ events: parsedJson }]; a block that throws is passed
    over. *)
Fixpoint firstLdJson (jsonLdMatches : list string) : JSValue :=
  match jsonLdMatches with
  | [] => JNull
  | jsonContent :: rest =>
      match (let! parsedJson := JSON_parse host jsonContent in
             let! found := holdsEvent parsedJson in
             Ok (found, parsedJson)) with
      | Ok (true, parsedJson) => JObj [("events", parsedJson)]
      | _ => firstLdJson rest
      end
  end.

(** [jsonData] after the two tries. *)
Definition eventbriteJsonData : JSValue :=
  let jsonData :=
    match serverDataMatch html with
    | Some text =>
        match JSON_parse host text with
        | Ok v => v
        | Throw => JNull
        end
    | None => JNull
    end in
  if negb (JS.truthy jsonData) then firstLdJson (ldJsonMatches html) else jsonData.

(** [jsonData.search_data && jsonData.search_data.events &&
    jsonData.search_data.events.results] *)
Definition serverDataResults (jsonData : JSValue) : Exc JSValue :=
  let! search_data := JS.getp jsonData "search_data" in
  if negb (JS.truthy search_data) then Ok search_data else
  let! evs := JS.getp search_data "events" in
  if negb (JS.truthy evs) then Ok evs else
  JS.getp evs "results".

Local Open Scope stmt_scope.

Definition eventbrite : Stmt :=
  Stm.tryCatch
    (let jsonData := eventbriteJsonData in
     if JS.truthy jsonData then
       Stm.eval (serverDataResults jsonData) (fun eventResults =>
         if JS.truthy eventResults then
           Stm.forEachPush eventResults serverDataEvent
         else
           Stm.eval (JS.getp jsonData "events") (fun evs =>
             if JS.truthy evs then
               Stm.forEachPush (if JS.isArray evs then evs else JArr [evs])
                               eventbriteLdEvent
             else Stm.skip)) ;;
       Stm.returnIfEvents
     else Stm.skip).

(** *** Bandsintown *)

(** The callback of [path.forEach] (Next.js data). *)
Definition nextJsEvent (event : JSValue) : Exc (option EventRecord) :=
  let! title1 := JS.getp event "title" in
  let! name := JS.getp event "name" in
  let! artist := JS.getp event "artist" in
  let! artistName := JS.getopt artist "name" in
  let title := JS.or (JS.or (JS.or title1 name) artistName) (JStr "") in
  if negb (JS.truthy title) then Ok None else
  let! datetime := JS.getp event "datetime" in
  let! date1 := JS.getp event "date" in
  let! starts_at := JS.getp event "starts_at" in
  let dateObj :=
    if JS.truthy datetime then Some (Date_new host datetime)
    else if JS.truthy date1 then Some (Date_new host date1)
    else if JS.truthy starts_at then Some (Date_new host starts_at)
    else None in
  let! date_description := JS.getp event "date_description" in
  let! time_description := JS.getp event "time_description" in
  let! venue1 := JS.getp event "venue" in
  let! venueName := JS.getopt venue1 "name" in
  let! location := JS.getp event "location" in
  let! locationName := JS.getopt location "name" in
  let! place := JS.getp event "place" in
  let! placeName := JS.getopt place "name" in
  let venue := JS.or (JS.or (JS.or venueName locationName) placeName) (JStr "") in
  let! url := JS.getp event "url" in
  let! ticket_url := JS.getp event "ticket_url" in
  let! links := JS.getp event "links" in
  let! tickets := JS.getopt links "tickets" in
  let! eventLink := JS.getopt links "event" in
  Ok (Some {| title := title;
              date := dateOr dateObj (JS.or date_description (JStr ""));
              time := timeOr dateObj (JS.or time_description (JStr ""));
              url := JS.or (JS.or (JS.or (JS.or url ticket_url) tickets) eventLink) (JStr "");
              venue := JS.or venue (JStr (Src.source source));
              region := Src.region source;
              source_url := sourceUrl;
              is_today := isTodayOf dateObj |}).

(** The callback of [eventData.forEach] for schema.org data; [offersUrl]
    is the part of the script that differs between the Bandsintown branch
    and the generic one: how the URL of an offer is read from a truthy
    [event.offers]. *)
Definition schemaOrgEvent (offersUrl : JSValue -> Exc JSValue) (event : JSValue)
  : Exc (option EventRecord) :=
  let! name := JS.getp event "name" in
  if negb (JS.truthy name) then Ok None else
  let! startDate := JS.getp event "startDate" in
  let dateObj := if JS.truthy startDate then Some (Date_new host startDate) else None in
  let! location := JS.getp event "location" in
  let! locationName := JS.getopt location "name" in
  let venue := JS.or locationName (JStr "") in
  let! url := JS.getp event "url" in
  let! offers := JS.getp event "offers" in
  let! fromOffers := (if JS.truthy offers then offersUrl offers else Ok offers) in
  Ok (Some {| title := name;
              date := dateOr dateObj (JStr "");
              time := timeOr dateObj (JStr "");
              url := JS.or (JS.or url fromOffers) (JStr "");
              venue := JS.or venue (JStr (Src.source source));
              region := Src.region source;
              source_url := sourceUrl;
              is_today := isTodayOf dateObj |}).

(** [event.offers[0]?.url] *)
Definition firstOfferUrl (offers : JSValue) : Exc JSValue :=
  let! first := JS.getFirst offers in
  JS.getopt first "url".

(** [Array.isArray(event.offers) ? event.offers[0]?.url : event.offers.url] *)
Definition anyOfferUrl (offers : JSValue) : Exc JSValue :=
  if JS.isArray offers then firstOfferUrl offers else JS.getp offers "url".

(** [queries.flatMap(q => q.state?.data || [])] *)
Fixpoint flatMapStateData (queries : list JSValue) : Exc (list JSValue) :=
  match queries with
  | [] => Ok []
  | q :: rest =>
      let! state := JS.getp q "state" in
      let! data := JS.getopt state "data" in
      let! others := flatMapStateData rest in
      Ok (match JS.or data (JArr []) with
          | JArr items => items ++ others
          | v => v :: others
          end)
  end.

(** [jsonData.props.pageProps.dehydratedState?.queries?.flatMap(...)] *)
Definition dehydratedData (pageProps : JSValue) : Exc JSValue :=
  let! dehydratedState := JS.getp pageProps "dehydratedState" in
  let! queries := JS.getopt dehydratedState "queries" in
  if JS.isNullish queries then Ok JUndefined else
  let! items := JS.arrayItems queries in
  let! flat := flatMapStateData items in
  Ok (JArr flat).

(** [jsonData.props && jsonData.props.pageProps] *)
Definition nextJsPageProps (jsonData : JSValue) : Exc JSValue :=
  let! props := JS.getp jsonData "props" in
  if negb (JS.truthy props) then Ok props else JS.getp props "pageProps".

(** [path[0].title || path[0].name || path[0].event_type || path[0].venue] *)
Definition looksLikeEvent (first : JSValue) : Exc bool :=
  let! a := JS.getp first "title" in
  let! b := JS.getp first "name" in
  let! c := JS.getp first "event_type" in
  let! d := JS.getp first "venue" in
  Ok (JS.truthy (JS.or (JS.or (JS.or a b) c) d)).

(** The body of [for (const path of paths)]. *)
Definition nextJsPath (path : JSValue) : Stmt :=
  match path with
  | JArr (first :: _) =>
      Stm.eval (looksLikeEvent first) (fun looksLike =>
        if looksLike then
          Stm.setFound true ;;
          Stm.forEachPush path nextJsEvent ;;
          Stm.returnIfEvents
        else Stm.skip)
  | _ => Stm.skip
  end.

(** The body of [for (const scriptTag of scriptTags)], inside its [try]. *)
Definition nextJsScriptTag (jsonContent : string) : Stmt :=
  Stm.eval (JSON_parse host (Str.trim jsonContent)) (fun jsonData =>
  Stm.eval (nextJsPageProps jsonData) (fun pageProps =>
    if JS.truthy pageProps then
      Stm.eval (let! evs := JS.getp pageProps "events" in
                let! upcomingEvents := JS.getp pageProps "upcomingEvents" in
                let! dehydrated := dehydratedData pageProps in
                Ok [evs; upcomingEvents; dehydrated])
        (fun paths => Stm.forOf paths nextJsPath)
    else Stm.skip)).

(** [data['@type'] === 'Event' ? [data] : Array.isArray(data) && data[0] &&
    data[0]['@type'] === 'Event' ? data : null], [None] standing for
    [null]. *)
Definition eventOrEvents (data : JSValue) : Exc (option (list JSValue)) :=
  let! ty := JS.getp data "@type" in
  if JS.isStr ty "Event" then Ok (Some [data]) else
  match data with
  | JArr (first :: rest) =>
      if JS.truthy first then
        let! ty0 := JS.getp first "@type" in
        Ok (if JS.isStr ty0 "Event" then Some (first :: rest) else None)
      else Ok None
  | _ => Ok None
  end.

(** The body of [for (const tag of jsonLdTags)] of the Bandsintown branch,
    inside its [try]. *)
Definition bandsintownLdTag (content : string) : Stmt :=
  Stm.eval (JSON_parse host (Str.trim content)) (fun data =>
  Stm.eval (eventOrEvents data) (fun eventData =>
    match eventData with
    | Some items =>
        Stm.setFound true ;;
        Stm.forEachPush (JArr items) (schemaOrgEvent firstOfferUrl) ;;
        Stm.returnIfEvents
    | None => Stm.skip
    end)).

Definition bandsintown : Stmt :=
  Stm.tryCatch
    (Stm.setFound false ;;
     Stm.forOf (jsonScriptTags html) (fun scriptTag => Stm.tryCatch (nextJsScriptTag scriptTag)) ;;
     Stm.unlessFound
       (Stm.forOf (ldJsonMatches html) (fun tag => Stm.tryCatch (bandsintownLdTag tag)))).

(** *** Generic JSON-LD *)

(** [item => item['@type'] === 'Event'] under [filter]. *)
Fixpoint filterEvents (items : list JSValue) : Exc (list JSValue) :=
  match items with
  | [] => Ok []
  | item :: rest =>
      let! ty := JS.getp item "@type" in
      let! others := filterEvents rest in
      Ok (if JS.isStr ty "Event" then item :: others else others)
  end.

(** [eventData] of the generic branch, which also looks under [@graph]. *)
Definition eventOrEventsOrGraph (data : JSValue) : Exc (option (list JSValue)) :=
  let! ty := JS.getp data "@type" in
  if JS.isStr ty "Event" then Ok (Some [data]) else
  let! fromArray :=
    match data with
    | JArr (first :: rest) =>
        if JS.truthy first then
          let! ty0 := JS.getp first "@type" in
          Ok (if JS.isStr ty0 "Event" then Some (first :: rest) else None)
        else Ok None
    | _ => Ok None
    end in
  match fromArray with
  | Some items => Ok (Some items)
  | None =>
      let! graph := JS.getp data "@graph" in
      match graph with
      | JArr items => let! evs := filterEvents items in Ok (Some evs)
      | _ => Ok None
      end
  end.

Definition genericLdTag (content : string) : Stmt :=
  Stm.eval (JSON_parse host (Str.trim content)) (fun data =>
  Stm.eval (eventOrEventsOrGraph data) (fun eventData =>
    match eventData with
    | Some ((_ :: _) as items) =>
        Stm.forEachPush (JArr items) (schemaOrgEvent anyOfferUrl) ;;
        Stm.returnIfEvents
    | _ => Stm.skip
    end)).

Definition genericJson : Stmt :=
  Stm.tryCatch
    (Stm.forOf (ldJsonMatches html) (fun tag => Stm.tryCatch (genericLdTag tag))).

(** *** Standard HTML extraction *)

(** [selection.first().text()] *)
Definition firstText (selection : list Element) : string :=
  match selection with
  | [] => EmptyString
  | e :: _ => text e
  end.

(** [selection.find(selector)]: the matches under every element of the
    selection, in document order. *)
Fixpoint findAll (selection : list Element) (selector : string) : Exc (list Element) :=
  match selection with
  | [] => Ok []
  | e :: rest =>
      let! here := find e selector in
      let! there := findAll rest selector in
      Ok (here ++ there)
  end.

Definition nonEmpty (s : string) : bool := negb (String.eqb s "").

(** The texts of all matched elements, each trimmed, the empty ones
    dropped, joined with a space; then [.replace(/\s+/g, ' ').trim()]. *)
Definition joinedText (elements : list Element) : string :=
  let texts := List.filter nonEmpty (List.map (fun e => Str.trim (text e)) elements) in
  Str.trim (Str.collapseWhiteSpace (Str.join " " texts)).

Definition htmlTitle (container : Element) : Exc string :=
  if nonEmpty (Src.title_selector source) then
    let! matched := find container (Src.title_selector source) in
    let title := Str.trim (firstText matched) in
    if nonEmpty title then Ok title else
    let! anchors := findAll matched "a" in
    match anchors with
    | [] => Ok title
    | _ :: _ => Ok (Str.trim (firstText anchors))
    end
  else Ok EmptyString.

Definition htmlJoined (selector : string) (container : Element) : Exc string :=
  if nonEmpty selector then
    let! matched := find container selector in
    Ok (joinedText matched)
  else Ok EmptyString.

(** [venueNameFromHTML] *)
Definition htmlVenueName (container : Element) : Exc string :=
  if String.eqb (Src.source source) "Songkick" && nonEmpty (Src.time_selector source) then
    let! matched := find container (Src.time_selector source) in
    Ok (Str.trim (firstText matched))
  else Ok EmptyString.

(** [urlElement.attr('href') || ''] *)
Definition hrefOfFirst (selection : list Element) : string :=
  match selection with
  | e :: _ => match attr_href e with Some h => h | None => EmptyString end
  | [] => EmptyString
  end.

(** [if (url && !url.startsWith('http')) { try { url = new URL(url,
    new URL(sourceUrl)).href } catch (e) { } }] *)
Definition makeAbsolute (url : string) : string :=
  if nonEmpty url && negb (Str.startsWith url "http") then
    match URL_href host url sourceUrl with
    | Ok href => href
    | Throw => url
    end
  else url.

Definition htmlUrl (container : Element) : Exc string :=
  if nonEmpty (Src.url_selector source) then
    let! matched := find container (Src.url_selector source) in
    Ok (makeAbsolute (hrefOfFirst matched))
  else Ok EmptyString.

(** The [isToday] of a container, from its date text. *)
Definition htmlIsToday (date : string) : bool :=
  if nonEmpty date then
    let lowerDate := Str.toLowerCase date in
    (Str.includes lowerDate "today" || Str.includes lowerDate "tonight") ||
    (Str.includes lowerDate (Str.ofZ todayDate) &&
     ((Str.includes lowerDate (nameAt monthNames (todayMonth - 1)) ||
       Str.includes lowerDate (nameAt shortMonthNames (todayMonth - 1))) ||
      Str.includes lowerDate (nameAt shortDayNames (Cal.getDay today))))
  else false.

(** The body of the [try] in [containers.each]: [None] is the early
    [return] on a missing or too long title. *)
Definition htmlEvent (container : Element) : Exc (option EventRecord) :=
  let! title := htmlTitle container in
  let! date := htmlJoined (Src.date_selector source) container in
  let! time := htmlJoined (Src.time_selector source) container in
  let! venueNameFromHTML := htmlVenueName container in
  let! url := htmlUrl container in
  if negb (nonEmpty title) || (100 <? String.length title)%nat then Ok None else
  let isToday := htmlIsToday date in
  if String.eqb (Src.source source) "Songkick" then
    Ok (Some {| title := JStr title;
                date := JStr date;
                time := JStr "";
                url := JStr url;
                venue := JS.or (JStr venueNameFromHTML) (JStr (Src.source source));
                region := Src.region source;
                source_url := sourceUrl;
                is_today := isToday |})
  else
    Ok (Some {| title := JStr title;
                date := JStr date;
                time := JStr time;
                url := JStr url;
                venue := JStr (Src.source source);
                region := Src.region source;
                source_url := sourceUrl;
                is_today := isToday |}).

(** The callback of [containers.each], called with the index [i]. *)
Definition eachContainer (i : nat) (container : Element) : Stmt :=
  if (30 <=? i)%nat then Stm.skip
  else
    Stm.tryCatch
      (Stm.eval (htmlEvent container) (fun r =>
         match r with
         | Some e => Stm.push e
         | None => Stm.skip
         end)).

(** [containers.each(function (i) { ... })] from index [i] on. *)
Fixpoint eachFrom (i : nat) (containers : list Element) : Stmt :=
  match containers with
  | [] => Stm.skip
  | c :: rest => eachContainer i c ;; eachFrom (S i) rest
  end.

Definition standardHtml : Stmt :=
  if negb (nonEmpty (Src.container_selector source)) then Stm.returnEvents
  else
    Stm.eval (select html (Src.container_selector source)) (fun containers =>
      eachFrom 0 containers ;;
      Stm.returnEvents).

(** *** [extractEvents] *)

Definition jsonStrategies : Stmt :=
  if String.eqb (Src.extraction_type source) "json" then
    (if String.eqb (Src.source source) "Eventbrite" then eventbrite else Stm.skip) ;;
    (if String.eqb (Src.source source) "Bandsintown" then bandsintown else Stm.skip) ;;
    genericJson
  else Stm.skip.

Definition extractEventsBody : Stmt := jsonStrategies ;; standardHtml.

(** The array returned by [extractEvents], or [Throw] when an exception
    leaves the function. *)
Definition extractEvents : Exc (list EventRecord) :=
  match extractEventsBody (mkFrame [] false) with
  | (Raise, _) => Throw
  | (_, fr) => Ok (events fr)
  end.

End Engine.

(** ** The today report: the revision of [processHtmlFiles] with the two
    date filters *)

Section Report.

Variable host : Host.
Variable today : DateFields.

Let todayDate : Z := todayDate today.
Let todayMonth : Z := todayMonth today.
Let todayYear : Z := todayYear today.
Let dayOfWeek : Z := Cal.getDay today.

(** [otherMonths.some(month => lowerDate.includes(month))], where
    [otherMonths] is every full or short month name that is neither the
    full nor the short name of this month. *)
Definition hasOtherMonth (lowerDate : string) : bool :=
  existsb (fun m => Str.includes lowerDate m)
    (List.filter
       (fun m => negb (String.eqb m (nameAt monthNames (todayMonth - 1))) &&
                 negb (String.eqb m (nameAt shortMonthNames (todayMonth - 1))))
       (monthNames ++ shortMonthNames)).

(** The [try] block of the filter: the date the text parses to. *)
Definition parsedDate (lowerDate : string) : JSDate :=
  let dateString := Str.trim lowerDate in
  match Str.twoNumbers "." dateString with
  | Some (m, d) => Cal.newDate todayYear (m - 1) d
  | None =>
      match Str.twoNumbers "/" dateString with
      | Some (m, d) => Cal.newDate todayYear (m - 1) d
      | None => Date_new host (JStr dateString)
      end
  end.

(** [dateObj.getDate() === todayDate && dateObj.getMonth() === todayMonth - 1
    && (dateObj.getFullYear() === todayYear || dateObj.getFullYear() === 0)],
    under [!isNaN(dateObj.getTime())]. *)
Definition isMatchingDate (dateObj : JSDate) : bool :=
  match dateObj with
  | InvalidDate => false
  | ValidDate f =>
      (getDate f =? todayDate) && (getMonth f =? todayMonth - 1) &&
      ((getFullYear f =? todayYear) || (getFullYear f =? 0))
  end.

(** The checks of the filter on the lower-cased date text, in order. *)
Definition isTodayText (lowerDate : string) : bool :=
  let hasMonth :=
    Str.includes lowerDate (nameAt monthNames (todayMonth - 1)) ||
    Str.includes lowerDate (nameAt shortMonthNames (todayMonth - 1)) in
  let day := Str.ofZ todayDate in
  (Str.includes lowerDate "today" || Str.includes lowerDate "tonight") ||
  ((Str.includes lowerDate (nameAt dayNames dayOfWeek) ||
    Str.includes lowerDate (nameAt shortDayNames dayOfWeek)) &&
   hasMonth && Str.includes lowerDate day) ||
  (hasMonth &&
   (Str.includes lowerDate (" " +:+ day) || Str.includes lowerDate (day +:+ ",") ||
    Str.includes lowerDate (day +:+ " ") || Str.endsWith lowerDate day) &&
   negb (hasOtherMonth lowerDate)) ||
  Str.testWordBounded (Str.ofZ todayMonth +:+ "." +:+ day) lowerDate ||
  Str.testWordBounded (Str.ofZ todayMonth +:+ "/" +:+ day) lowerDate ||
  isMatchingDate (parsedDate lowerDate).

(** The predicate of [allEvents.filter(...)] that gives [todaysEvents]. *)
Definition isTodaysEvent (event : EventRecord) : Exc bool :=
  if is_today event then Ok true
  else if JS.truthy (date event) then
    let! lowerDate := JS.toLowerCase (date event) in
    Ok (isTodayText lowerDate)
  else Ok false.

(** [Array.from({length: n}, (_, i) => i + first)] *)
Fixpoint range (first : Z) (n : nat) : list Z :=
  match n with
  | O => []
  | S n' => first :: range (first + 1) n'
  end.

(** The first loop of the strict pass: a day name other than today's. *)
Definition mentionsOtherDayName (lowerDate : string) : bool :=
  existsb
    (fun i => negb (i =? dayOfWeek) &&
              (Str.includes lowerDate (nameAt dayNames i) ||
               Str.includes lowerDate (nameAt shortDayNames i)))
    (range 0 7).

Definition otherDates : list Z :=
  List.filter (fun d => negb (d =? todayDate)) (range 1 31).

(** The condition of the second loop for one [otherDate]. *)
Definition mentionsDate (lowerDate : string) (otherDate : Z) : bool :=
  let d := Str.ofZ otherDate in
  Str.includes lowerDate (" " +:+ d) ||
  Str.includes lowerDate (d +:+ ",") ||
  Str.testWordBounded (Str.ofZ todayMonth +:+ "/" +:+ d) lowerDate ||
  Str.testWordBounded (Str.ofZ todayMonth +:+ "." +:+ d) lowerDate.

Definition mentionsOtherDate (lowerDate : string) : bool :=
  existsb (mentionsDate lowerDate) otherDates.

(** The predicate of [todaysEvents.filter(...)] that gives
    [strictlyFilteredEvents]: [false] removes the record. *)
Definition keptByStrictPass (event : EventRecord) : Exc bool :=
  if JS.truthy (date event) then
    let! lowerDate := JS.toLowerCase (date event) in
    Ok (negb (mentionsOtherDayName lowerDate) && negb (mentionsOtherDate lowerDate))
  else Ok true.

(** [list.filter(predicate)] with a predicate that may throw. *)
Fixpoint filterExc {A : Type} (predicate : A -> Exc bool) (l : list A) : Exc (list A) :=
  match l with
  | [] => Ok []
  | x :: rest =>
      let! keep := predicate x in
      let! others := filterExc predicate rest in
      Ok (if keep then x :: others else others)
  end.

Definition todaysEvents (allEvents : list EventRecord) : Exc (list EventRecord) :=
  filterExc isTodaysEvent allEvents.

Definition strictlyFilteredEvents (allEvents : list EventRecord) : Exc (list EventRecord) :=
  let! todays := todaysEvents allEvents in
  filterExc keptByStrictPass todays.

End Report.

(** ** Grouping by region, then by venue *)

(** [event.region || 'Other Areas'] *)
Definition regionKey (event : EventRecord) : string :=
  if nonEmpty (region event) then region event else "Other Areas".

(** [event.venue || 'Unknown Venue'], converted to a property key. *)
Definition venueKey (event : EventRecord) : string :=
  JS.ToString (JS.or (venue event) (JStr "Unknown Venue")).

(** ** File names: [sanitizeFilename] and the name of a page's dump

    The same two expressions name the file in fetch-html.js, which writes
    it, and in process-html.js ([getHtmlFilePath]), which reads it. *)

Module Files.

Definition isAlnum (c : ascii) : bool :=
  let n := Str.codeUnit c in
  (Str.isDigit c || (65 <=? n) && (n <=? 90) || (97 <=? n) && (n <=? 122))%N.

(** [url.replace(/[^a-z0-9]/gi, '_')] *)
Fixpoint replaceNonAlnum (url : string) : string :=
  match url with
  | EmptyString => EmptyString
  | String c rest => String (if isAlnum c then c else "_"%char) (replaceNonAlnum rest)
  end.

Definition sanitizeFilename (url : string) : string :=
  Str.toLowerCase (replaceNonAlnum url).

(** [name.replace(/\s+/g, '_')]; [inRun] tells that the previous character
    was white space. *)
Fixpoint underscoreRuns (inRun : bool) (name : string) : string :=
  match name with
  | EmptyString => EmptyString
  | String c rest =>
      if Str.isWhiteSpace c
      then (if inRun then underscoreRuns true rest
            else String "_" (underscoreRuns true rest))
      else String c (underscoreRuns false rest)
  end.

(** [`${source.source.replace(/\s+/g, '_')}_${sanitizeFilename(source.url)}.html`] *)
Definition htmlFileName (sourceName url : string) : string :=
  underscoreRuns false sourceName +:+ "_" +:+ sanitizeFilename url +:+ ".html".

(** The text after the last slash, when there is one. *)
Fixpoint afterLastSlash (path : string) : option string :=
  match path with
  | EmptyString => None
  | String c rest =>
      match afterLastSlash rest with
      | Some name => Some name
      | None => if Ascii.eqb c "/" then Some rest else None
      end
  end.

(** [path.basename(path.join(__dirname, 'html_dumps', filename))] for a
    file name that does not end with a slash (it ends with [.html]): its
    last segment, the slash being the separator (POSIX paths). *)
Definition basename (filename : string) : string :=
  match afterLastSlash filename with
  | Some name => name
  | None => filename
  end.

(** The characters [sanitizeFilename] leaves: lower-case letters, digits
    and the underscore. *)
Definition isSafeChar (c : ascii) : bool :=
  let n := Str.codeUnit c in
  (Str.isDigit c || (97 <=? n) && (n <=? 122) || (n =? 95))%N.

Fixpoint allChars (p : ascii -> bool) (s : string) : bool :=
  match s with
  | EmptyString => true
  | String c rest => p c && allChars p rest
  end.

End Files.

(** ** [processHtmlFiles]: from the rows of sources.csv to [allEvents] *)

(** A row of sources.csv: the columns [extractEvents] reads and the URL of
    the page. *)
Module Csv.
Record Row : Type := mk {
  info : SourceInfo;
  url : string
}.
End Csv.

(** An element of [successfulFetches]. *)
Module Fetch.
Record Fetch : Type := mk {
  source : string;
  url : string;
  file : string
}.
End Fetch.

Section Aggregate.

Variable host : Host.
Variable today : DateFields.

(** The file system: [fs.existsSync] and [fs.readFileSync] on a path
    under [html_dumps], the text read being seen as a [RawDocument]. *)
Variable existsSync : string -> bool.
Variable readFileSync : string -> Exc RawDocument.

Variable sources : list Csv.Row.

Definition fileNameOf (row : Csv.Row) : string :=
  Files.htmlFileName (Src.source (Csv.info row)) (Csv.url row).

(** [sources.filter(source => fs.existsSync(getHtmlFilePath(source)))
           .map(source => ({ source: source.source, url: source.url,
                             file: path.basename(getHtmlFilePath(source)), ... }))] *)
Definition successfulFetches : list Fetch.Fetch :=
  List.map (fun row => Fetch.mk (Src.source (Csv.info row)) (Csv.url row)
                                (Files.basename (fileNameOf row)))
           (List.filter (fun row => existsSync (fileNameOf row)) sources).

(** [sources.find(s => s.source === fetch.source)] *)
Definition sourceInfoOf (fetch : Fetch.Fetch) : option Csv.Row :=
  List.find (fun row => String.eqb (Src.source (Csv.info row)) (Fetch.source fetch)) sources.

(** The body of [fetches.forEach]: what one fetch spreads on [allEvents].
    A fetch without source info returns early; an exception of
    [readFileSync] or of [extractEvents] is caught, and nothing was pushed
    yet. *)
Definition eventsOfFetch (fetch : Fetch.Fetch) : list EventRecord :=
  match sourceInfoOf fetch with
  | None => []
  | Some row =>
      match (let! html := readFileSync (Fetch.file fetch) in
             extractEvents host today html (Csv.info row) (Fetch.url fetch)) with
      | Ok evs => evs
      | Throw => []
      end
  end.

(** [allEvents] after the loop. *)
Definition allEvents (fetches : list Fetch.Fetch) : list EventRecord :=
  List.flat_map eventsOfFetch fetches.

End Aggregate.

(** ** The report: [eventsByRegion] in enumeration order and the markdown *)

Module Report.

(** The own properties of an object in the order of their creation. *)
Definition Props (V : Type) : Type := list (string * V).

(** The own property [k] of [obj], when it has one. *)
Fixpoint get {V : Type} (k : string) (obj : Props V) : option V :=
  match obj with
  | [] => None
  | (k', v) :: rest => if String.eqb k k' then Some v else get k rest
  end.

(** The assignment [obj[k] = update(own)], where [own] is the own property
    [k] of [obj] if there is one: an existing property keeps its place, a
    new one comes last. *)
Fixpoint set {V : Type} (k : string) (update : option V -> V) (obj : Props V) : Props V :=
  match obj with
  | [] => [(k, update None)]
  | (k', v) :: rest =>
      if String.eqb k k' then (k', update (Some v)) :: rest
      else (k', v) :: set k update rest
  end.

(** The own properties of [Object.prototype]: what [obj[k]] finds on an
    object made by [{}] that has no own property [k]. All are functions,
    but [__proto__], an accessor that gives [Object.prototype] itself. *)
Definition objectPrototypeNames : list string :=
  ["constructor"; "__defineGetter__"; "__defineSetter__"; "hasOwnProperty";
   "__lookupGetter__"; "__lookupSetter__"; "isPrototypeOf"; "propertyIsEnumerable";
   "toString"; "valueOf"; "__proto__"; "toLocaleString"].

Definition inherited (k : string) : bool :=
  existsb (String.eqb k) objectPrototypeNames.

(** How the grouping loop goes on after a statement: it continues, or a
    [TypeError] leaves [processHtmlFiles] (the loop is in no [try]), or
    the statement has added a property to [Object.prototype] itself, from
    where on every object of the program inherits it; the embedding does
    not follow the script past that point. *)
Inductive Run (A : Type) : Type :=
  | Done (a : A)
  | TypeError
  | ExtendsObjectPrototype.

Arguments Done {A} a.
Arguments TypeError {A}.
Arguments ExtendsObjectPrototype {A}.

Definition andThen {A B : Type} (r : Run A) (k : A -> Run B) : Run B :=
  match r with
  | Done a => k a
  | TypeError => TypeError
  | ExtendsObjectPrototype => ExtendsObjectPrototype
  end.

Section Grouping.

(** The built-in objects of the engine. When [region] is one of
    [objectPrototypeNames], [eventsByRegion[region]] is the built-in
    object [F] of that name (a function, or [Object.prototype] for
    [__proto__]) and the statements
    [if (!F[venue]) { F[venue] = []; } F[venue].push(event);] run on [F].
    [rejects region venue] tells that they throw: [F] has a property
    [venue], of its own or inherited ([length], [name], [call], the names
    of [Object.prototype], ...), which is not an array and is not replaced
    by one. Otherwise an array is hung on [F] under [venue] and the record
    is pushed on it. Which names [F] has depends on the engine. *)
Variable rejects : string -> string -> bool.

(** [if (!obj[venue]) { obj[venue] = []; } obj[venue].push(event);] on an
    object [obj] made by [{}]: without an own property, a [venue] that is
    a name of [Object.prototype] finds a built-in there, which is truthy
    and has no [push]. *)
Definition pushUnder (venue : string) (event : EventRecord)
    (obj : Props (list EventRecord)) : Run (Props (list EventRecord)) :=
  match get venue obj with
  | Some events => Done (set venue (fun _ => events ++ [event]) obj)
  | None =>
      if inherited venue then TypeError
      else Done (set venue (fun _ => [event]) obj)
  end.

(** The callback of [extractedEvents.forEach]. When [eventsByRegion] has
    no own property [region] and [region] is a name of [Object.prototype],
    the built-in is truthy, no own property is created, and the record
    goes to the built-in or the push throws. *)
Definition addEvent (eventsByRegion : Props (Props (list EventRecord))) (event : EventRecord)
  : Run (Props (Props (list EventRecord))) :=
  let region := regionKey event in
  let venue := venueKey event in
  match get region eventsByRegion with
  | Some ofRegion =>
      andThen (pushUnder venue event ofRegion) (fun ofRegion' =>
      Done (set region (fun _ => ofRegion') eventsByRegion))
  | None =>
      if inherited region then
        if rejects region venue then TypeError
        else if String.eqb region "__proto__" then ExtendsObjectPrototype
        else Done eventsByRegion
      else
        andThen (pushUnder venue event []) (fun ofRegion' =>
        Done (set region (fun _ => ofRegion') eventsByRegion))
  end.

(** [extractedEvents.forEach(event => { ... })] from the object
    [eventsByRegion] on. *)
Fixpoint forEach (extractedEvents : list EventRecord)
    (eventsByRegion : Props (Props (list EventRecord)))
  : Run (Props (Props (list EventRecord))) :=
  match extractedEvents with
  | [] => Done eventsByRegion
  | event :: rest => andThen (addEvent eventsByRegion event) (forEach rest)
  end.

(** [eventsByRegion] after the loop, which starts from [{}]. *)
Definition eventsByRegion (extractedEvents : list EventRecord)
  : Run (Props (Props (list EventRecord))) :=
  forEach extractedEvents [].

End Grouping.

(** A property name that is an array index: the decimal form, without
    leading zeros, of an integer from 0 to 4294967294. *)
Definition isArrayIndex (k : string) : bool :=
  nonEmpty k && Str.allDigits k &&
  (String.eqb k "0" || negb (Str.startsWith k "0")) &&
  (Str.digitsValue 0 k <=? 4294967294).

Fixpoint insertByIndex {V : Type} (p : string * V) (sorted : Props V) : Props V :=
  match sorted with
  | [] => [p]
  | q :: rest =>
      if Str.digitsValue 0 (fst p) <=? Str.digitsValue 0 (fst q)
      then p :: q :: rest
      else q :: insertByIndex p rest
  end.

(** [for (const k in obj)]: the array indices in ascending order, then the
    other names in the order of their creation. *)
Definition forIn {V : Type} (obj : Props V) : Props V :=
  fold_right insertByIndex [] (List.filter (fun p => isArrayIndex (fst p)) obj) ++
  List.filter (fun p => negb (isArrayIndex (fst p))) obj.

Definition nl : string := String (ascii_of_nat 10) EmptyString.

(** [if (event.field) markdown += `- **Label:** ${event.field}\n`] *)
Definition line (label : string) (field : JSValue) : string :=
  if JS.truthy field then "- **" +:+ label +:+ ":** " +:+ JS.ToString field +:+ nl
  else EmptyString.

(** The block of one event. *)
Definition renderEvent (event : EventRecord) : string :=
  "#### " +:+ JS.ToString (title event) +:+ nl +:+
  line "Date" (date event) +:+
  line "Time" (time event) +:+
  (if JS.truthy (url event)
   then "- **Event Link:** [Get Tickets](" +:+ JS.ToString (url event) +:+ ")" +:+ nl
   else EmptyString) +:+
  nl.

Definition concatMap {A : Type} (f : A -> string) (l : list A) : string :=
  fold_right (fun x acc => f x +:+ acc) EmptyString l.

Definition renderVenue (p : string * list EventRecord) : string :=
  "### " +:+ fst p +:+ nl +:+ nl +:+ concatMap renderEvent (snd p).

Definition renderRegion (p : string * Props (list EventRecord)) : string :=
  "## " +:+ fst p +:+ nl +:+ nl +:+ concatMap renderVenue (forIn (snd p)).

(** The text the two [for ... in] loops add to the title line, for an
    object [eventsByRegion] none of whose properties is inherited from a
    changed [Object.prototype]. *)
Definition renderAll (currentDate : string) (g : Props (Props (list EventRecord))) : string :=
  "# Live Music Events in SF Bay Area for " +:+ currentDate +:+ nl +:+ nl +:+
  concatMap renderRegion (forIn g).

(** The records under the headings, in the order of their blocks. *)
Definition listedOf (g : Props (Props (list EventRecord))) : list EventRecord :=
  List.flat_map (fun region => List.flat_map snd (forIn (snd region))) (forIn g).

(** The markdown of the report; [currentDate] is today's date as the host
    formats it with a long weekday and a long month. No report is written
    when the grouping throws. *)
Definition markdown (rejects : string -> string -> bool) (currentDate : string)
    (extractedEvents : list EventRecord) : Run string :=
  andThen (eventsByRegion rejects extractedEvents) (fun g => Done (renderAll currentDate g)).

(** The events of the report in the order of their blocks. *)
Definition listed (rejects : string -> string -> bool) (extractedEvents : list EventRecord)
  : Run (list EventRecord) :=
  andThen (eventsByRegion rejects extractedEvents) (fun g => Done (listedOf g)).

End Report.

(** ** cleanup-events.js: reading the events out of the model's answer *)

Module Cleanup.

(** The text before the first occurrence of [needle] and the text after
    it. *)
Fixpoint splitAtFirst (needle s : string) : option (string * string) :=
  if Str.startsWith s needle then Some (EmptyString, Str.drop (String.length needle) s)
  else
    match s with
    | EmptyString => None
    | String c rest =>
        match splitAtFirst needle rest with
        | Some (before, after) => Some (String c before, after)
        | None => None
        end
    end.

Definition fence : string := "```".

(** Group 1 of [content.match(/OPENER([\s\S]*?)\n```/)] for a literal
    opener: the shortest text between the first opener and a closing
    fence after it. *)
Definition fenced (opener content : string) : option string :=
  match splitAtFirst opener content with
  | None => None
  | Some (_, after) =>
      match splitAtFirst (Report.nl +:+ fence) after with
      | Some (inner, _) => Some inner
      | None => None
      end
  end.

(** [(content.match(/```json\n([\s\S]*?)\n```/) ||
      content.match(/```\n([\s\S]*?)\n```/) || [null, content])[1]] *)
Definition jsonText (content : string) : string :=
  match fenced (fence +:+ "json" +:+ Report.nl) content with
  | Some inner => inner
  | None =>
      match fenced (fence +:+ Report.nl) content with
      | Some inner => inner
      | None => content
      end
  end.

(** The [try] block of [cleanupEvents] up to [cleanedEvents]: the response
    must have [choices[0].message]; its [content] must be a string, on
    which [match] is called; the text found must parse. *)
Definition cleanedEvents (host : Host) (response : JSValue) : Exc JSValue :=
  let! choices := JS.getp response "choices" in
  if negb (JS.truthy choices) then Throw else
  let! first := JS.getFirst choices in
  if negb (JS.truthy first) then Throw else
  let! message := JS.getp first "message" in
  if negb (JS.truthy message) then Throw else
  let! content := JS.getp message "content" in
  match content with
  | JStr text => JSON_parse host (jsonText text)
  | _ => Throw
  end.

End Cleanup.

(** ** Concrete hosts, pages and sources for the examples *)

Module Demo.

(** The reference date of the specification's examples: Friday 2 May 2025,
    at noon. *)
Definition may2 : DateFields := mkDate 2025 4 2 43200000.

Definition quote : string := String (ascii_of_nat 34) EmptyString.

Fixpoint repeatChar (c : ascii) (n : nat) : string :=
  match n with
  | O => EmptyString
  | S n' => String c (repeatChar c n')
  end.

(** A name of 101 characters. *)
Definition longName : string := repeatChar "a" 101.

(** The JSON text of a value built from objects, arrays, integers and
    strings without quotes or backslashes. *)
Fixpoint stringify (v : JSValue) : string :=
  match v with
  | JUndefined | JNull => "null"
  | JBool true => "true"
  | JBool false => "false"
  | JNum n => Str.ofZ n
  | JStr s => quote +:+ s +:+ quote
  | JArr items =>
      "[" +:+
      (fix elements (l : list JSValue) : string :=
         match l with
         | [] => EmptyString
         | x :: rest =>
             stringify x +:+
             match rest with [] => EmptyString | _ :: _ => "," +:+ elements rest end
         end) items +:+ "]"
  | JObj props =>
      "{" +:+
      (fix members (l : list (string * JSValue)) : string :=
         match l with
         | [] => EmptyString
         | (k, x) :: rest =>
             quote +:+ k +:+ quote +:+ ":" +:+ stringify x +:+
             match rest with [] => EmptyString | _ :: _ => "," +:+ members rest end
         end) props +:+ "}"
  end.

(** A schema.org event with a name of 101 characters; its text is
    [{"@type":"Event","name":"aaa...a"}]. *)
Definition longEvent : JSValue :=
  JObj [("@type", JStr "Event"); ("name", JStr longName)].
Definition longEventText : string := stringify longEvent.

(** A schema.org event on the evening of 2 May 2025. *)
Definition bandY : JSValue :=
  JObj [("@type", JStr "Event"); ("name", JStr "Band Y");
        ("startDate", JStr "2025-05-02T20:00:00");
        ("location", JObj [("name", JStr "The Independent")]);
        ("url", JStr "https://example.com/band-y")].

(** The value of [window.__SERVER_DATA__] on a search page: one result with
    a name and one without. *)
Definition serverData : JSValue :=
  JObj [("search_data", JObj [("events", JObj [("results", JArr
    [JObj [("name", JStr "Jazz Night"); ("start_date", JStr "2025-05-02");
           ("start_time", JStr "20:00"); ("url", JStr "https://example.com/jazz");
           ("primary_venue", JObj [("name", JStr "SFJAZZ")])];
     JObj [("start_date", JStr "2025-05-03")]])])])].

(** Next.js data whose [events] array holds an event and [null]. *)
Definition nextData : JSValue :=
  JObj [("props", JObj [("pageProps", JObj [("events", JArr
    [JObj [("title", JStr "Band Z"); ("datetime", JStr "2025-05-03T21:30:00");
           ("venue", JObj [("name", JStr "Great American Music Hall")])];
     JNull])])])].

(** A document with a graph that holds an organisation and an event. *)
Definition graphData : JSValue :=
  JObj [("@graph", JArr [JObj [("@type", JStr "Organization"); ("name", JStr "Org")];
                         bandY])].

(** Next.js data whose events sit in the cached queries. *)
Definition dehydratedPage : JSValue :=
  JObj [("props", JObj [("pageProps", JObj [("dehydratedState", JObj [("queries", JArr
    [JObj [("state", JObj [("data", JArr
       [JObj [("name", JStr "Band Q"); ("location", JObj [("name", JStr "Bimbo's 365")]);
              ("links", JObj [("tickets", JStr "https://example.com/q")])]])])];
     JObj [("state", JNull)]])])])])].

Definition samples : list JSValue :=
  [longEvent; bandY; serverData; nextData; graphData; dehydratedPage].

Definition shortDays : list string := ["Sun"; "Mon"; "Tue"; "Wed"; "Thu"; "Fri"; "Sat"].
Definition shortMonths : list string :=
  ["Jan"; "Feb"; "Mar"; "Apr"; "May"; "Jun"; "Jul"; "Aug"; "Sep"; "Oct"; "Nov"; "Dec"].

(** The digits of [s] from position [from], [n] of them, as a number. *)
Definition digitsAt (s : string) (from n : nat) : option Z :=
  let part := String.substring from n s in
  if (String.length part =? n)%nat && Str.allDigits part
  then Some (Str.digitsValue 0 part) else None.

(** A local date and time [YYYY-MM-DDTHH:MM] or [YYYY-MM-DDTHH:MM:SS], for
    the days every month has (1 to 28). *)
Definition parseLocalIso (s : string) : JSDate :=
  match digitsAt s 0 4, digitsAt s 5 2, digitsAt s 8 2, digitsAt s 11 2, digitsAt s 14 2 with
  | Some y, Some m, Some d, Some hh, Some mm =>
      if String.eqb (String.substring 4 1 s) "-" && String.eqb (String.substring 7 1 s) "-" &&
         String.eqb (String.substring 10 1 s) "T" && String.eqb (String.substring 13 1 s) ":" &&
         ((String.length s =? 16)%nat || (String.length s =? 19)%nat) &&
         (1 <=? m) && (m <=? 12) && (1 <=? d) && (d <=? 28) && (hh <? 24) && (mm <? 60)
      then ValidDate (mkDate y (m - 1) d (hh * 3600000 + mm * 60000))
      else InvalidDate
  | _, _, _, _, _ => InvalidDate
  end.

(** A host given by the values of the host functions at the arguments the
    examples use: [JSON.parse] of the texts of [samples]; [new Date(text)]
    for a local date and time in the ISO format and for 'jan 2', which V8
    reads as 2 January 2001; the en-US formats; the resolution of two
    references against [https://example.com/events/]. *)
Definition host : Host := {|
  JSON_parse := fun text =>
    match List.find (fun v => String.eqb (stringify v) text) samples with
    | Some v => Ok v
    | None => Throw
    end;
  Date_new := fun v =>
    match v with
    | JStr "jan 2" => ValidDate (mkDate 2001 0 2 0)
    | JStr s => parseLocalIso s
    | _ => InvalidDate
    end;
  toLocaleDateString := fun d =>
    match d with
    | InvalidDate => "Invalid Date"
    | ValidDate f =>
        nth (Z.to_nat (Cal.getDay f)) shortDays "" +:+ ", " +:+
        nth (Z.to_nat (getMonth f)) shortMonths "" +:+ " " +:+ Str.ofZ (getDate f)
    end;
  toLocaleTimeString := fun d =>
    match d with
    | InvalidDate => "Invalid Date"
    | ValidDate f =>
        let h := msOfDay f / 3600000 in
        let m := (msOfDay f / 60000) mod 60 in
        Str.ofZ (if h mod 12 =? 0 then 12 else h mod 12) +:+ ":" +:+
        (if m <? 10 then "0" else "") +:+ Str.ofZ m +:+
        (if h <? 12 then " AM" else " PM")
    end;
  URL_href := fun url base =>
    if String.eqb base "https://example.com/events/" then
      if String.eqb url "/show/123" then Ok "https://example.com/show/123"
      else if String.eqb url "httpdocs/a" then Ok "https://example.com/events/httpdocs/a"
      else Throw
    else Throw
|}.

Definition leaf (t : string) (h : option string) : Element :=
  mkElement t h (fun _ => Ok []).

(** A container with one title, one date, one time and one link element,
    found by the selectors [.title], [.date], [.time] and [a]. *)
Definition card (t d tm : string) (h : option string) : Element :=
  mkElement (t +:+ " " +:+ d +:+ " " +:+ tm) None
    (fun selector =>
       if String.eqb selector ".title" then Ok [leaf t None]
       else if String.eqb selector ".date" then Ok [leaf d None]
       else if String.eqb selector ".time" then Ok [leaf tm None]
       else if String.eqb selector "a" then Ok [leaf "Tickets" h]
       else Ok []).

(** A container whose title element has no text of its own but holds a
    link, and whose date is spread over two elements. *)
Definition splitCard : Element :=
  mkElement "Band X Fri May 2" None
    (fun selector =>
       if String.eqb selector ".title" then
         Ok [mkElement "  " None
               (fun inner => if String.eqb inner "a"
                             then Ok [leaf " Band X " (Some "/show/123")] else Ok [])]
       else if String.eqb selector ".date" then
         Ok [leaf " Fri " None; leaf "   " None; leaf "May   2" None]
       else if String.eqb selector "a" then Ok [leaf " Band X " (Some "/show/123")]
       else Ok []).

(** A container on which the selector engine throws. *)
Definition brokenCard : Element := mkElement "" None (fun _ => Throw).

(** A page without embedded JSON whose containers are [cards]. *)
Definition page (cards : list Element) : RawDocument :=
  mkDocument None [] [] (fun _ => Ok cards).

(** A page whose only content is one ld+json block. *)
Definition ldPage (block : string) : RawDocument :=
  mkDocument None [block] [] (fun _ => Ok []).

(** A page that assigns [window.__SERVER_DATA__] and has no containers. *)
Definition serverDataPage (data : string) : RawDocument :=
  mkDocument (Some data) [] [] (fun _ => Ok []).

(** A page with one Next.js data block and the containers [cards]. *)
Definition nextPage (data : string) (cards : list Element) : RawDocument :=
  mkDocument None [] [data] (fun _ => Ok cards).

Definition venueSource (name rgn kind : string) : SourceInfo :=
  Src.mk name rgn ".event" ".title" ".date" ".time" "a" kind.

Definition standardSource : SourceInfo := venueSource "The Chapel" "San Francisco" "standard".
Definition jsonSource : SourceInfo := venueSource "The Chapel" "San Francisco" "json".

(** A standard source without a container selector. *)
Definition bareSource : SourceInfo :=
  Src.mk "The Chapel" "San Francisco" "" ".title" ".date" ".time" "a" "standard".

Definition pageUrl : string := "https://example.com/events/".

End Demo.

(** The page [html] with the elements [containers] as the matches of every
    selector. *)
Definition withContainers (html : RawDocument) (containers : list Element) : RawDocument :=
  mkDocument (serverDataMatch html) (ldJsonMatches html) (jsonScriptTags html)
             (fun _ => Ok containers).

(** ** Two notions taken from the words of the specification

    They are not part of the script; the claims C2 and C7 are stated with
    them before being compared with what the script does. *)

Module Spec.

Definition isAlpha (c : ascii) : bool :=
  let n := Str.codeUnit c in
  ((65 <=? n) && (n <=? 90) || (97 <=? n) && (n <=? 122))%N.

(** The rest of a scheme and its colon: letters, digits, [+], [-] and [.]
    up to a [:]. *)
Fixpoint schemeThenColon (s : string) : bool :=
  match s with
  | EmptyString => false
  | String c s' =>
      if Ascii.eqb c ":" then true
      else (isAlpha c || Str.isDigit c || Ascii.eqb c "+" || Ascii.eqb c "-" ||
            Ascii.eqb c ".") && schemeThenColon s'
  end.

(** "Already absolute": the reference starts with a scheme and a colon. *)
Definition isAbsoluteUrl (s : string) : bool :=
  match s with
  | EmptyString => false
  | String c s' => isAlpha c && schemeThenColon s'
  end.

Definition isDigitAt (c : option ascii) : bool :=
  match c with Some a => Str.isDigit a | None => false end.

(** [lit] occurs in [s] as whole tokens: its first number is not the end
    of a longer number and its last number is not the start of one;
    [prev] is the character before [s]. *)
Fixpoint occursAsTokens (prev : option ascii) (lit s : string) : bool :=
  (negb (isDigitAt prev && isDigitAt (Str.head lit)) && Str.startsWith s lit &&
   negb (isDigitAt (Str.lastChar None lit) &&
         isDigitAt (Str.head (Str.drop (String.length lit) s)))) ||
  match s with
  | EmptyString => false
  | String c s' => occursAsTokens (Some c) lit s'
  end.

(** "A day-of-month token adjacent to a month, slash or dot separator
    matching the reference month": the number [d], as a whole token, right
    after the full or short name of the reference month and a space, or
    right after the number of the reference month, as a whole token, and a
    slash or a dot. *)
Definition dayNextToMonth (today : DateFields) (lowerDate : string) (d : Z) : bool :=
  let day := Str.ofZ d in
  let m := todayMonth today in
  occursAsTokens None (nameAt monthNames (m - 1) +:+ " " +:+ day) lowerDate ||
  occursAsTokens None (nameAt shortMonthNames (m - 1) +:+ " " +:+ day) lowerDate ||
  occursAsTokens None (Str.ofZ m +:+ "/" +:+ day) lowerDate ||
  occursAsTokens None (Str.ofZ m +:+ "." +:+ day) lowerDate.

(** The two reasons for which the strict pass may remove a record. *)
Definition removalReason (today : DateFields) (lowerDate : string) : bool :=
  mentionsOtherDayName today lowerDate ||
  existsb (dayNextToMonth today lowerDate) (otherDates today).

End Spec.

(** ** Predicates used in the statements *)

(** Whatever way the statement ends, [events] has only grown, by records
    that satisfy [Q]. *)
Definition Appends (Q : EventRecord -> Prop) (s : Stmt) : Prop :=
  forall fr, exists new, events (snd (s fr)) = events fr ++ new /\ Forall Q new.

(** The title is truthy and, when the source has a name, so is the venue. *)
Definition GoodRecord (source : SourceInfo) (r : EventRecord) : Prop :=
  JS.truthy (title r) = true /\
  (Src.source source <> EmptyString -> JS.truthy (venue r) = true).

(** What the HTML strategy guarantees of a title. *)
Definition BoundedTitle (r : EventRecord) : Prop :=
  exists s, title r = JStr s /\ s <> EmptyString /\ (String.length s <= 100)%nat.



(** A record all of whose text fields are strings, as the HTML strategy
    builds them for a source of San Francisco. *)
Definition record (t d tm u v : string) (today : bool) : EventRecord :=
  {| title := JStr t; date := JStr d; time := JStr tm; url := JStr u; venue := JStr v;
     region := "San Francisco"; source_url := Demo.pageUrl; is_today := today |}.

(** *** The claims C1, C2 and C7 as the specification states them *)

(** C1, as the specification states it: every record that [extractEvents]
    returns has a title that is a non-empty string of at most 100
    characters. *)
Definition every_title_is_bounded : Prop :=
  forall host today html source sourceUrl evs r,
    extractEvents host today html source sourceUrl = Ok evs ->
    In r evs -> BoundedTitle r.

(** C2, as the specification states it: the strict pass removes a record
    of [todaysEvents] only for one of the two reasons of [Spec]. *)
Definition strict_pass_removes_only_for_stated_reasons : Prop :=
  forall host today allEvents todays e text,
    todaysEvents host today allEvents = Ok todays ->
    In e todays ->
    date e = JStr text ->
    keptByStrictPass today e = Ok false ->
    Spec.removalReason today (Str.toLowerCase text) = true.

(** C7, as the specification states it: an [href] that is present and not
    already absolute is resolved against the URL of the page. *)
Definition relative_href_is_resolved : Prop :=
  forall host today source sourceUrl container e first rest href resolved,
    htmlEvent host today source sourceUrl container = Ok (Some e) ->
    Src.url_selector source <> EmptyString ->
    find container (Src.url_selector source) = Ok (first :: rest) ->
    attr_href first = Some href ->
    href <> EmptyString ->
    Spec.isAbsoluteUrl href = false ->
    URL_href host href sourceUrl = Ok resolved ->
    url e = JStr resolved.

(** *** Predicates of the further properties *)

(** What [sanitizeFilename] does to one character. *)
Definition sanitizeChar (c : ascii) : ascii :=
  Str.lowerChar (if Files.isAlnum c then c else "_"%char).

Definition notSlash (c : ascii) : bool := negb (Ascii.eqb c "/").
Definition notSpace (c : ascii) : bool := negb (Str.isWhiteSpace c).

(** No exception leaves the statement. *)
Definition NoRaise (s : Stmt) : Prop := forall fr, fst (s fr) <> Raise.

(** What one container adds to [events]: the record of [htmlEvent], or
    nothing when the callback leaves early or its [try] catches. *)
Definition containerRecords (host : Host) (today : DateFields) (source : SourceInfo)
    (sourceUrl : string) (container : Element) : list EventRecord :=
  match htmlEvent host today source sourceUrl container with
  | Ok (Some e) => [e]
  | _ => []
  end.

(** What the two date filters test on the text [M<sep>D] made of the month
    and the day of the reference date, apart from the tests that read the
    weekday or the year. *)
Definition numericDateChecks (m d : Z) (sep : string) : bool :=
  let text := Str.ofZ (m + 1) +:+ sep +:+ Str.ofZ d in
  let lower := Str.toLowerCase text in
  nonEmpty text &&
  Str.testWordBounded text lower &&
  negb (existsb (fun i => Str.includes lower (nameAt dayNames i) ||
                          Str.includes lower (nameAt shortDayNames i)) (range 0 7)) &&
  negb (mentionsOtherDate (mkDate 0 m d 0) lower).










(** The records of all the arrays of [eventsByRegion], in the order of
    creation of the regions and of the venues. *)
Definition content (g : Report.Props (Report.Props (list EventRecord))) : list EventRecord :=
  List.flat_map (fun region => List.flat_map snd (snd region)) g.

(** A character other than the backquote of a fence. *)
Definition notBackquote (c : ascii) : bool := negb (Ascii.eqb c "`").

(** An answer of the API whose first choice has the message [content]. *)
Definition answer (content : JSValue) : JSValue :=
  JObj [("choices", JArr [JObj [("message", JObj [("content", content)])]])].

(** The text has no white space at its start or at its end. *)
Definition trimmed (s : string) : bool :=
  match Str.head s with Some c => negb (Str.isWhiteSpace c) | None => true end &&
  match Str.lastChar None s with Some c => negb (Str.isWhiteSpace c) | None => true end.

(** Every white-space character of the text is a space that does not
    follow white space; [afterSpace] tells that the text comes after white
    space. *)
Fixpoint singleSpaced (afterSpace : bool) (s : string) : bool :=
  match s with
  | EmptyString => true
  | String c rest =>
      if Str.isWhiteSpace c
      then Ascii.eqb c " " && negb afterSpace && singleSpaced true rest
      else singleSpaced false rest
  end.

(** The records that [arr.forEach(callback)] pushes when no call of the
    callback throws. *)
Fixpoint callbackRecords (record : JSValue -> Exc (option EventRecord)) (items : list JSValue)
  : Exc (list EventRecord) :=
  match items with
  | [] => Ok []
  | event :: rest =>
      let! r := record event in
      let! others := callbackRecords record rest in
      Ok (match r with Some e => e :: others | None => others end)
  end.

(** What the two date filters test on the lower-cased text [<month> D]
    made of a name of the month and the day of the reference date, apart
    from the tests that read the weekday or the year; the last test tells
    that the strict pass finds another day number exactly from the 10th
    on. *)
Definition monthDayChecks (names : list string) (m d : Z) : bool :=
  let lower := nameAt names m +:+ " " +:+ Str.ofZ d in
  nonEmpty lower &&
  ((Str.includes lower (nameAt monthNames (m + 1 - 1)) ||
    Str.includes lower (nameAt shortMonthNames (m + 1 - 1))) &&
   (Str.includes lower (" " +:+ Str.ofZ d) || Str.includes lower (Str.ofZ d +:+ ",") ||
    Str.includes lower (Str.ofZ d +:+ " ") || Str.endsWith lower (Str.ofZ d)) &&
   negb (hasOtherMonth (mkDate 0 m d 0) lower)) &&
  negb (existsb (fun i => Str.includes lower (nameAt dayNames i) ||
                          Str.includes lower (nameAt shortDayNames i)) (range 0 7)) &&
  Bool.eqb (negb (mentionsOtherDate (mkDate 0 m d 0) lower)) (d <=? 9).

(** * Properties *)

(** ** What a statement appends to [events] *)

Section Appends.

Variable Q : EventRecord -> Prop.

Lemma appends_skip : Appends Q Stm.skip.
Proof. intros fr. exists []. simpl. rewrite app_nil_r. auto. Qed.

Lemma appends_returnEvents : Appends Q Stm.returnEvents.
Proof. intros fr. exists []. simpl. rewrite app_nil_r. auto. Qed.

Lemma appends_returnIfEvents : Appends Q Stm.returnIfEvents.
Proof.
  intros fr. exists []. rewrite app_nil_r. split; [|constructor].
  unfold Stm.returnIfEvents. destruct (events fr) eqn:E; simpl; exact E.
Qed.

Lemma appends_setFound b : Appends Q (Stm.setFound b).
Proof. intros fr. exists []. simpl. rewrite app_nil_r. auto. Qed.

Lemma appends_push r : Q r -> Appends Q (Stm.push r).
Proof. intros Hr fr. exists [r]. simpl. auto. Qed.

Lemma appends_seq s1 s2 : Appends Q s1 -> Appends Q s2 -> Appends Q (Stm.seq s1 s2).
Proof.
  intros H1 H2 fr. unfold Stm.seq.
  destruct (H1 fr) as (n1 & E1 & F1).
  destruct (s1 fr) as [[] fr1] eqn:E; simpl in *; eauto.
  destruct (H2 fr1) as (n2 & E2 & F2).
  exists (n1 ++ n2). rewrite E2, E1, app_assoc. split; [reflexivity|].
  apply Forall_app; auto.
Qed.

Lemma appends_tryCatch s : Appends Q s -> Appends Q (Stm.tryCatch s).
Proof.
  intros H fr. unfold Stm.tryCatch.
  destruct (H fr) as (n & E & F).
  destruct (s fr) as [[] fr1]; simpl in *; eauto.
Qed.

Lemma appends_eval {A} (e : Exc A) (k : A -> Stmt) :
  (forall a, e = Ok a -> Appends Q (k a)) -> Appends Q (Stm.eval e k).
Proof.
  intros H fr. unfold Stm.eval. destruct e as [a|].
  - apply (H a eq_refl).
  - exists []. simpl. rewrite app_nil_r. auto.
Qed.

Lemma appends_forOf {A} (xs : list A) (body : A -> Stmt) :
  (forall x, In x xs -> Appends Q (body x)) -> Appends Q (Stm.forOf xs body).
Proof.
  induction xs as [|x rest IH]; intros H; simpl.
  - apply appends_skip.
  - apply appends_seq; [apply H; left; reflexivity|].
    apply IH. intros y Hy. apply H. right. exact Hy.
Qed.

Lemma appends_unlessFound s : Appends Q s -> Appends Q (Stm.unlessFound s).
Proof.
  intros H fr. unfold Stm.unlessFound. destruct (foundEvents fr); [|apply H].
  exists []. simpl. rewrite app_nil_r. auto.
Qed.

Lemma appends_if (b : bool) s1 s2 :
  Appends Q s1 -> Appends Q s2 -> Appends Q (if b then s1 else s2).
Proof. destruct b; auto. Qed.

Lemma appends_forEachPush arr record :
  (forall event r, record event = Ok (Some r) -> Q r) ->
  Appends Q (Stm.forEachPush arr record).
Proof.
  intros H. unfold Stm.forEachPush.
  apply appends_eval. intros items _.
  apply appends_forOf. intros event _.
  apply appends_eval. intros [r|] Hr.
  - apply appends_push. eapply H. exact Hr.
  - apply appends_skip.
Qed.

End Appends.

Lemma appends_weaken (Q1 Q2 : EventRecord -> Prop) s :
  (forall r, Q1 r -> Q2 r) -> Appends Q1 s -> Appends Q2 s.
Proof.
  intros H H1 fr. destruct (H1 fr) as (n & E & F).
  exists n. split; [exact E|]. eapply Forall_impl; eauto.
Qed.

(** ** Truthiness *)

Lemma truthy_or_r a b : JS.truthy b = true -> JS.truthy (JS.or a b) = true.
Proof. intros H. unfold JS.or. destruct (JS.truthy a) eqn:E; auto. Qed.

Lemma or_truthy a b : JS.truthy a = true -> JS.or a b = a.
Proof. intros H. unfold JS.or. rewrite H. reflexivity. Qed.

Lemma truthy_JStr s : JS.truthy (JStr s) = nonEmpty s.
Proof. reflexivity. Qed.

Lemma nonEmpty_true s : nonEmpty s = true <-> s <> EmptyString.
Proof.
  unfold nonEmpty. rewrite negb_true_iff. split.
  - intros H E. subst s. discriminate H.
  - intros H. apply String.eqb_neq. exact H.
Qed.

Lemma bindExc_ok {A B} (e : Exc A) (k : A -> Exc B) b :
  bindExc e k = Ok b -> exists a, e = Ok a /\ k a = Ok b.
Proof. destruct e as [a|]; simpl; intros H; [eauto | discriminate H]. Qed.

(** Takes apart a hypothesis [H : e = Ok _] where [e] is a chain of
    [let!], [let] and [if]. *)
Ltac exc_inv H :=
  cbv zeta in H;
  repeat first
    [ apply bindExc_ok in H; destruct H as (? & ? & H); cbv beta zeta in H
    | match type of H with
      | (if ?b then _ else _) = Ok _ => destruct b eqn:?; try discriminate H
      end ].

(** ** The records of every strategy *)

Section EngineFacts.

Variable host : Host.
Variable today : DateFields.
Variable html : RawDocument.
Variable source : SourceInfo.
Variable sourceUrl : string.

Lemma good_venue v :
  Src.source source <> EmptyString ->
  JS.truthy (JS.or v (JStr (Src.source source))) = true.
Proof. intros H. apply truthy_or_r. rewrite truthy_JStr. apply nonEmpty_true, H. Qed.

(** A callback of a JSON strategy leaves early on a falsy title and ends
    the venue with [|| source.source]. *)
Ltac json_record_is_good H :=
  exc_inv H; injection H as <-; split; simpl;
  [apply negb_false_iff; assumption | apply good_venue].

Lemma serverDataEvent_good event r :
  serverDataEvent host today source sourceUrl event = Ok (Some r) -> GoodRecord source r.
Proof. unfold serverDataEvent. intros H. json_record_is_good H. Qed.

Lemma eventbriteLdEvent_good event r :
  eventbriteLdEvent host today source sourceUrl event = Ok (Some r) -> GoodRecord source r.
Proof. unfold eventbriteLdEvent. intros H. json_record_is_good H. Qed.

Lemma nextJsEvent_good event r :
  nextJsEvent host today source sourceUrl event = Ok (Some r) -> GoodRecord source r.
Proof. unfold nextJsEvent. intros H. json_record_is_good H. Qed.

Lemma schemaOrgEvent_good offersUrl event r :
  schemaOrgEvent host today source sourceUrl offersUrl event = Ok (Some r) ->
  GoodRecord source r.
Proof. unfold schemaOrgEvent. intros H. json_record_is_good H. Qed.

Lemma htmlEvent_title container r :
  htmlEvent host today source sourceUrl container = Ok (Some r) -> BoundedTitle r.
Proof.
  unfold htmlEvent. intros H. exc_inv H.
  all: match goal with
       | E : _ || _ = false |- _ => apply orb_false_iff in E; destruct E as [E1 E2]
       end.
  all: apply negb_false_iff, nonEmpty_true in E1; apply Nat.ltb_ge in E2.
  all: injection H as <-; eexists; simpl; eauto.
Qed.

Lemma htmlEvent_good container r :
  htmlEvent host today source sourceUrl container = Ok (Some r) -> GoodRecord source r.
Proof.
  intros H. destruct (htmlEvent_title _ _ H) as (s & Es & Hs & _).
  split.
  - rewrite Es, truthy_JStr. apply nonEmpty_true, Hs.
  - intros Hsrc. revert H. unfold htmlEvent. intros H. exc_inv H.
    + injection H as <-. simpl. apply good_venue, Hsrc.
    + injection H as <-. change (nonEmpty (Src.source source) = true).
      apply nonEmpty_true, Hsrc.
Qed.

(** *** The strategies only append such records *)

Create HintDb appends.
#[local] Hint Resolve serverDataEvent_good eventbriteLdEvent_good nextJsEvent_good
  schemaOrgEvent_good : appends.

Ltac appends_step :=
  lazymatch goal with
  | |- Appends _ Stm.skip => apply appends_skip
  | |- Appends _ Stm.returnEvents => apply appends_returnEvents
  | |- Appends _ Stm.returnIfEvents => apply appends_returnIfEvents
  | |- Appends _ (Stm.setFound _) => apply appends_setFound
  | |- Appends _ (Stm.seq _ _) => apply appends_seq
  | |- Appends _ (Stm.tryCatch _) => apply appends_tryCatch
  | |- Appends _ (Stm.unlessFound _) => apply appends_unlessFound
  | |- Appends _ (Stm.forEachPush _ _) =>
      apply appends_forEachPush; intros ? ? ?; solve [eauto with appends]
  | |- Appends _ (Stm.forOf _ _) => apply appends_forOf; intros ? ?
  | |- Appends _ (Stm.eval _ _) => apply appends_eval; intros ? ?
  | |- Appends _ (if _ then _ else _) => apply appends_if
  end.

Ltac appends_steps := repeat appends_step.

Lemma eventbrite_appends :
  Appends (GoodRecord source) (eventbrite host today html source sourceUrl).
Proof. unfold eventbrite. cbv zeta. appends_steps. Qed.

Lemma nextJsPath_appends path :
  Appends (GoodRecord source) (nextJsPath host today source sourceUrl path).
Proof.
  unfold nextJsPath. destruct path as [| | | | |[|first rest]|]; appends_steps.
Qed.

Lemma bandsintown_appends :
  Appends (GoodRecord source) (bandsintown host today html source sourceUrl).
Proof.
  unfold bandsintown, nextJsScriptTag, bandsintownLdTag. appends_steps.
  - apply nextJsPath_appends.
  - match goal with o : option (list JSValue) |- _ => destruct o end; appends_steps.
Qed.

Lemma genericJson_appends :
  Appends (GoodRecord source) (genericJson host today html source sourceUrl).
Proof.
  unfold genericJson, genericLdTag. appends_steps.
  match goal with o : option (list JSValue) |- _ => destruct o as [[|]|] end; appends_steps.
Qed.

Lemma jsonStrategies_appends :
  Appends (GoodRecord source) (jsonStrategies host today html source sourceUrl).
Proof.
  unfold jsonStrategies. appends_steps.
  - apply eventbrite_appends.
  - apply bandsintown_appends.
  - apply genericJson_appends.
Qed.

Lemma eachContainer_appends i container :
  Appends (fun r => BoundedTitle r /\ GoodRecord source r)
          (eachContainer host today source sourceUrl i container).
Proof.
  unfold eachContainer. appends_steps.
  match goal with o : option EventRecord |- _ => destruct o as [r|] end; appends_steps.
  apply appends_push. split; [eapply htmlEvent_title | eapply htmlEvent_good]; eauto.
Qed.

Lemma eachFrom_appends containers : forall i,
  Appends (fun r => BoundedTitle r /\ GoodRecord source r)
          (eachFrom host today source sourceUrl i containers).
Proof.
  induction containers as [|c rest IH]; intros i; simpl.
  - apply appends_skip.
  - apply appends_seq; [apply eachContainer_appends | apply IH].
Qed.

Lemma standardHtml_appends :
  Appends (fun r => BoundedTitle r /\ GoodRecord source r)
          (standardHtml host today html source sourceUrl).
Proof.
  unfold standardHtml. appends_steps. apply eachFrom_appends.
Qed.

(** The array a call returns is what the two stages appended to the empty
    array. *)
Lemma extractEvents_stages evs :
  extractEvents host today html source sourceUrl = Ok evs ->
  exists fromJson fromHtml,
    evs = fromJson ++ fromHtml /\
    Forall (GoodRecord source) fromJson /\
    Forall (fun r => BoundedTitle r /\ GoodRecord source r) fromHtml /\
    (Src.extraction_type source <> "json" -> fromJson = []).
Proof.
  unfold extractEvents, extractEventsBody, Stm.seq. intros H.
  destruct (jsonStrategies_appends (mkFrame [] false)) as (n1 & E1 & F1).
  assert (Hstd : Src.extraction_type source <> "json" -> n1 = []).
  { intros Hne. revert E1. unfold jsonStrategies.
    apply String.eqb_neq in Hne. rewrite Hne. simpl. intros E1. symmetry. exact E1. }
  destruct (jsonStrategies host today html source sourceUrl (mkFrame [] false))
    as [sig fr1] eqn:E.
  simpl in E1.
  destruct sig.
  - destruct (standardHtml_appends fr1) as (n2 & E2 & F2).
    destruct (standardHtml host today html source sourceUrl fr1) as [sig2 fr2].
    simpl in E2. subst n1. exists (events fr1), n2.
    destruct sig2; try discriminate H; injection H as <-; auto.
  - injection H as <-. subst n1. exists (events fr1), []. rewrite app_nil_r. auto.
  - discriminate H.
Qed.

Lemma extractEvents_good evs :
  extractEvents host today html source sourceUrl = Ok evs -> Forall (GoodRecord source) evs.
Proof.
  intros H. destruct (extractEvents_stages _ H) as (a & b & -> & Fa & Fb & _).
  apply Forall_app. split; [exact Fa|].
  eapply Forall_impl; [exact Fb|]. intros r [_ Hr]. exact Hr.
Qed.

End EngineFacts.

(** ** The claims about the extraction engine *)

(** C6. A source whose extraction type is [standard] and that has no
    container selector yields the empty array, for any page, and no
    exception leaves [extractEvents]. *)
Theorem standard_without_container_is_empty
    (host : Host) (today : DateFields) (html : RawDocument)
    (source : SourceInfo) (sourceUrl : string) :
  Src.extraction_type source = "standard" ->
  Src.container_selector source = EmptyString ->
  extractEvents host today html source sourceUrl = Ok [].
Proof.
  intros Hty Hsel.
  unfold extractEvents, extractEventsBody, Stm.seq, jsonStrategies, standardHtml.
  rewrite Hty, Hsel. reflexivity.
Qed.

Lemma standard_without_container_is_empty_witness :
  Src.extraction_type Demo.bareSource = "standard" /\
  Src.container_selector Demo.bareSource = EmptyString /\
  extractEvents Demo.host Demo.may2
    (Demo.page [Demo.card "Band X" "Fri May 2" "8:00 PM" None])
    Demo.bareSource Demo.pageUrl = Ok [].
Proof.
  split; [reflexivity|]. split; [reflexivity|].
  apply standard_without_container_is_empty; reflexivity.
Defined.

Lemma eachContainer_beyond host today source sourceUrl i container fr :
  (30 <= i)%nat -> eachContainer host today source sourceUrl i container fr = (Next, fr).
Proof.
  intros Hi. unfold eachContainer.
  destruct (30 <=? i)%nat eqn:E; [reflexivity|].
  apply Nat.leb_gt in E. lia.
Qed.

Lemma eachFrom_beyond host today source sourceUrl containers : forall i fr,
  (30 <= i)%nat -> eachFrom host today source sourceUrl i containers fr = (Next, fr).
Proof.
  induction containers as [|c rest IH]; intros i fr Hi; simpl; [reflexivity|].
  unfold Stm.seq. rewrite eachContainer_beyond by exact Hi.
  apply IH. lia.
Qed.

Lemma eachFrom_firstn host today source sourceUrl containers : forall i fr,
  eachFrom host today source sourceUrl i containers fr =
  eachFrom host today source sourceUrl i (firstn (30 - i) containers) fr.
Proof.
  induction containers as [|c rest IH]; intros i fr.
  - rewrite firstn_nil. reflexivity.
  - destruct (le_lt_dec 30 i) as [Hge|Hlt].
    + replace (30 - i)%nat with 0%nat by lia.
      rewrite eachFrom_beyond by exact Hge. reflexivity.
    + replace (30 - i)%nat with (S (30 - S i)) by lia.
      simpl. unfold Stm.seq.
      destruct (eachContainer host today source sourceUrl i c fr) as [[] fr1];
        try reflexivity.
      apply IH.
Qed.

(** C5. Only the first 30 matches of the container selector are
    processed: the callback does nothing for a container at index 30 or
    beyond, whatever it holds, so the page gives the same records as the
    page cut to its first 30 containers. *)
Theorem containers_from_index_30_are_ignored
    (host : Host) (today : DateFields) (html : RawDocument)
    (source : SourceInfo) (sourceUrl : string) (containers : list Element) :
  select html (Src.container_selector source) = Ok containers ->
  (forall i container fr,
      nth_error containers i = Some container -> (30 <= i)%nat ->
      eachContainer host today source sourceUrl i container fr = (Next, fr)) /\
  extractEvents host today html source sourceUrl =
  extractEvents host today (withContainers html (firstn 30 containers)) source sourceUrl.
Proof.
  intros Hsel. split.
  - intros i container fr _ Hi. apply eachContainer_beyond. exact Hi.
  - unfold extractEvents, extractEventsBody, Stm.seq.
    change (jsonStrategies host today (withContainers html (firstn 30 containers))
              source sourceUrl)
      with (jsonStrategies host today html source sourceUrl).
    destruct (jsonStrategies host today html source sourceUrl (mkFrame [] false))
      as [[] fr1]; try reflexivity.
    unfold standardHtml. simpl select. rewrite Hsel.
    destruct (nonEmpty (Src.container_selector source)); simpl; [|reflexivity].
    unfold Stm.seq. rewrite (eachFrom_firstn _ _ _ _ containers). reflexivity.
Qed.

Lemma containers_from_index_30_are_ignored_witness :
  let containers := List.repeat (Demo.card "Band X" "Fri May 2" "8:00 PM" None) 31 in
  select (Demo.page containers) (Src.container_selector Demo.standardSource) = Ok containers /\
  ((forall i container fr,
       nth_error containers i = Some container -> (30 <= i)%nat ->
       eachContainer Demo.host Demo.may2 Demo.standardSource Demo.pageUrl i container fr
       = (Next, fr)) /\
   extractEvents Demo.host Demo.may2 (Demo.page containers) Demo.standardSource Demo.pageUrl =
   extractEvents Demo.host Demo.may2
     (withContainers (Demo.page containers) (firstn 30 containers))
     Demo.standardSource Demo.pageUrl).
Proof.
  intros containers. split; [reflexivity|].
  apply containers_from_index_30_are_ignored. reflexivity.
Defined.


(** C1 fails on the generic JSON-LD strategy: a page of a [json] source
    whose ld+json block describes an event with a name of 101 characters
    gives one record, and its title is that name. *)
Lemma json_title_is_not_bounded :
  exists r,
    extractEvents Demo.host Demo.may2 (Demo.ldPage Demo.longEventText)
                  Demo.jsonSource Demo.pageUrl = Ok [r] /\
    title r = JStr Demo.longName /\
    String.length Demo.longName = 101%nat /\
    ~ BoundedTitle r /\
    ~ every_title_is_bounded.
Proof.
  eexists. split; [vm_compute; reflexivity|].
  split; [reflexivity|]. split; [reflexivity|].
  assert (Hnot : ~ BoundedTitle (record Demo.longName "" "" "" "The Chapel" false)).
  { intros (s & E & _ & L). simpl in E. injection E as <-. vm_compute in L. lia. }
  split; [exact Hnot|].
  intros Hall. apply Hnot.
  eapply (Hall Demo.host Demo.may2 (Demo.ldPage Demo.longEventText)
               Demo.jsonSource Demo.pageUrl).
  - vm_compute. reflexivity.
  - left. reflexivity.
Qed.

Lemma bad_title_contributes_nothing host today source sourceUrl i container fr t :
  htmlTitle source container = Ok t ->
  t = EmptyString \/ (100 < String.length t)%nat ->
  eachContainer host today source sourceUrl i container fr = (Next, fr).
Proof.
  intros Ht Hbad.
  assert (Hskip : negb (nonEmpty t) || (100 <? String.length t)%nat = true).
  { destruct Hbad as [->|Hlong]; [reflexivity|].
    apply orb_true_iff. right. apply Nat.ltb_lt. exact Hlong. }
  unfold eachContainer. destruct (30 <=? i)%nat; [reflexivity|].
  unfold Stm.tryCatch, Stm.eval, htmlEvent. rewrite Ht. cbn [bindExc].
  repeat match goal with
         | |- context [bindExc ?e _] => destruct e; cbn [bindExc]; [|reflexivity]
         end.
  rewrite Hskip. reflexivity.
Qed.

(** C1, amended. Every record that [extractEvents] returns has a non-empty
    (truthy) title. The records of HTML selector extraction (all records
    of a source whose extraction type is not [json], and whatever the HTML
    stage appends to the array otherwise) have a string title that is
    non-empty and at most 100 characters long, and a container whose
    resolved title is empty or longer than 100 characters contributes no
    record. *)
Theorem titles_of_extracted_records
    (host : Host) (today : DateFields) (html : RawDocument)
    (source : SourceInfo) (sourceUrl : string) (evs : list EventRecord) :
  extractEvents host today html source sourceUrl = Ok evs ->
  (forall r, In r evs -> JS.truthy (title r) = true) /\
  (Src.extraction_type source <> "json" -> forall r, In r evs -> BoundedTitle r) /\
  Appends BoundedTitle (standardHtml host today html source sourceUrl) /\
  (forall i container fr t,
      htmlTitle source container = Ok t ->
      t = EmptyString \/ (100 < String.length t)%nat ->
      eachContainer host today source sourceUrl i container fr = (Next, fr)).
Proof.
  intros H. repeat split.
  - intros r Hr. pose proof (extractEvents_good _ _ _ _ _ _ H) as F.
    rewrite Forall_forall in F. apply F. apply list_elem_of_In. exact Hr.
  - intros Hstd r Hr.
    destruct (extractEvents_stages _ _ _ _ _ _ H) as (a & b & -> & _ & Fb & Ha).
    rewrite (Ha Hstd) in Hr. simpl in Hr.
    rewrite Forall_forall in Fb. apply Fb. apply list_elem_of_In. exact Hr.
  - eapply appends_weaken; [|apply standardHtml_appends]. intros r [Hr _]. exact Hr.
  - intros i container fr t. apply bad_title_contributes_nothing.
Qed.

Lemma titles_of_extracted_records_witness :
  let html := Demo.page [Demo.card "Band X" "Fri May 2" "8:00 PM" None;
                         Demo.card "" "Sat May 3" "9:00 PM" None;
                         Demo.card Demo.longName "Sun May 4" "7:00 PM" None] in
  exists r,
    extractEvents Demo.host Demo.may2 html Demo.standardSource Demo.pageUrl = Ok [r] /\
    title r = JStr "Band X" /\
    BoundedTitle r.
Proof.
  intros html. eexists. split; [vm_compute; reflexivity|]. split; [reflexivity|].
  refine (proj1 (proj2 (titles_of_extracted_records Demo.host Demo.may2 html
                          Demo.standardSource Demo.pageUrl _ _)) _ _ _).
  - vm_compute. reflexivity.
  - discriminate.
  - left. reflexivity.
Defined.

(** C9. When the source has a non-empty name, every record that
    [extractEvents] returns has a non-empty (truthy) venue, so the
    grouping takes the venue itself and not its default. *)
Theorem extracted_records_have_a_venue
    (host : Host) (today : DateFields) (html : RawDocument)
    (source : SourceInfo) (sourceUrl : string) (evs : list EventRecord) (r : EventRecord) :
  Src.source source <> EmptyString ->
  extractEvents host today html source sourceUrl = Ok evs ->
  In r evs ->
  JS.truthy (venue r) = true /\
  JS.or (venue r) (JStr "Unknown Venue") = venue r /\
  venueKey r = JS.ToString (venue r).
Proof.
  intros Hsrc H Hr.
  pose proof (extractEvents_good _ _ _ _ _ _ H) as F.
  rewrite Forall_forall in F. apply list_elem_of_In in Hr.
  destruct (F r Hr) as [_ Hv]. specialize (Hv Hsrc).
  split; [exact Hv|]. unfold venueKey. rewrite (or_truthy _ _ Hv). auto.
Qed.

Lemma extracted_records_have_a_venue_witness :
  let r := record "Band Y" "Fri, May 2" "8:00 PM" "https://example.com/band-y"
                  "The Independent" true in
  Src.source Demo.jsonSource <> EmptyString /\
  extractEvents Demo.host Demo.may2 (Demo.ldPage (Demo.stringify Demo.bandY))
                Demo.jsonSource Demo.pageUrl = Ok [r] /\
  venueKey r = "The Independent".
Proof.
  intros r. split; [discriminate|]. split; [vm_compute; reflexivity|].
  refine (proj2 (proj2 (extracted_records_have_a_venue Demo.host Demo.may2
                          (Demo.ldPage (Demo.stringify Demo.bandY)) Demo.jsonSource
                          Demo.pageUrl [r] r _ _ _))).
  - discriminate.
  - vm_compute. reflexivity.
  - left. reflexivity.
Defined.

(** ** The URL of a record of the HTML strategy *)

Lemma htmlEvent_url host today source sourceUrl container e :
  htmlEvent host today source sourceUrl container = Ok (Some e) ->
  exists u, htmlUrl host source sourceUrl container = Ok u /\ url e = JStr u.
Proof.
  unfold htmlEvent. intros H. exc_inv H; injection H as <-; eauto.
Qed.


(** C7. The script takes a reference for absolute when it starts with the
    letters [http]. The relative reference [httpdocs/a] has no scheme and
    resolves against [https://example.com/events/] to
    [https://example.com/events/httpdocs/a], yet the record keeps it as it
    is. *)
Theorem relative_href_starting_with_http_is_kept :
  let container := Demo.card "Band X" "Fri May 2" "8:00 PM" (Some "httpdocs/a") in
  Spec.isAbsoluteUrl "httpdocs/a" = false /\
  URL_href Demo.host "httpdocs/a" Demo.pageUrl = Ok "https://example.com/events/httpdocs/a" /\
  (exists e,
      htmlEvent Demo.host Demo.may2 Demo.standardSource Demo.pageUrl container = Ok (Some e) /\
      url e = JStr "httpdocs/a") /\
  ~ relative_href_is_resolved.
Proof.
  intros container. split; [reflexivity|]. split; [reflexivity|].
  split; [eexists; split; [vm_compute; reflexivity | reflexivity]|].
  intros Hall.
  pose (e := record "Band X" "Fri May 2" "8:00 PM" "httpdocs/a" "The Chapel" true).
  assert (Hu : url e = JStr "https://example.com/events/httpdocs/a").
  { apply (Hall Demo.host Demo.may2 Demo.standardSource Demo.pageUrl container
                e (Demo.leaf "Tickets" (Some "httpdocs/a")) [] "httpdocs/a");
      try reflexivity; try discriminate. }
  discriminate Hu.
Qed.

(** What the script does with the [href] attribute of the first element
    that matches the URL selector inside the container: an [href] that is
    empty or starts with [http] is kept as it is; any other [href] is
    resolved against the URL of the page, and kept unchanged when the
    resolution fails. *)
Lemma url_of_html_record
    (host : Host) (today : DateFields) (source : SourceInfo) (sourceUrl : string)
    (container : Element) (e : EventRecord) (first : Element) (rest : list Element)
    (href : string) :
  htmlEvent host today source sourceUrl container = Ok (Some e) ->
  Src.url_selector source <> EmptyString ->
  find container (Src.url_selector source) = Ok (first :: rest) ->
  attr_href first = Some href ->
  (href = EmptyString \/ Str.startsWith href "http" = true -> url e = JStr href) /\
  (href <> EmptyString -> Str.startsWith href "http" = false ->
   match URL_href host href sourceUrl with
   | Ok resolved => url e = JStr resolved
   | Throw => url e = JStr href
   end).
Proof.
  intros He Hsel Hfind Hhref.
  destruct (htmlEvent_url _ _ _ _ _ _ He) as (u & Hu & ->).
  revert Hu. unfold htmlUrl. apply nonEmpty_true in Hsel. rewrite Hsel, Hfind.
  cbn [bindExc hrefOfFirst]. rewrite Hhref. unfold makeAbsolute.
  intros Hu. injection Hu as <-. split.
  - intros [->|Hhttp]; [reflexivity|]. rewrite Hhttp, andb_false_r. reflexivity.
  - intros Hne Hrel. apply nonEmpty_true in Hne. rewrite Hne, Hrel. simpl.
    destruct (URL_href host href sourceUrl); reflexivity.
Qed.

(** The example of the specification: on the page
    [https://example.com/events/], the [href] [/show/123] gives the [url]
    [https://example.com/show/123]. *)
Lemma url_of_html_record_witness :
  let container := Demo.card "Band X" "Fri May 2" "8:00 PM" (Some "/show/123") in
  exists e,
    htmlEvent Demo.host Demo.may2 Demo.standardSource "https://example.com/events/" container
    = Ok (Some e) /\
    url e = JStr "https://example.com/show/123".
Proof.
  intros container. eexists. split; [vm_compute; reflexivity|].
  refine (proj2 (url_of_html_record Demo.host Demo.may2 Demo.standardSource
                   "https://example.com/events/" container _
                   (Demo.leaf "Tickets" (Some "/show/123")) [] "/show/123" _ _ _ _) _ _).
  - vm_compute. reflexivity.
  - discriminate.
  - reflexivity.
  - reflexivity.
  - discriminate.
  - reflexivity.
Defined.

(** ** The date checks *)

Lemma htmlEvent_is_today host today source sourceUrl container e :
  htmlEvent host today source sourceUrl container = Ok (Some e) ->
  exists d, date e = JStr d /\ is_today e = htmlIsToday today d.
Proof.
  unfold htmlEvent. intros H. exc_inv H; injection H as <-; eauto.
Qed.

(** C10. The day-of-month check of the extraction stage is substring
    containment: with the reference date 2 May, the date text "Fri May 12"
    contains "2" and the name of the month, so a record with that date text
    is marked as today. *)
Theorem substring_day_check_marks_may_12
    (host : Host) (today : DateFields) (source : SourceInfo) (sourceUrl : string)
    (container : Element) (e : EventRecord) :
  getMonth today = 4 -> getDate today = 2 ->
  htmlIsToday today "Fri May 12" = true /\
  (htmlEvent host today source sourceUrl container = Ok (Some e) ->
   date e = JStr "Fri May 12" -> is_today e = true).
Proof.
  intros Hm Hd.
  assert (Ht : htmlIsToday today "Fri May 12" = true).
  { unfold htmlIsToday, todayDate, todayMonth. rewrite Hm, Hd. reflexivity. }
  split; [exact Ht|].
  intros He Hdate. destruct (htmlEvent_is_today _ _ _ _ _ _ He) as (d & Ed & ->).
  rewrite Ed in Hdate. injection Hdate as ->. exact Ht.
Qed.

Lemma substring_day_check_marks_may_12_witness :
  let container := Demo.card "Band X" "Fri May 12" "8:00 PM" None in
  exists e,
    htmlEvent Demo.host Demo.may2 Demo.standardSource Demo.pageUrl container = Ok (Some e) /\
    date e = JStr "Fri May 12" /\
    is_today e = true.
Proof.
  intros container. eexists. split; [vm_compute; reflexivity|]. split; [reflexivity|].
  refine (proj2 (substring_day_check_marks_may_12 Demo.host Demo.may2 Demo.standardSource
                   Demo.pageUrl container _ _ _) _ _); reflexivity.
Defined.

(** C4. For the date text "Friday, May 2" and the reference date 2 May:
    when 2 May is a Friday the extraction stage marks the record as today,
    the today filter keeps it and so does the strict pass; when 2 May is
    another day of the week the strict pass removes the record, because
    the text names a day that is not the day of the reference date. *)
Theorem friday_may_2
    (host : Host) (today : DateFields) (e : EventRecord) :
  getMonth today = 4 -> getDate today = 2 ->
  date e = JStr "Friday, May 2" ->
  (Cal.getDay today = 5 ->
   htmlIsToday today "Friday, May 2" = true /\
   isTodaysEvent host today e = Ok true /\
   keptByStrictPass today e = Ok true) /\
  (Cal.getDay today <> 5 -> keptByStrictPass today e = Ok false).
Proof.
  intros Hm Hd Hdate. split.
  - intros Hdow. repeat split.
    + unfold htmlIsToday, todayDate, todayMonth. rewrite Hm, Hd. reflexivity.
    + unfold isTodaysEvent. rewrite Hdate. destruct (is_today e); [reflexivity|].
      cbn [JS.truthy JS.toLowerCase bindExc String.eqb negb Ascii.eqb].
      unfold isTodayText, todayDate, todayMonth. rewrite Hm, Hd, Hdow. reflexivity.
    + unfold keptByStrictPass. rewrite Hdate.
      unfold mentionsOtherDayName, mentionsOtherDate, mentionsDate, otherDates,
        todayDate, todayMonth.
      rewrite Hm, Hd, Hdow. vm_compute. reflexivity.
  - intros Hdow. unfold keptByStrictPass. rewrite Hdate.
    cbn [JS.truthy JS.toLowerCase bindExc String.eqb negb Ascii.eqb].
    replace (mentionsOtherDayName today (Str.toLowerCase "Friday, May 2")) with true;
      [reflexivity|].
    symmetry. unfold mentionsOtherDayName. apply existsb_exists. exists 5. split.
    + simpl. tauto.
    + apply andb_true_iff. split; [|reflexivity].
      apply negb_true_iff, Z.eqb_neq. congruence.
Qed.

Lemma friday_may_2_witness :
  let e := record "Band X" "Friday, May 2" "8:00 PM" "" "The Chapel" true in
  (Cal.getDay Demo.may2 = 5 /\ keptByStrictPass Demo.may2 e = Ok true) /\
  (Cal.getDay (mkDate 2026 4 2 0) = 6 /\ keptByStrictPass (mkDate 2026 4 2 0) e = Ok false).
Proof.
  intros e. split; (split; [reflexivity|]).
  - refine (proj2 (proj2 (proj1 (friday_may_2 Demo.host Demo.may2 e _ _ _) _)));
      reflexivity.
  - refine (proj2 (friday_may_2 Demo.host (mkDate 2026 4 2 0) e _ _ _) _);
      try reflexivity.
    vm_compute. discriminate.
Defined.

Lemma isTodayText_jan_2 host ms :
  isTodayText host (mkDate 2025 4 2 ms) "jan 2" =
  isMatchingDate (mkDate 2025 4 2 ms) (Date_new host (JStr "jan 2")).
Proof. reflexivity. Qed.

(** C3. For the reference date Friday 2 May 2025, the today filter keeps
    a record whose date text is "5/2" (the month/day token matches), and
    drops one whose date text is "5/12" or "Jan 2"; the records are those
    of the HTML strategy, whose own mark is computed from the same text.
    The text "jan 2" reaches [new Date(text)], whose reading of it is left
    to the host: it is taken to be a date in January, or no date. *)
Theorem today_filter_on_2_may_2025
    (host : Host) (ms : Z) (e : EventRecord) (text : string) :
  let today := mkDate 2025 4 2 ms in
  (forall f, Date_new host (JStr "jan 2") = ValidDate f -> getMonth f = 0) ->
  date e = JStr text ->
  is_today e = htmlIsToday today text ->
  Cal.getDay today = 5 /\
  (text = "5/2" -> isTodaysEvent host today e = Ok true) /\
  (text = "5/12" -> isTodaysEvent host today e = Ok false) /\
  (text = "Jan 2" -> isTodaysEvent host today e = Ok false).
Proof.
  intros today Hhost Hdate Hmark. split; [reflexivity|].
  unfold isTodaysEvent. rewrite Hdate, Hmark.
  repeat split; intros ->.
  - reflexivity.
  - reflexivity.
  - change (Ok (isTodayText host today "jan 2") = Ok false).
    unfold today. rewrite isTodayText_jan_2.
    destruct (Date_new host (JStr "jan 2")) as [|f] eqn:E; [reflexivity|].
    unfold isMatchingDate. rewrite (Hhost f eq_refl).
    change (0 =? todayMonth (mkDate 2025 4 2 ms) - 1) with false.
    rewrite andb_false_r. reflexivity.
Qed.

Lemma today_filter_on_2_may_2025_witness :
  let e := record "Band X" "Jan 2" "8:00 PM" "" "The Chapel" false in
  Date_new Demo.host (JStr "jan 2") = ValidDate (mkDate 2001 0 2 0) /\
  isTodaysEvent Demo.host Demo.may2 e = Ok false.
Proof.
  intros e. split; [reflexivity|].
  refine (proj2 (proj2 (proj2 (today_filter_on_2_may_2025 Demo.host 43200000 e "Jan 2"
                                 _ _ _))) _).
  - intros f Hf. injection Hf as <-. reflexivity.
  - reflexivity.
  - reflexivity.
  - reflexivity.
Defined.

(** ** The strict pass *)


(** C2. The strict pass removes records for which the claim gives no
    reason, because two of its four patterns are plain substrings
    (a space and the digits, the digits and a comma). On 2 May 2025 the
    record with the date text "Tonight 8pm" is extracted and marked as
    today, passes the today filter and is removed, although the text names
    no day of the week, no month, and has neither a slash nor a dot. On
    Monday 12 May 2025 the record with the date text "Mon, May 12", the
    reference day itself, is marked, passes the today filter and is
    removed, because the text holds " 1". *)
Theorem strict_pass_removes_without_a_stated_reason :
  let may12 := mkDate 2025 4 12 43200000 in
  let e := record "Band X" "Tonight 8pm" "" "" "The Chapel" true in
  let f := record "Band Y" "Mon, May 12" "" "" "The Chapel" true in
  (extractEvents Demo.host Demo.may2 (Demo.page [Demo.card "Band X" "Tonight 8pm" "" None])
                 Demo.standardSource Demo.pageUrl = Ok [e] /\
   todaysEvents Demo.host Demo.may2 [e] = Ok [e] /\
   keptByStrictPass Demo.may2 e = Ok false /\
   strictlyFilteredEvents Demo.host Demo.may2 [e] = Ok [] /\
   Spec.removalReason Demo.may2 "tonight 8pm" = false /\
   existsb (Str.includes "tonight 8pm")
           (["/"; "."] ++ monthNames ++ shortMonthNames ++ dayNames ++ shortDayNames) = false) /\
  (Cal.getDay may12 = 1 /\
   extractEvents Demo.host may12 (Demo.page [Demo.card "Band Y" "Mon, May 12" "" None])
                 Demo.standardSource Demo.pageUrl = Ok [f] /\
   todaysEvents Demo.host may12 [f] = Ok [f] /\
   keptByStrictPass may12 f = Ok false /\
   strictlyFilteredEvents Demo.host may12 [f] = Ok [] /\
   Spec.removalReason may12 "mon, may 12" = false) /\
  ~ strict_pass_removes_only_for_stated_reasons.
Proof.
  intros may12 e f.
  split; [repeat split; vm_compute; reflexivity|].
  split; [repeat split; vm_compute; reflexivity|].
  intros Hall.
  assert (H : Spec.removalReason Demo.may2 (Str.toLowerCase "Tonight 8pm") = true).
  { apply (Hall Demo.host Demo.may2 [e] [e] e "Tonight 8pm");
      try (vm_compute; reflexivity). left. reflexivity. }
  vm_compute in H. discriminate H.
Qed.

Lemma In_range x : forall n first, In x (range first n) <-> first <= x < first + Z.of_nat n.
Proof.
  induction n as [|n IH]; intros first; simpl range.
  - simpl. lia.
  - simpl In. rewrite IH. lia.
Qed.

Lemma mentionsOtherDayName_true today lowerDate :
  mentionsOtherDayName today lowerDate = true <->
  exists i, 0 <= i < 7 /\ i <> Cal.getDay today /\
            (Str.includes lowerDate (nameAt dayNames i) = true \/
             Str.includes lowerDate (nameAt shortDayNames i) = true).
Proof.
  unfold mentionsOtherDayName. rewrite existsb_exists. split.
  - intros (i & Hin & Hi). apply In_range in Hin.
    apply andb_true_iff in Hi. destruct Hi as [Hne Hinc].
    apply negb_true_iff, Z.eqb_neq in Hne. apply orb_true_iff in Hinc.
    exists i. repeat split; auto; lia.
  - intros (i & Hr & Hne & Hinc). exists i. split; [apply In_range; lia|].
    apply andb_true_iff. split.
    + apply negb_true_iff, Z.eqb_neq. exact Hne.
    + apply orb_true_iff. exact Hinc.
Qed.

Lemma mentionsOtherDate_true today lowerDate :
  mentionsOtherDate today lowerDate = true <->
  exists d, 1 <= d <= 31 /\ d <> getDate today /\
    (Str.includes lowerDate (" " +:+ Str.ofZ d) = true \/
     Str.includes lowerDate (Str.ofZ d +:+ ",") = true \/
     Str.testWordBounded (Str.ofZ (getMonth today + 1) +:+ "/" +:+ Str.ofZ d) lowerDate = true \/
     Str.testWordBounded (Str.ofZ (getMonth today + 1) +:+ "." +:+ Str.ofZ d) lowerDate = true).
Proof.
  unfold mentionsOtherDate, otherDates, mentionsDate, todayDate, todayMonth.
  rewrite existsb_exists. split.
  - intros (d & Hin & Hd). apply filter_In in Hin. destruct Hin as [Hin Hne].
    apply In_range in Hin. apply negb_true_iff, Z.eqb_neq in Hne.
    rewrite !orb_true_iff in Hd.
    exists d. repeat split; try lia; tauto.
  - intros (d & Hr & Hne & Hd). exists d. split.
    + apply filter_In. split; [apply In_range; lia|].
      apply negb_true_iff, Z.eqb_neq. exact Hne.
    + rewrite !orb_true_iff. tauto.
Qed.

(** When the strict pass removes a record with a date text, exactly. *)
Lemma keptByStrictPass_false_iff (today : DateFields) (e : EventRecord) (text : string) :
  date e = JStr text -> text <> EmptyString ->
  keptByStrictPass today e = Ok false <->
  mentionsOtherDayName today (Str.toLowerCase text) = true \/
  mentionsOtherDate today (Str.toLowerCase text) = true.
Proof.
  intros Hdate Hne. apply nonEmpty_true in Hne.
  unfold keptByStrictPass. rewrite Hdate, truthy_JStr, Hne.
  cbn [JS.toLowerCase bindExc].
  destruct (mentionsOtherDayName today (Str.toLowerCase text)),
           (mentionsOtherDate today (Str.toLowerCase text)); simpl;
    split; intros H; try tauto; try discriminate H; try reflexivity;
    destruct H as [H|H]; discriminate H.
Qed.

Lemma keptByStrictPass_total (today : DateFields) (e : EventRecord) (text : string) :
  date e = JStr text ->
  keptByStrictPass today e = Ok true \/ keptByStrictPass today e = Ok false.
Proof.
  intros Hdate. unfold keptByStrictPass. rewrite Hdate.
  destruct (JS.truthy (JStr text)); [|left; reflexivity].
  cbn [JS.toLowerCase bindExc].
  destruct (negb _ && negb _); [left|right]; reflexivity.
Qed.

(** What the script tests, as a bound on what the strict pass removes: a
    record is removed only if its lower-cased date text contains the full
    or three-letter name of a day of the week other than the reference
    day, or, for a number [d] from 1 to 31 other than the reference day,
    contains the digits of [d] right after a space, or right before a
    comma, or the whole token [M/d] or [M.d] with [M] the number of the
    reference month. *)
Lemma strict_pass_removal
    (today : DateFields) (e : EventRecord) (text : string) :
  date e = JStr text ->
  let lowerDate := Str.toLowerCase text in
  let otherDayName :=
    exists i, 0 <= i < 7 /\ i <> Cal.getDay today /\
      (Str.includes lowerDate (nameAt dayNames i) = true \/
       Str.includes lowerDate (nameAt shortDayNames i) = true) in
  let otherDayNumber :=
    exists d, 1 <= d <= 31 /\ d <> getDate today /\
      (Str.includes lowerDate (" " +:+ Str.ofZ d) = true \/
       Str.includes lowerDate (Str.ofZ d +:+ ",") = true \/
       Str.testWordBounded (Str.ofZ (getMonth today + 1) +:+ "/" +:+ Str.ofZ d)
                           lowerDate = true \/
       Str.testWordBounded (Str.ofZ (getMonth today + 1) +:+ "." +:+ Str.ofZ d)
                           lowerDate = true) in
  (keptByStrictPass today e = Ok false -> otherDayName \/ otherDayNumber) /\
  (~ (otherDayName \/ otherDayNumber) -> keptByStrictPass today e = Ok true).
Proof.
  intros Hdate lowerDate otherDayName otherDayNumber.
  assert (Hremoved : keptByStrictPass today e = Ok false -> otherDayName \/ otherDayNumber).
  { intros Hrm. destruct (String.eqb_spec text EmptyString) as [->|Hne].
    - revert Hrm. unfold keptByStrictPass. rewrite Hdate. discriminate.
    - apply (keptByStrictPass_false_iff today e text Hdate Hne) in Hrm.
      unfold otherDayName, otherDayNumber, lowerDate.
      rewrite <- mentionsOtherDayName_true, <- mentionsOtherDate_true. exact Hrm. }
  split; [exact Hremoved|].
  intros Hnone. destruct (keptByStrictPass_total today e text Hdate) as [Hk|Hk];
    [exact Hk | destruct (Hnone (Hremoved Hk))].
Qed.

Lemma strict_pass_removal_witness :
  let e := record "Band X" "Tonight 8pm" "" "" "The Chapel" true in
  date e = JStr "Tonight 8pm" /\
  keptByStrictPass Demo.may2 e = Ok false /\
  ((exists i, 0 <= i < 7 /\ i <> Cal.getDay Demo.may2 /\
      (Str.includes "tonight 8pm" (nameAt dayNames i) = true \/
       Str.includes "tonight 8pm" (nameAt shortDayNames i) = true)) \/
   (exists d, 1 <= d <= 31 /\ d <> getDate Demo.may2 /\
      (Str.includes "tonight 8pm" (" " +:+ Str.ofZ d) = true \/
       Str.includes "tonight 8pm" (Str.ofZ d +:+ ",") = true \/
       Str.testWordBounded (Str.ofZ (getMonth Demo.may2 + 1) +:+ "/" +:+ Str.ofZ d)
                           "tonight 8pm" = true \/
       Str.testWordBounded (Str.ofZ (getMonth Demo.may2 + 1) +:+ "." +:+ Str.ofZ d)
                           "tonight 8pm" = true))).
Proof.
  intros e. split; [reflexivity|]. split; [vm_compute; reflexivity|].
  apply (proj1 (strict_pass_removal Demo.may2 e "Tonight 8pm" eq_refl)).
  vm_compute. reflexivity.
Defined.

(** ** Grouping *)


(** C8. The object [eventsByRegion] is made by [{}], so its lookups go on
    to [Object.prototype]. A record whose venue is [toString] (its region
    is San Francisco, its venue key is the venue itself) is not placed
    under its venue: [eventsByRegion['San Francisco']['toString']] is the
    inherited function, no array is created, the call of [push] throws and
    no report is written. A record whose region is [constructor] and
    whose venue the built-in [Object] does not reject is hung on that
    built-in: the loop goes on, [eventsByRegion] has no property for it and
    the report does not list it. On whatever engine. *)
Theorem venue_named_toString_is_not_grouped (rejects : string -> string -> bool) :
  let e := record "Band X" "Fri May 2" "8:00 PM" "" "toString" true in
  let f := {| title := JStr "Band Y"; date := JStr "Fri May 2"; time := JStr "";
              url := JStr ""; venue := JStr "The Chapel"; region := "constructor";
              source_url := Demo.pageUrl; is_today := true |} in
  (regionKey e = "San Francisco" /\ venueKey e = "toString" /\
   Report.eventsByRegion rejects [e] = Report.TypeError /\
   Report.markdown rejects "Friday, May 2" [e] = Report.TypeError) /\
  (regionKey f = "constructor" /\ venueKey f = "The Chapel" /\
   (rejects "constructor" "The Chapel" = false ->
    Report.eventsByRegion rejects [f] = Report.Done [] /\
    Report.listed rejects [f] = Report.Done [])).
Proof.
  intros e f. split.
  - repeat split; reflexivity.
  - split; [reflexivity|]. split; [reflexivity|]. intros Hfree.
    unfold Report.listed, Report.eventsByRegion. cbn [Report.forEach].
    unfold Report.addEvent. cbn [Report.get].
    change (regionKey f) with "constructor". change (venueKey f) with "The Chapel".
    change (Report.inherited "constructor") with true. cbv iota. rewrite Hfree.
    split; reflexivity.
Qed.

Lemma venue_named_toString_is_not_grouped_witness :
  Report.eventsByRegion (fun _ _ => false)
    [{| title := JStr "Band Y"; date := JStr "Fri May 2"; time := JStr "";
        url := JStr ""; venue := JStr "The Chapel"; region := "constructor";
        source_url := Demo.pageUrl; is_today := true |}] = Report.Done [] /\
  Report.listed (fun _ _ => false)
    [{| title := JStr "Band Y"; date := JStr "Fri May 2"; time := JStr "";
        url := JStr ""; venue := JStr "The Chapel"; region := "constructor";
        source_url := Demo.pageUrl; is_today := true |}] = Report.Done [].
Proof.
  apply (proj2 (proj2 (proj2 (venue_named_toString_is_not_grouped (fun _ _ => false))))).
  reflexivity.
Defined.

(** * Further properties of the scripts *)

(** ** File names *)

Lemma sanitizeFilename_cons c url :
  Files.sanitizeFilename (String c url) = String (sanitizeChar c) (Files.sanitizeFilename url).
Proof. reflexivity. Qed.

Ltac each_char c :=
  destruct c as [[] [] [] [] [] [] [] []]; reflexivity.

Lemma sanitizeChar_safe c : Files.isSafeChar (sanitizeChar c) = true.
Proof. each_char c. Qed.

Lemma sanitizeChar_idempotent c : sanitizeChar (sanitizeChar c) = sanitizeChar c.
Proof. each_char c. Qed.

Lemma sanitizeFilename_chars url :
  Files.allChars Files.isSafeChar (Files.sanitizeFilename url) = true.
Proof.
  induction url as [|c url IH]; [reflexivity|].
  rewrite sanitizeFilename_cons. simpl. rewrite sanitizeChar_safe, IH. reflexivity.
Qed.

(** X1. [sanitizeFilename] keeps the length of the URL, leaves only
    lower-case letters, digits and underscores, and changes nothing in a
    text it has produced. *)
Theorem sanitizeFilename_safe (url : string) :
  String.length (Files.sanitizeFilename url) = String.length url /\
  Files.allChars Files.isSafeChar (Files.sanitizeFilename url) = true /\
  Files.sanitizeFilename (Files.sanitizeFilename url) = Files.sanitizeFilename url.
Proof.
  induction url as [|c url (IHlen & IHsafe & IHidem)]; [repeat split|].
  rewrite !sanitizeFilename_cons. repeat split.
  - simpl. rewrite IHlen. reflexivity.
  - simpl. rewrite sanitizeChar_safe, IHsafe. reflexivity.
  - rewrite sanitizeChar_idempotent, IHidem. reflexivity.
Qed.

Lemma allChars_app p s t :
  Files.allChars p (s +:+ t) = Files.allChars p s && Files.allChars p t.
Proof.
  induction s as [|c s IH]; simpl; [reflexivity|].
  rewrite IH, andb_assoc. reflexivity.
Qed.

Lemma allChars_impl (p q : ascii -> bool) s :
  (forall c, p c = true -> q c = true) ->
  Files.allChars p s = true -> Files.allChars q s = true.
Proof.
  intros Hpq. induction s as [|c s IH]; simpl; [reflexivity|].
  intros H. apply andb_true_iff in H. destruct H as [Hc Hs].
  rewrite (Hpq c Hc), (IH Hs). reflexivity.
Qed.

Lemma safe_notSlash c : Files.isSafeChar c = true -> notSlash c = true.
Proof. destruct c as [[] [] [] [] [] [] [] []]; intros H; try reflexivity; discriminate H. Qed.

Lemma safe_notSpace c : Files.isSafeChar c = true -> notSpace c = true.
Proof. destruct c as [[] [] [] [] [] [] [] []]; intros H; try reflexivity; discriminate H. Qed.

Lemma underscoreRuns_notSpace name : forall inRun,
  Files.allChars notSpace (Files.underscoreRuns inRun name) = true.
Proof.
  induction name as [|c name IH]; intros inRun; simpl; [reflexivity|].
  destruct (Str.isWhiteSpace c) eqn:E.
  - destruct inRun; simpl; apply IH.
  - simpl. unfold notSpace at 1. rewrite E. apply IH.
Qed.

Lemma underscoreRuns_notSlash name : forall inRun,
  Files.allChars notSlash name = true ->
  Files.allChars notSlash (Files.underscoreRuns inRun name) = true.
Proof.
  induction name as [|c name IH]; intros inRun; simpl; [reflexivity|].
  intros H. apply andb_true_iff in H. destruct H as [Hc Hn].
  destruct (Str.isWhiteSpace c), inRun; simpl; rewrite ?Hc; apply IH; exact Hn.
Qed.

Lemma startsWith_one c d s :
  Str.startsWith (String c s) (String d EmptyString) = Ascii.eqb d c.
Proof. cbn [Str.startsWith]. destruct s; apply andb_true_r. Qed.

Lemma includes_cons c s needle :
  Str.includes (String c s) needle = Str.startsWith (String c s) needle || Str.includes s needle.
Proof. reflexivity. Qed.

Lemma includes_slash_false s :
  Str.includes s "/" = false -> Files.allChars notSlash s = true.
Proof.
  induction s as [|c s IH]; [reflexivity|].
  rewrite includes_cons, startsWith_one. intros H.
  apply orb_false_iff in H. destruct H as [Hc Hs].
  cbn [Files.allChars]. unfold notSlash at 1.
  rewrite Ascii.eqb_sym, Hc. apply IH, Hs.
Qed.

Lemma afterLastSlash_none s :
  Files.allChars notSlash s = true -> Files.afterLastSlash s = None.
Proof.
  induction s as [|c s IH]; simpl; [reflexivity|].
  intros H. apply andb_true_iff in H. destruct H as [Hc Hs].
  rewrite (IH Hs). unfold notSlash in Hc. apply negb_true_iff in Hc.
  rewrite Hc. reflexivity.
Qed.

(** X2. The name of the dump of a page holds no white space, whatever the
    name of the source and the URL; when the name of the source holds no
    slash, the file name holds none either and is its own base name, so
    the file process-html.js reads is the file whose existence it tested,
    the one fetch-html.js wrote. *)
Theorem dump_file_name (sourceName url : string) :
  Files.allChars notSpace (Files.htmlFileName sourceName url) = true /\
  (Str.includes sourceName "/" = false ->
   Files.allChars notSlash (Files.htmlFileName sourceName url) = true /\
   Files.basename (Files.htmlFileName sourceName url) = Files.htmlFileName sourceName url).
Proof.
  pose proof (sanitizeFilename_chars url) as Hsafe.
  unfold Files.htmlFileName. split.
  - rewrite !allChars_app, underscoreRuns_notSpace.
    rewrite (allChars_impl _ _ _ safe_notSpace Hsafe). reflexivity.
  - intros Hname. apply includes_slash_false in Hname.
    assert (H : Files.allChars notSlash
                  (Files.underscoreRuns false sourceName +:+ "_" +:+
                   Files.sanitizeFilename url +:+ ".html") = true).
    { rewrite !allChars_app, (underscoreRuns_notSlash _ _ Hname).
      rewrite (allChars_impl _ _ _ safe_notSlash Hsafe). reflexivity. }
    split; [exact H|]. unfold Files.basename. rewrite (afterLastSlash_none _ H). reflexivity.
Qed.

Lemma dump_file_name_witness :
  Str.includes "Bottom of the Hill" "/" = false /\
  Files.htmlFileName "Bottom of the Hill" "https://www.bottomofthehill.com/calendar.html" =
    "Bottom_of_the_Hill_https___www_bottomofthehill_com_calendar_html.html" /\
  Files.basename (Files.htmlFileName "Bottom of the Hill"
                    "https://www.bottomofthehill.com/calendar.html") =
  Files.htmlFileName "Bottom of the Hill" "https://www.bottomofthehill.com/calendar.html".
Proof.
  split; [reflexivity|]. split; [reflexivity|].
  apply (dump_file_name "Bottom of the Hill" "https://www.bottomofthehill.com/calendar.html").
  reflexivity.
Defined.

(** ** Invariants of [extractEvents] *)

Ltac appends_by record_lemma :=
  repeat lazymatch goal with
  | |- Appends _ Stm.skip => apply appends_skip
  | |- Appends _ Stm.returnEvents => apply appends_returnEvents
  | |- Appends _ Stm.returnIfEvents => apply appends_returnIfEvents
  | |- Appends _ (Stm.setFound _) => apply appends_setFound
  | |- Appends _ (Stm.seq _ _) => apply appends_seq
  | |- Appends _ (Stm.tryCatch _) => apply appends_tryCatch
  | |- Appends _ (Stm.unlessFound _) => apply appends_unlessFound
  | |- Appends _ (Stm.forEachPush _ _) =>
      apply appends_forEachPush; intros ? ?; solve [apply record_lemma]
  | |- Appends _ (Stm.forOf _ _) => apply appends_forOf; intros ? ?
  | |- Appends _ (Stm.eval _ _) => apply appends_eval; intros ? ?
  | |- Appends _ (if _ then _ else _) => apply appends_if
  end.

Section EngineInvariant.

Variable host : Host.
Variable today : DateFields.
Variable html : RawDocument.
Variable source : SourceInfo.
Variable sourceUrl : string.

(** A property of records that every callback that can run for this source
    establishes. *)
Variable Q : EventRecord -> Prop.

Hypothesis Q_serverData :
  Src.extraction_type source = "json" -> Src.source source = "Eventbrite" ->
  forall event r, serverDataEvent host today source sourceUrl event = Ok (Some r) -> Q r.
Hypothesis Q_eventbriteLd :
  Src.extraction_type source = "json" -> Src.source source = "Eventbrite" ->
  forall event r, eventbriteLdEvent host today source sourceUrl event = Ok (Some r) -> Q r.
Hypothesis Q_nextJs :
  Src.extraction_type source = "json" -> Src.source source = "Bandsintown" ->
  forall event r, nextJsEvent host today source sourceUrl event = Ok (Some r) -> Q r.
Hypothesis Q_schemaOrg :
  Src.extraction_type source = "json" ->
  forall offersUrl event r,
    schemaOrgEvent host today source sourceUrl offersUrl event = Ok (Some r) -> Q r.
Hypothesis Q_html :
  forall container r, htmlEvent host today source sourceUrl container = Ok (Some r) -> Q r.

Lemma eventbrite_keeps :
  Src.extraction_type source = "json" -> Src.source source = "Eventbrite" ->
  Appends Q (eventbrite host today html source sourceUrl).
Proof.
  intros Hty Hsrc. unfold eventbrite. cbv zeta.
  appends_by (Q_serverData Hty Hsrc). appends_by (Q_eventbriteLd Hty Hsrc).
Qed.

Lemma bandsintown_keeps :
  Src.extraction_type source = "json" -> Src.source source = "Bandsintown" ->
  Appends Q (bandsintown host today html source sourceUrl).
Proof.
  intros Hty Hsrc. unfold bandsintown, nextJsScriptTag, bandsintownLdTag.
  appends_by (Q_schemaOrg Hty firstOfferUrl).
  - unfold nextJsPath.
    match goal with |- Appends _ (match ?p with _ => _ end) =>
      destruct p as [| | | | |[|first rest]|] end;
      appends_by (Q_nextJs Hty Hsrc).
  - match goal with o : option (list JSValue) |- _ => destruct o end;
      appends_by (Q_schemaOrg Hty firstOfferUrl).
Qed.

Lemma genericJson_keeps :
  Src.extraction_type source = "json" ->
  Appends Q (genericJson host today html source sourceUrl).
Proof.
  intros Hty. unfold genericJson, genericLdTag. appends_by (Q_schemaOrg Hty anyOfferUrl).
  match goal with o : option (list JSValue) |- _ => destruct o as [[|]|] end;
    appends_by (Q_schemaOrg Hty anyOfferUrl).
Qed.

Lemma jsonStrategies_keeps : Appends Q (jsonStrategies host today html source sourceUrl).
Proof.
  unfold jsonStrategies.
  destruct (String.eqb_spec (Src.extraction_type source) "json") as [Hty|_];
    [|apply appends_skip].
  apply appends_seq; [|apply appends_seq].
  - destruct (String.eqb_spec (Src.source source) "Eventbrite") as [Hsrc|_];
      [apply eventbrite_keeps; assumption | apply appends_skip].
  - destruct (String.eqb_spec (Src.source source) "Bandsintown") as [Hsrc|_];
      [apply bandsintown_keeps; assumption | apply appends_skip].
  - apply genericJson_keeps, Hty.
Qed.

Lemma eachFrom_keeps containers : forall i,
  Appends Q (eachFrom host today source sourceUrl i containers).
Proof.
  induction containers as [|c rest IH]; intros i; simpl; [apply appends_skip|].
  apply appends_seq; [|apply IH].
  unfold eachContainer. appends_by Q_html.
  match goal with o : option EventRecord |- _ => destruct o as [r|] end;
    [apply appends_push; eapply Q_html; eassumption | apply appends_skip].
Qed.

Lemma standardHtml_keeps : Appends Q (standardHtml host today html source sourceUrl).
Proof. unfold standardHtml. appends_by Q_html. apply eachFrom_keeps. Qed.

(** Every record of the array that [extractEvents] returns has the
    property. *)
Lemma extractEvents_invariant evs :
  extractEvents host today html source sourceUrl = Ok evs -> Forall Q evs.
Proof.
  unfold extractEvents. intros H.
  destruct (appends_seq Q _ _ jsonStrategies_keeps standardHtml_keeps (mkFrame [] false))
    as (new & E & F).
  fold (extractEventsBody host today html source sourceUrl) in E.
  destruct (extractEventsBody host today html source sourceUrl (mkFrame [] false))
    as [[] fr]; try discriminate H; injection H as <-; simpl in E; rewrite E; exact F.
Qed.

End EngineInvariant.

Ltac record_fields H :=
  exc_inv H; injection H as <-; simpl; auto.

Lemma extracted_record_provenance host today html source sourceUrl evs r :
  extractEvents host today html source sourceUrl = Ok evs ->
  In r evs ->
  region r = Src.region source /\ source_url r = sourceUrl.
Proof.
  intros H Hr.
  cut (Forall (fun r => region r = Src.region source /\ source_url r = sourceUrl) evs).
  { rewrite Forall_forall. intros Inv. apply Inv, list_elem_of_In, Hr. }
  apply (extractEvents_invariant host today html source sourceUrl); [..| exact H].
  - intros _ _ event r0 H0. unfold serverDataEvent in H0. record_fields H0.
  - intros _ _ event r0 H0. unfold eventbriteLdEvent in H0. record_fields H0.
  - intros _ _ event r0 H0. unfold nextJsEvent in H0. record_fields H0.
  - intros _ offersUrl event r0 H0. unfold schemaOrgEvent in H0. record_fields H0.
  - intros container r0 H0. unfold htmlEvent in H0. record_fields H0.
Qed.

(** X3. Every record that [extractEvents] returns carries the region of
    the source it was called with and the URL it was called with, on
    every strategy. *)
Theorem records_carry_their_source
    (host : Host) (today : DateFields) (html : RawDocument)
    (source : SourceInfo) (sourceUrl : string) (evs : list EventRecord) (r : EventRecord) :
  extractEvents host today html source sourceUrl = Ok evs ->
  In r evs ->
  region r = Src.region source /\ source_url r = sourceUrl.
Proof. apply extracted_record_provenance. Qed.

Lemma records_carry_their_source_witness :
  let r := record "Band Y" "Fri, May 2" "8:00 PM" "https://example.com/band-y"
                  "The Independent" true in
  extractEvents Demo.host Demo.may2 (Demo.ldPage (Demo.stringify Demo.bandY))
                Demo.jsonSource Demo.pageUrl = Ok [r] /\
  region r = "San Francisco" /\ source_url r = Demo.pageUrl.
Proof.
  intros r. split; [vm_compute; reflexivity|].
  apply (records_carry_their_source Demo.host Demo.may2
           (Demo.ldPage (Demo.stringify Demo.bandY)) Demo.jsonSource Demo.pageUrl [r] r).
  - vm_compute. reflexivity.
  - left. reflexivity.
Defined.

Lemma dateOr_text host d s : exists t, dateOr host d (JStr s) = JStr t.
Proof. destruct d; simpl; eauto. Qed.

Lemma timeOr_text host d s : exists t, timeOr host d (JStr s) = JStr t.
Proof. destruct d; simpl; eauto. Qed.

Ltac text_fields :=
  repeat match goal with
    | |- context [dateOr ?h ?d (JStr ?s)] =>
        let t := fresh "t" in destruct (dateOr_text h d s) as [t ->]
    | |- context [timeOr ?h ?d (JStr ?s)] =>
        let t := fresh "t" in destruct (timeOr_text h d s) as [t ->]
    | |- context [if ?b then JStr _ else JStr _] => destruct b
    end;
  eauto.

Lemma filterExc_total {A} (p : A -> Exc bool) (l : list A) :
  (forall x, In x l -> exists b, p x = Ok b) ->
  exists kept, filterExc p l = Ok kept /\ forall x, In x kept -> In x l.
Proof.
  induction l as [|x l IH]; intros H; simpl.
  - exists []. split; [reflexivity | tauto].
  - destruct (H x (or_introl eq_refl)) as [b Hb]. rewrite Hb. simpl.
    destruct IH as (kept & Hk & Hin); [intros y Hy; apply H; right; exact Hy|].
    rewrite Hk. simpl. destruct b; eexists; split; try reflexivity.
    + intros y [->|Hy]; [left; reflexivity | right; apply Hin, Hy].
    + intros y Hy. right. apply Hin, Hy.
Qed.

Lemma isTodaysEvent_text host today e d :
  date e = JStr d -> exists b, isTodaysEvent host today e = Ok b.
Proof.
  intros Hd. unfold isTodaysEvent. rewrite Hd.
  destruct (is_today e); [eauto|]. destruct (JS.truthy (JStr d)); simpl; eauto.
Qed.

Lemma keptByStrictPass_text today e d :
  date e = JStr d -> exists b, keptByStrictPass today e = Ok b.
Proof.
  intros Hd. unfold keptByStrictPass. rewrite Hd.
  destruct (JS.truthy (JStr d)); simpl; eauto.
Qed.

(** X4. For a source other than Bandsintown, the date and the time of
    every extracted record are strings, so neither date filter of the
    today report throws on the extracted records. (The Next.js callback of
    Bandsintown copies [date_description] and [time_description] as they
    are, whatever their type.) *)
Theorem dates_are_text_unless_bandsintown
    (host : Host) (today : DateFields) (html : RawDocument)
    (source : SourceInfo) (sourceUrl : string) (evs : list EventRecord) :
  Src.source source <> "Bandsintown" ->
  extractEvents host today html source sourceUrl = Ok evs ->
  (forall r, In r evs -> exists d t, date r = JStr d /\ time r = JStr t) /\
  (exists todays kept,
      todaysEvents host today evs = Ok todays /\
      strictlyFilteredEvents host today evs = Ok kept).
Proof.
  intros Hsrc H.
  assert (Htext : forall r, In r evs -> exists d t, date r = JStr d /\ time r = JStr t).
  { cut (Forall (fun r => exists d t, date r = JStr d /\ time r = JStr t) evs).
    { rewrite Forall_forall. intros Inv r Hr. apply Inv, list_elem_of_In, Hr. }
    apply (extractEvents_invariant host today html source sourceUrl); [..| exact H].
    - intros _ _ event r0 H0. unfold serverDataEvent in H0.
      exc_inv H0; injection H0 as <-; simpl; text_fields.
    - intros _ _ event r0 H0. unfold eventbriteLdEvent in H0.
      exc_inv H0; injection H0 as <-; simpl; text_fields.
    - intros _ Hb. contradiction.
    - intros _ offersUrl event r0 H0. unfold schemaOrgEvent in H0.
      exc_inv H0; injection H0 as <-; simpl; text_fields.
    - intros container r0 H0. unfold htmlEvent in H0.
      exc_inv H0; injection H0 as <-; simpl; text_fields. }
  split; [exact Htext|].
  destruct (filterExc_total (isTodaysEvent host today) evs) as (todays & Ht & Hin).
  { intros e He. destruct (Htext e He) as (d & _ & Hd & _).
    eapply isTodaysEvent_text; eauto. }
  destruct (filterExc_total (keptByStrictPass today) todays) as (kept & Hk & _).
  { intros e He. destruct (Htext e (Hin e He)) as (d & _ & Hd & _).
    eapply keptByStrictPass_text; eauto. }
  exists todays, kept. unfold strictlyFilteredEvents, todaysEvents.
  rewrite Ht. simpl. auto.
Qed.

Lemma dates_are_text_unless_bandsintown_witness :
  let r := record "Jazz Night" "Fri, May 2" "8:00 PM" "https://example.com/jazz" "SFJAZZ" true in
  let html := Demo.serverDataPage (Demo.stringify Demo.serverData) in
  let source := Demo.venueSource "Eventbrite" "San Francisco" "json" in
  extractEvents Demo.host Demo.may2 html source Demo.pageUrl = Ok [r] /\
  exists todays kept,
    todaysEvents Demo.host Demo.may2 [r] = Ok todays /\
    strictlyFilteredEvents Demo.host Demo.may2 [r] = Ok kept.
Proof.
  intros r html source. split; [vm_compute; reflexivity|].
  refine (proj2 (dates_are_text_unless_bandsintown Demo.host Demo.may2 html source
                   Demo.pageUrl [r] _ _)).
  - discriminate.
  - vm_compute. reflexivity.
Defined.

(** ** The HTML strategy, container by container *)

Lemma eachContainer_adds host today source sourceUrl i container fr :
  eachContainer host today source sourceUrl i container fr =
  (Next, mkFrame (events fr ++
                  (if (30 <=? i)%nat then []
                   else containerRecords host today source sourceUrl container))
                 (foundEvents fr)).
Proof.
  destruct fr as [evs found]. unfold eachContainer, containerRecords.
  destruct (30 <=? i)%nat; [unfold Stm.skip; simpl; rewrite app_nil_r; reflexivity|].
  unfold Stm.tryCatch, Stm.eval.
  destruct (htmlEvent host today source sourceUrl container) as [[e|]|];
    unfold Stm.push, Stm.skip; simpl; rewrite ?app_nil_r; reflexivity.
Qed.

Lemma eachFrom_adds host today source sourceUrl containers : forall i fr,
  eachFrom host today source sourceUrl i containers fr =
  (Next, mkFrame (events fr ++
                  flat_map (containerRecords host today source sourceUrl)
                           (firstn (30 - i) containers))
                 (foundEvents fr)).
Proof.
  induction containers as [|c rest IH]; intros i fr.
  - destruct fr. rewrite firstn_nil. unfold eachFrom, Stm.skip. simpl.
    rewrite app_nil_r. reflexivity.
  - cbn [eachFrom]. unfold Stm.seq. rewrite eachContainer_adds, IH. cbn [events foundEvents].
    destruct (30 <=? i)%nat eqn:Hi.
    + apply Nat.leb_le in Hi. replace (30 - i)%nat with 0%nat by lia.
      replace (30 - S i)%nat with 0%nat by lia. simpl. rewrite !app_nil_r. reflexivity.
    + apply Nat.leb_gt in Hi. replace (30 - i)%nat with (S (30 - S i)) by lia.
      cbn [firstn flat_map]. rewrite app_assoc. reflexivity.
Qed.




(** ** Exceptions of [extractEvents] *)

Lemma noRaise_tryCatch s : NoRaise (Stm.tryCatch s).
Proof.
  intros fr. unfold Stm.tryCatch. destruct (s fr) as [[] fr']; simpl; discriminate.
Qed.

Lemma noRaise_skip : NoRaise Stm.skip.
Proof. intros fr. simpl. discriminate. Qed.

Lemma noRaise_seq s1 s2 : NoRaise s1 -> NoRaise s2 -> NoRaise (Stm.seq s1 s2).
Proof.
  intros H1 H2 fr. unfold Stm.seq. specialize (H1 fr).
  destruct (s1 fr) as [[] fr']; simpl in *; try discriminate; [apply H2 | contradiction].
Qed.

Lemma jsonStrategies_noRaise host today html source sourceUrl :
  NoRaise (jsonStrategies host today html source sourceUrl).
Proof.
  unfold jsonStrategies.
  destruct (String.eqb (Src.extraction_type source) "json"); [|apply noRaise_skip].
  apply noRaise_seq; [|apply noRaise_seq].
  - destruct (String.eqb (Src.source source) "Eventbrite");
      [apply noRaise_tryCatch | apply noRaise_skip].
  - destruct (String.eqb (Src.source source) "Bandsintown");
      [apply noRaise_tryCatch | apply noRaise_skip].
  - apply noRaise_tryCatch.
Qed.

(** X6. The only exception that leaves [extractEvents] is the one the
    selector engine raises on the container selector: if [extractEvents]
    throws, the container selector is set and selecting it threw; and for a
    source whose extraction type is not json, a container selector that is
    set and refused makes [extractEvents] throw. Nothing that the JSON
    strategies or a container do can make it throw. *)
Theorem only_the_container_selector_throws
    (host : Host) (today : DateFields) (html : RawDocument)
    (source : SourceInfo) (sourceUrl : string) :
  (extractEvents host today html source sourceUrl = Throw ->
   Src.container_selector source <> EmptyString /\
   select html (Src.container_selector source) = Throw) /\
  (Src.extraction_type source <> "json" ->
   Src.container_selector source <> EmptyString ->
   select html (Src.container_selector source) = Throw ->
   extractEvents host today html source sourceUrl = Throw).
Proof.
  split.
  - unfold extractEvents, extractEventsBody, Stm.seq.
    pose proof (jsonStrategies_noRaise host today html source sourceUrl (mkFrame [] false))
      as Hjson.
    destruct (jsonStrategies host today html source sourceUrl (mkFrame [] false))
      as [[] fr1]; simpl in Hjson; try discriminate; [|contradiction].
    unfold standardHtml, nonEmpty.
    destruct (String.eqb (Src.container_selector source) "") eqn:Hsel; simpl;
      [discriminate|].
    apply String.eqb_neq in Hsel. unfold Stm.eval.
    destruct (select html (Src.container_selector source)) as [containers|];
      [|intros _; split; [exact Hsel | reflexivity]].
    unfold Stm.seq. rewrite eachFrom_adds. discriminate.
  - intros Hty Hsel Hthrow.
    unfold extractEvents, extractEventsBody, Stm.seq, jsonStrategies, standardHtml.
    apply String.eqb_neq in Hty. rewrite Hty.
    unfold nonEmpty. apply String.eqb_neq in Hsel. rewrite Hsel. simpl.
    unfold Stm.eval, Stm.skip. rewrite Hthrow. reflexivity.
Qed.

Lemma only_the_container_selector_throws_witness :
  let html := mkDocument None [] [] (fun _ => Throw) in
  extractEvents Demo.host Demo.may2 html Demo.standardSource Demo.pageUrl = Throw /\
  Src.container_selector Demo.standardSource <> EmptyString /\
  select html (Src.container_selector Demo.standardSource) = Throw.
Proof.
  intros html.
  pose proof (only_the_container_selector_throws Demo.host Demo.may2 html
                Demo.standardSource Demo.pageUrl) as [Honly Hif].
  assert (H : extractEvents Demo.host Demo.may2 html Demo.standardSource Demo.pageUrl = Throw).
  { apply Hif; [discriminate | discriminate | reflexivity]. }
  split; [exact H | exact (Honly H)].
Defined.

(** X7. The records of a source whose extraction type is not json have
    text in every field; for Songkick the time is empty whatever the time
    selector finds, and for any other source the venue is the name of the
    source whatever the page says. *)
Theorem fields_of_html_sources
    (host : Host) (today : DateFields) (html : RawDocument)
    (source : SourceInfo) (sourceUrl : string) (evs : list EventRecord) (r : EventRecord) :
  Src.extraction_type source <> "json" ->
  extractEvents host today html source sourceUrl = Ok evs ->
  In r evs ->
  (exists t d tm u v,
      title r = JStr t /\ date r = JStr d /\ time r = JStr tm /\ url r = JStr u /\
      venue r = JStr v) /\
  (Src.source source = "Songkick" -> time r = JStr EmptyString) /\
  (Src.source source <> "Songkick" -> venue r = JStr (Src.source source)).
Proof.
  intros Hty H Hr.
  cut (Forall (fun r =>
         (exists t d tm u v,
             title r = JStr t /\ date r = JStr d /\ time r = JStr tm /\ url r = JStr u /\
             venue r = JStr v) /\
         (Src.source source = "Songkick" -> time r = JStr EmptyString) /\
         (Src.source source <> "Songkick" -> venue r = JStr (Src.source source))) evs).
  { rewrite Forall_forall. intros Inv. apply Inv, list_elem_of_In, Hr. }
  apply (extractEvents_invariant host today html source sourceUrl); [..| exact H];
    try (intros Hjson; contradiction).
  intros container r0 H0. unfold htmlEvent in H0.
  destruct (String.eqb (Src.source source) "Songkick") eqn:Hsk.
  - apply String.eqb_eq in Hsk.
    exc_inv H0; injection H0 as <-; simpl; repeat split;
      try congruence; unfold JS.or; simpl;
      repeat match goal with |- context [if ?b then _ else _] => destruct b end;
      eauto 10.
  - apply String.eqb_neq in Hsk.
    exc_inv H0; injection H0 as <-; simpl; repeat split; try congruence; eauto 10.
Qed.

Lemma fields_of_html_sources_witness :
  let r := record "Band Y" "Fri May 2" "8pm" "https://example.com/y" "The Chapel" true in
  let html := Demo.page [Demo.card "Band Y" "Fri May 2" "8pm" (Some "https://example.com/y")] in
  extractEvents Demo.host Demo.may2 html Demo.standardSource Demo.pageUrl = Ok [r] /\
  (Src.source Demo.standardSource <> "Songkick" ->
   venue r = JStr (Src.source Demo.standardSource)).
Proof.
  intros r html. split; [vm_compute; reflexivity|].
  refine (proj2 (proj2 (fields_of_html_sources Demo.host Demo.may2 html Demo.standardSource
                          Demo.pageUrl [r] r _ _ _))).
  - discriminate.
  - vm_compute. reflexivity.
  - left. reflexivity.
Defined.

(** ** From the rows of sources.csv to [allEvents] *)

Lemma find_same_name (sources : list Csv.Row) (row : Csv.Row) :
  In row sources ->
  exists first,
    List.find (fun s => String.eqb (Src.source (Csv.info s)) (Src.source (Csv.info row)))
              sources = Some first /\
    In first sources /\
    Src.source (Csv.info first) = Src.source (Csv.info row) /\
    (List.NoDup (List.map (fun s => Src.source (Csv.info s)) sources) -> first = row).
Proof.
  induction sources as [|s rest IH]; intros Hin; [contradiction|].
  cbn [List.find].
  destruct (String.eqb (Src.source (Csv.info s)) (Src.source (Csv.info row))) eqn:E.
  - apply String.eqb_eq in E. exists s. repeat split; [left; reflexivity | exact E |].
    intros Hnd. destruct Hin as [->|Hin]; [reflexivity|].
    cbn [List.map] in Hnd. apply NoDup_cons_iff in Hnd. destruct Hnd as [Hnot _].
    exfalso. apply Hnot. rewrite E.
    apply (in_map (fun s => Src.source (Csv.info s)) rest row Hin).
  - destruct Hin as [->|Hin]; [rewrite String.eqb_refl in E; discriminate|].
    destruct (IH Hin) as (first & Hfind & Hfirst & Hname & Hnd).
    exists first. repeat split; [exact Hfind | right; exact Hfirst | exact Hname |].
    intros Hnd'. apply Hnd. cbn [List.map] in Hnd'. apply NoDup_cons_iff in Hnd'. tauto.
Qed.

(** X8. Every record of [allEvents], computed from the fetches the script
    builds itself, comes from a row of sources.csv whose dump exists: the
    dump read is the base name of the row's file name, the selectors are
    those of the first row of the same source name (the row itself when
    source names are distinct), and the record carries that row's region
    and the URL of the fetched row. *)
Theorem aggregated_records_have_a_row
    (host : Host) (today : DateFields) (existsSync : string -> bool)
    (readFileSync : string -> Exc RawDocument) (sources : list Csv.Row) (r : EventRecord) :
  In r (allEvents host today readFileSync sources (successfulFetches existsSync sources)) ->
  exists row first html evs,
    In row sources /\
    existsSync (fileNameOf row) = true /\
    sourceInfoOf sources
      (Fetch.mk (Src.source (Csv.info row)) (Csv.url row) (Files.basename (fileNameOf row)))
      = Some first /\
    Src.source (Csv.info first) = Src.source (Csv.info row) /\
    (List.NoDup (List.map (fun s => Src.source (Csv.info s)) sources) -> first = row) /\
    readFileSync (Files.basename (fileNameOf row)) = Ok html /\
    extractEvents host today html (Csv.info first) (Csv.url row) = Ok evs /\
    In r evs /\
    region r = Src.region (Csv.info first) /\
    source_url r = Csv.url row.
Proof.
  unfold allEvents, successfulFetches. intros Hr.
  apply in_flat_map in Hr. destruct Hr as (fetch & Hfetch & Hr).
  apply in_map_iff in Hfetch. destruct Hfetch as (row & <- & Hrow).
  apply filter_In in Hrow. destruct Hrow as [Hrow Hexists].
  destruct (find_same_name sources row Hrow) as (first & Hfind & _ & Hname & Hnd).
  unfold eventsOfFetch, sourceInfoOf in Hr. cbn [Fetch.source Fetch.file Fetch.url] in Hr.
  rewrite Hfind in Hr.
  destruct (readFileSync (Files.basename (fileNameOf row))) as [html|] eqn:Hread;
    [|contradiction].
  cbn [bindExc] in Hr.
  destruct (extractEvents host today html (Csv.info first) (Csv.url row)) as [evs|] eqn:Hevs;
    [|contradiction].
  destruct (extracted_record_provenance _ _ _ _ _ _ _ Hevs Hr) as [Hregion Hurl].
  exists row, first, html, evs. unfold sourceInfoOf. cbn [Fetch.source].
  repeat split; assumption.
Qed.

Lemma aggregated_records_have_a_row_witness :
  let row := Csv.mk Demo.standardSource Demo.pageUrl in
  let page := Demo.page [Demo.card "Band Y" "Fri May 2" "8pm" (Some "https://example.com/y")] in
  let existsSync := fun f => String.eqb f (fileNameOf row) in
  let readFileSync := fun f => if String.eqb f (fileNameOf row) then Ok page else Throw in
  let r := record "Band Y" "Fri May 2" "8pm" "https://example.com/y" "The Chapel" true in
  allEvents Demo.host Demo.may2 readFileSync [row] (successfulFetches existsSync [row]) = [r] /\
  exists row' first html evs,
    In row' [row] /\
    existsSync (fileNameOf row') = true /\
    sourceInfoOf [row]
      (Fetch.mk (Src.source (Csv.info row')) (Csv.url row') (Files.basename (fileNameOf row')))
      = Some first /\
    Src.source (Csv.info first) = Src.source (Csv.info row') /\
    (List.NoDup (List.map (fun s => Src.source (Csv.info s)) [row]) -> first = row') /\
    readFileSync (Files.basename (fileNameOf row')) = Ok html /\
    extractEvents Demo.host Demo.may2 html (Csv.info first) (Csv.url row') = Ok evs /\
    In r evs /\
    region r = Src.region (Csv.info first) /\
    source_url r = Csv.url row'.
Proof.
  intros row page existsSync readFileSync r.
  assert (H : allEvents Demo.host Demo.may2 readFileSync [row]
                (successfulFetches existsSync [row]) = [r]) by (vm_compute; reflexivity).
  split; [exact H|].
  apply (aggregated_records_have_a_row Demo.host Demo.may2 existsSync readFileSync [row] r).
  rewrite H. left. reflexivity.
Defined.

(** ** The two date filters as a whole *)

Lemma filterExc_throw {A} (p : A -> Exc bool) (l : list A) :
  filterExc p l = Throw <-> exists x, In x l /\ p x = Throw.
Proof.
  induction l as [|x l IH]; simpl.
  - split; [discriminate | intros (x & [] & _)].
  - destruct (p x) as [b|] eqn:Hx; cbn [bindExc].
    + destruct (filterExc p l) as [kept|]; cbn [bindExc].
      * split; [discriminate|]. intros (y & [<-|Hy] & Hthrow); [congruence|].
        exfalso. assert (Hno : Ok kept = Throw :> Exc (list A))
          by (apply (proj2 IH); exists y; auto).
        discriminate Hno.
      * split; [|reflexivity]. intros _.
        destruct (proj1 IH eq_refl) as (y & Hy & Hthrow). exists y. auto.
    + split; [|reflexivity]. intros _. exists x. auto.
Qed.

Lemma filterExc_ok {A} (p : A -> Exc bool) (l kept : list A) :
  filterExc p l = Ok kept ->
  kept = List.filter (fun x => match p x with Ok true => true | _ => false end) l /\
  forall x, In x l -> exists b, p x = Ok b.
Proof.
  revert kept. induction l as [|x l IH]; simpl; intros kept H.
  - injection H as <-. split; [reflexivity | intros x []].
  - destruct (p x) as [b|] eqn:Hx; cbn [bindExc] in H; [|discriminate].
    destruct (filterExc p l) as [others|]; cbn [bindExc] in H; [|discriminate].
    destruct (IH others eq_refl) as [-> Hall]. injection H as <-. split.
    + destruct b; reflexivity.
    + intros y [<-|Hy]; [eauto | apply Hall, Hy].
Qed.

Lemma isTodaysEvent_throw host today e :
  isTodaysEvent host today e = Throw <->
  is_today e = false /\ JS.truthy (date e) = true /\ forall s, date e <> JStr s.
Proof.
  unfold isTodaysEvent. destruct (is_today e).
  - split; [discriminate | intros [H _]; discriminate].
  - destruct (date e) as [| |b|n|s|items|props]; simpl;
      try (split; [discriminate | intros (_ & H & _); discriminate]).
    + destruct b; simpl; [|split; [discriminate | intros (_ & H & _); discriminate]].
      split; [|reflexivity]. intros _. repeat split. discriminate.
    + destruct (n =? 0); simpl; [split; [discriminate | intros (_ & H & _); discriminate]|].
      split; [|reflexivity]. intros _. repeat split. discriminate.
    + destruct (String.eqb s ""); simpl; split; try discriminate;
        intros (_ & H & Hs); try discriminate; exfalso; exact (Hs s eq_refl).
    + split; [|reflexivity]. intros _. repeat split. discriminate.
    + split; [|reflexivity]. intros _. repeat split. discriminate.
Qed.

Lemma keptByStrictPass_throw today e :
  keptByStrictPass today e = Throw <->
  JS.truthy (date e) = true /\ forall s, date e <> JStr s.
Proof.
  unfold keptByStrictPass.
  destruct (date e) as [| |b|n|s|items|props]; simpl;
    try (split; [discriminate | intros (H & _); discriminate]).
  - destruct b; simpl; [|split; [discriminate | intros (H & _); discriminate]].
    split; [|reflexivity]. intros _. split; [reflexivity | discriminate].
  - destruct (n =? 0); simpl; [split; [discriminate | intros (H & _); discriminate]|].
    split; [|reflexivity]. intros _. split; [reflexivity | discriminate].
  - destruct (String.eqb s ""); simpl; split; try discriminate;
      intros (H & Hs); try discriminate; exfalso; exact (Hs s eq_refl).
  - split; [|reflexivity]. intros _. split; [reflexivity | discriminate].
  - split; [|reflexivity]. intros _. split; [reflexivity | discriminate].
Qed.

(** X9. The today filter throws exactly when some record that is not
    marked as today has a date that is truthy and not a string (its
    [toLowerCase] is not a function); the strict pass after it throws
    exactly when some record, marked or not, has such a date. No report is
    written in either case. *)
Theorem date_filters_throw_on_a_date_that_is_not_text
    (host : Host) (today : DateFields) (allEvents : list EventRecord) :
  (todaysEvents host today allEvents = Throw <->
   exists e, In e allEvents /\ is_today e = false /\
             JS.truthy (date e) = true /\ forall s, date e <> JStr s) /\
  (strictlyFilteredEvents host today allEvents = Throw <->
   exists e, In e allEvents /\ JS.truthy (date e) = true /\ forall s, date e <> JStr s).
Proof.
  assert (Htoday : todaysEvents host today allEvents = Throw <->
            exists e, In e allEvents /\ is_today e = false /\
                      JS.truthy (date e) = true /\ forall s, date e <> JStr s).
  { unfold todaysEvents. rewrite filterExc_throw. split.
    - intros (e & He & Hthrow). exists e. split; [exact He|].
      exact (proj1 (isTodaysEvent_throw host today e) Hthrow).
    - intros (e & He & Hcond). exists e. split; [exact He|].
      exact (proj2 (isTodaysEvent_throw host today e) Hcond). }
  split; [exact Htoday|].
  unfold strictlyFilteredEvents.
  destruct (todaysEvents host today allEvents) as [todays|] eqn:Htodays; cbn [bindExc].
  - unfold todaysEvents in Htodays. apply filterExc_ok in Htodays.
    destruct Htodays as [-> Hall]. rewrite filterExc_throw. split.
    + intros (e & He & Hthrow). apply filter_In in He. destruct He as [He _].
      exists e. split; [exact He|]. exact (proj1 (keptByStrictPass_throw today e) Hthrow).
    + intros (e & He & Htruthy & Hnot). exists e. split.
      * apply filter_In. split; [exact He|].
        destruct (Hall e He) as [b Hb]. rewrite Hb.
        destruct (is_today e) eqn:Hmark.
        -- unfold isTodaysEvent in Hb. rewrite Hmark in Hb. injection Hb as <-. reflexivity.
        -- assert (Hthrow : isTodaysEvent host today e = Throw)
             by (apply (proj2 (isTodaysEvent_throw host today e)); auto).
           congruence.
      * apply (proj2 (keptByStrictPass_throw today e)). auto.
  - split; [|reflexivity]. intros _.
    destruct (proj1 Htoday eq_refl) as (e & He & _ & Htruthy & Hnot).
    exists e. auto.
Qed.

(** X10. When they do not throw, the two passes together are one filter
    of [allEvents]: the strict list holds, in the order of [allEvents],
    the records that the today test accepts and the strict test does not
    reject, and nothing else. *)
Theorem strict_list_is_one_filter
    (host : Host) (today : DateFields) (allEvents kept : list EventRecord) :
  strictlyFilteredEvents host today allEvents = Ok kept ->
  kept = List.filter
           (fun e => match isTodaysEvent host today e, keptByStrictPass today e with
                     | Ok true, Ok true => true
                     | _, _ => false
                     end)
           allEvents.
Proof.
  unfold strictlyFilteredEvents. intros H.
  destruct (todaysEvents host today allEvents) as [todays|] eqn:Htodays;
    cbn [bindExc] in H; [|discriminate].
  unfold todaysEvents in Htodays.
  apply filterExc_ok in Htodays. destruct Htodays as [-> _].
  apply filterExc_ok in H. destruct H as [-> _].
  induction allEvents as [|e rest IH]; [reflexivity|].
  cbn [List.filter].
  destruct (isTodaysEvent host today e) as [[]|]; cbn [List.filter]; rewrite IH;
    reflexivity.
Qed.

Lemma strict_list_is_one_filter_witness :
  let friday := record "Band Y" "Fri, May 2" "8pm" "" "The Chapel" true in
  let saturday := record "Band Z" "Sat, May 3" "9pm" "" "The Chapel" false in
  let tonight := record "Band T" "Tonight 8pm" "" "" "The Chapel" false in
  strictlyFilteredEvents Demo.host Demo.may2 [friday; saturday; tonight] = Ok [friday] /\
  [friday] = List.filter
           (fun e => match isTodaysEvent Demo.host Demo.may2 e,
                           keptByStrictPass Demo.may2 e with
                     | Ok true, Ok true => true
                     | _, _ => false
                     end)
           [friday; saturday; tonight].
Proof.
  intros friday saturday tonight.
  assert (H : strictlyFilteredEvents Demo.host Demo.may2 [friday; saturday; tonight]
              = Ok [friday]) by (vm_compute; reflexivity).
  split; [exact H|].
  apply (strict_list_is_one_filter Demo.host Demo.may2 [friday; saturday; tonight] [friday] H).
Defined.

(** ** The date filters on the numeric forms of the reference date *)

Lemma numericDateChecks_all :
  forallb (fun m => forallb (fun d => numericDateChecks m d "/" && numericDateChecks m d ".")
                            (range 1 31))
          (range 0 12) = true.
Proof. vm_compute. reflexivity. Qed.

Lemma numericDateChecks_in_range m d sep :
  0 <= m <= 11 -> 1 <= d <= 31 -> sep = "/" \/ sep = "." ->
  numericDateChecks m d sep = true.
Proof.
  intros Hm Hd Hsep. pose proof numericDateChecks_all as H.
  rewrite forallb_forall in H. specialize (H m). rewrite forallb_forall in H.
  assert (Hin : In m (range 0 12)) by (apply In_range; lia).
  assert (Hin' : In d (range 1 31)) by (apply In_range; lia).
  specialize (H Hin d Hin'). apply andb_true_iff in H.
  destruct Hsep as [->| ->]; tauto.
Qed.

Lemma existsb_and_r {A} (g h : A -> bool) (l : list A) :
  existsb h l = false -> existsb (fun x => g x && h x) l = false.
Proof.
  induction l as [|x l IH]; [reflexivity|]. simpl. intros H.
  apply orb_false_iff in H. destruct H as [Hx Hl].
  rewrite Hx, andb_false_r. apply IH, Hl.
Qed.

Lemma mentionsOtherDate_fields y m d ms y' ms' lower :
  mentionsOtherDate (mkDate y m d ms) lower = mentionsOtherDate (mkDate y' m d ms') lower.
Proof.
  unfold mentionsOtherDate, otherDates, mentionsDate, todayDate, todayMonth.
  cbn [getDate getMonth]. reflexivity.
Qed.

(** X11. A record whose date is the month and the day of the reference
    date written [M/D] or [M.D] is accepted by the today filter and kept by
    the strict pass, whatever the year and the weekday, and whether or not
    the extraction marked it. *)
Theorem numeric_date_of_today_is_kept
    (host : Host) (today : DateFields) (e : EventRecord) (sep : string) :
  0 <= getMonth today <= 11 ->
  1 <= getDate today <= 31 ->
  sep = "/" \/ sep = "." ->
  date e = JStr (Str.ofZ (getMonth today + 1) +:+ sep +:+ Str.ofZ (getDate today)) ->
  isTodaysEvent host today e = Ok true /\
  keptByStrictPass today e = Ok true /\
  strictlyFilteredEvents host today [e] = Ok [e].
Proof.
  intros Hm Hd Hsep Hdate.
  pose proof (numericDateChecks_in_range _ _ _ Hm Hd Hsep) as Hc.
  destruct today as [y m d ms]. cbn [getMonth getDate] in *.
  unfold numericDateChecks in Hc. cbv zeta in Hc.
  rewrite !andb_true_iff, !negb_true_iff in Hc.
  destruct Hc as (((Hne & Hword) & Hdays) & Hdates).
  assert (Htoday : isTodaysEvent host (mkDate y m d ms) e = Ok true).
  { unfold isTodaysEvent. destruct (is_today e); [reflexivity|].
    rewrite Hdate, truthy_JStr, Hne. cbn [JS.toLowerCase bindExc].
    unfold isTodayText, todayMonth, todayDate. cbn [getMonth getDate].
    destruct Hsep as [->| ->]; rewrite Hword; rewrite ?orb_true_r, ?orb_true_l;
      reflexivity. }
  assert (Hkept : keptByStrictPass (mkDate y m d ms) e = Ok true).
  { unfold keptByStrictPass. rewrite Hdate, truthy_JStr, Hne.
    cbn [JS.toLowerCase bindExc].
    rewrite (mentionsOtherDate_fields y m d ms 0 0).
    rewrite Hdates. unfold mentionsOtherDayName.
    rewrite (existsb_and_r _ _ _ Hdays). reflexivity. }
  split; [exact Htoday|]. split; [exact Hkept|].
  unfold strictlyFilteredEvents, todaysEvents. cbn [filterExc].
  rewrite Htoday. cbn [bindExc filterExc]. rewrite Hkept. reflexivity.
Qed.

Lemma numeric_date_of_today_is_kept_witness :
  let e := record "Band Y" "5/2" "" "" "The Chapel" false in
  isTodaysEvent Demo.host Demo.may2 e = Ok true /\
  keptByStrictPass Demo.may2 e = Ok true /\
  strictlyFilteredEvents Demo.host Demo.may2 [e] = Ok [e].
Proof.
  intros e.
  apply (numeric_date_of_today_is_kept Demo.host Demo.may2 e "/").
  - simpl. lia.
  - simpl. lia.
  - left. reflexivity.
  - reflexivity.
Defined.

(** ** The strict pass from the 10th of a month on *)

Lemma startsWith_trans p : forall s n,
  Str.startsWith s n = true -> Str.startsWith n p = true -> Str.startsWith s p = true.
Proof.
  induction p as [|a p IH]; intros s n Hsn Hnp; [destruct s; reflexivity|].
  destruct n as [|b n]; [discriminate Hnp|].
  destruct s as [|c s]; [discriminate Hsn|].
  cbn [Str.startsWith] in *.
  apply andb_true_iff in Hsn, Hnp. destruct Hsn as [Hbc Hsn], Hnp as [Hab Hnp].
  apply Ascii.eqb_eq in Hbc, Hab. subst. rewrite Ascii.eqb_refl. simpl.
  apply (IH s n Hsn Hnp).
Qed.

Lemma includes_of_startsWith s p : Str.startsWith s p = true -> Str.includes s p = true.
Proof. intros H. destruct s; cbn [Str.includes]; rewrite H; reflexivity. Qed.

Lemma startsWith_includes n : forall s p,
  Str.startsWith s n = true -> Str.includes n p = true -> Str.includes s p = true.
Proof.
  induction n as [|b n IH]; intros s p Hsn Hnp.
  - cbn [Str.includes] in Hnp. rewrite orb_false_r in Hnp.
    apply includes_of_startsWith. apply (startsWith_trans p s EmptyString Hsn Hnp).
  - rewrite includes_cons in Hnp. apply orb_true_iff in Hnp. destruct Hnp as [Hnp|Hnp].
    + apply includes_of_startsWith. apply (startsWith_trans p s (String b n) Hsn Hnp).
    + destruct s as [|c s]; [discriminate Hsn|].
      cbn [Str.startsWith] in Hsn. apply andb_true_iff in Hsn. destruct Hsn as [_ Hsn].
      rewrite includes_cons. rewrite (IH s p Hsn Hnp). apply orb_true_r.
Qed.

Lemma includes_trans s : forall n p,
  Str.includes s n = true -> Str.includes n p = true -> Str.includes s p = true.
Proof.
  induction s as [|c s IH]; intros n p Hsn Hnp.
  - cbn [Str.includes] in Hsn. rewrite orb_false_r in Hsn.
    apply (startsWith_includes n EmptyString p Hsn Hnp).
  - rewrite includes_cons in Hsn. apply orb_true_iff in Hsn. destruct Hsn as [Hsn|Hsn].
    + apply (startsWith_includes n (String c s) p Hsn Hnp).
    + rewrite includes_cons. rewrite (IH n p Hsn Hnp). apply orb_true_r.
Qed.

Lemma first_digit_after_space :
  forallb (fun d => Str.includes (" " +:+ Str.ofZ d) (" " +:+ Str.ofZ (d / 10)))
          (range 10 22) = true.
Proof. vm_compute. reflexivity. Qed.

Lemma last_digit_before_comma :
  forallb (fun d => Str.includes (Str.ofZ d +:+ ",") (Str.ofZ (d mod 10) +:+ ","))
          (range 10 22) = true.
Proof. vm_compute. reflexivity. Qed.

(** X12. From the 10th of a month on, the strict pass removes every
    record whose date text has the day of the reference date right after a
    space (as in "May 12" on the 12th), since the text then also has the
    first digit of the day after a space, which is another day; and, when
    the day does not end in 0, every record whose date text has the day
    right before a comma. *)
Theorem strict_pass_removes_the_day_itself_from_the_10th
    (today : DateFields) (e : EventRecord) (text : string) :
  10 <= getDate today <= 31 ->
  date e = JStr text ->
  Str.includes (Str.toLowerCase text) (" " +:+ Str.ofZ (getDate today)) = true \/
  (getDate today mod 10 <> 0 /\
   Str.includes (Str.toLowerCase text) (Str.ofZ (getDate today) +:+ ",") = true) ->
  keptByStrictPass today e = Ok false.
Proof.
  intros Hday Hdate Htext.
  assert (Hin : In (getDate today) (range 10 22)) by (apply In_range; lia).
  assert (Hne : text <> EmptyString).
  { intros ->. remember (Str.ofZ (getDate today)) as day.
    destruct Htext as [H|[_ H]]; [|destruct day]; simpl in H; discriminate H. }
  apply (keptByStrictPass_false_iff today e text Hdate Hne). right.
  pose proof (Z.div_mod (getDate today) 10 ltac:(lia)) as Hdiv.
  pose proof (Z.mod_pos_bound (getDate today) 10 ltac:(lia)) as Hmod.
  apply mentionsOtherDate_true.
  destruct Htext as [H|[Hlast H]].
  - exists (getDate today / 10). split; [|split].
    + lia.
    + lia.
    + left. pose proof first_digit_after_space as Hall.
      rewrite forallb_forall in Hall.
      apply (includes_trans _ _ _ H (Hall _ Hin)).
  - exists (getDate today mod 10). split; [|split].
    + lia.
    + lia.
    + right. left. pose proof last_digit_before_comma as Hall.
      rewrite forallb_forall in Hall.
      apply (includes_trans _ _ _ H (Hall _ Hin)).
Qed.

Lemma strict_pass_removes_the_day_itself_from_the_10th_witness :
  let may12 := mkDate 2025 4 12 43200000 in
  let e := record "Band Y" "Mon, May 12" "8pm" "" "The Chapel" true in
  isTodaysEvent Demo.host may12 e = Ok true /\
  keptByStrictPass may12 e = Ok false.
Proof.
  intros may12 e. split; [reflexivity|].
  apply (strict_pass_removes_the_day_itself_from_the_10th may12 e "Mon, May 12").
  - simpl. lia.
  - reflexivity.
  - left. vm_compute. reflexivity.
Defined.

(** ** The date filters on the month and the day of the reference date *)

Lemma monthDayChecks_all :
  forallb (fun m => forallb (fun d => monthDayChecks monthNames m d &&
                                      monthDayChecks shortMonthNames m d)
                            (range 1 31))
          (range 0 12) = true.
Proof. vm_compute. reflexivity. Qed.

Lemma monthDayChecks_in_range names m d :
  0 <= m <= 11 -> 1 <= d <= 31 -> names = monthNames \/ names = shortMonthNames ->
  monthDayChecks names m d = true.
Proof.
  intros Hm Hd Hnames. pose proof monthDayChecks_all as H.
  rewrite forallb_forall in H. specialize (H m). rewrite forallb_forall in H.
  assert (Hin : In m (range 0 12)) by (apply In_range; lia).
  assert (Hin' : In d (range 1 31)) by (apply In_range; lia).
  specialize (H Hin d Hin'). apply andb_true_iff in H.
  destruct Hnames as [->| ->]; tauto.
Qed.

Lemma hasOtherMonth_fields y m d ms y' d' ms' lower :
  hasOtherMonth (mkDate y m d ms) lower = hasOtherMonth (mkDate y' m d' ms') lower.
Proof. unfold hasOtherMonth, todayMonth. cbn [getMonth]. reflexivity. Qed.

(** X23. A record whose date text is, up to the case of the letters, the
    full or the short name of the month of the reference date, a space and
    its day, is accepted by the today filter in every year; the strict
    pass keeps it on the days 1 to 9 and removes it from the 10th on. *)
Theorem month_and_day_of_today
    (host : Host) (today : DateFields) (e : EventRecord) (text : string)
    (names : list string) :
  0 <= getMonth today <= 11 ->
  1 <= getDate today <= 31 ->
  names = monthNames \/ names = shortMonthNames ->
  date e = JStr text ->
  Str.toLowerCase text =
    nameAt names (getMonth today) +:+ " " +:+ Str.ofZ (getDate today) ->
  isTodaysEvent host today e = Ok true /\
  (getDate today <= 9 -> keptByStrictPass today e = Ok true) /\
  (10 <= getDate today -> keptByStrictPass today e = Ok false).
Proof.
  intros Hm Hd Hnames Hdate Hlower.
  pose proof (monthDayChecks_in_range _ _ _ Hm Hd Hnames) as Hc.
  destruct today as [y m d ms]. cbn [getMonth getDate] in *.
  unfold monthDayChecks in Hc. cbv zeta in Hc. rewrite <- Hlower in Hc.
  rewrite !andb_true_iff, !negb_true_iff in Hc.
  destruct Hc as (((Hne & Hmonth) & Hdays) & Hdates).
  assert (Htruthy : JS.truthy (JStr text) = true).
  { rewrite truthy_JStr. destruct text; [discriminate Hne | reflexivity]. }
  split; [|split].
  - unfold isTodaysEvent. destruct (is_today e); [reflexivity|].
    rewrite Hdate, Htruthy. cbn [JS.toLowerCase bindExc].
    unfold isTodayText, todayMonth, todayDate. cbn [getMonth getDate].
    rewrite (hasOtherMonth_fields y m d ms 0 d 0).
    destruct Hmonth as ((H1 & H2) & H3).
    rewrite H1, H2, H3. cbn [andb]. rewrite ?orb_true_r, ?orb_true_l. reflexivity.
  - intros Hday. unfold keptByStrictPass. rewrite Hdate, Htruthy.
    cbn [JS.toLowerCase bindExc].
    rewrite (mentionsOtherDate_fields y m d ms 0 0).
    apply Z.leb_le in Hday. rewrite Hday in Hdates. apply eqb_prop in Hdates.
    apply negb_true_iff in Hdates. rewrite Hdates.
    unfold mentionsOtherDayName. rewrite (existsb_and_r _ _ _ Hdays). reflexivity.
  - intros Hday. unfold keptByStrictPass. rewrite Hdate, Htruthy.
    cbn [JS.toLowerCase bindExc].
    rewrite (mentionsOtherDate_fields y m d ms 0 0).
    assert (Hgt : (d <=? 9) = false) by (apply Z.leb_gt; lia).
    rewrite Hgt in Hdates. apply eqb_prop in Hdates.
    apply negb_false_iff in Hdates. rewrite Hdates.
    rewrite andb_false_r. reflexivity.
Qed.

Lemma month_and_day_of_today_witness :
  let e := record "Band Y" "May 2" "" "" "The Chapel" false in
  isTodaysEvent Demo.host Demo.may2 e = Ok true /\
  (getDate Demo.may2 <= 9 -> keptByStrictPass Demo.may2 e = Ok true) /\
  (10 <= getDate Demo.may2 -> keptByStrictPass Demo.may2 e = Ok false).
Proof.
  intros e.
  apply (month_and_day_of_today Demo.host Demo.may2 e "May 2" monthNames).
  - simpl. lia.
  - simpl. lia.
  - left. reflexivity.
  - reflexivity.
  - vm_compute. reflexivity.
Defined.

(** ** The object [eventsByRegion] in enumeration order *)





(** *** The loop and its step on own properties *)










(** *** What is under a region and a venue *)






(** *** The order of the regions and of the venues *)








(** *** Every record of an ordinary region is listed once *)











(** ** cleanup-events.js: the text that is parsed *)

Lemma splitAtFirst_eq needle s :
  Cleanup.splitAtFirst needle s =
  if Str.startsWith s needle then Some (EmptyString, Str.drop (String.length needle) s)
  else
    match s with
    | EmptyString => None
    | String c rest =>
        match Cleanup.splitAtFirst needle rest with
        | Some (before, after) => Some (String c before, after)
        | None => None
        end
    end.
Proof. destruct s; reflexivity. Qed.

Lemma append_cons c s t : String c s +:+ t = String c (s +:+ t).
Proof. reflexivity. Qed.

Lemma append_nil t : EmptyString +:+ t = t.
Proof. reflexivity. Qed.

Lemma startsWith_app needle rest : Str.startsWith (needle +:+ rest) needle = true.
Proof.
  induction needle as [|c needle IH]; [destruct rest; reflexivity|].
  rewrite append_cons. cbn [Str.startsWith]. rewrite Ascii.eqb_refl. exact IH.
Qed.

Lemma drop_app needle rest : Str.drop (String.length needle) (needle +:+ rest) = rest.
Proof. induction needle as [|c needle IH]; [reflexivity | exact IH]. Qed.

Lemma splitAtFirst_here needle rest :
  Cleanup.splitAtFirst needle (needle +:+ rest) = Some (EmptyString, rest).
Proof. rewrite splitAtFirst_eq, startsWith_app, drop_app. reflexivity. Qed.

(** A text without backquotes is skipped by the search for a needle that
    starts with one. *)
Lemma splitAtFirst_skip needle text s :
  Files.allChars notBackquote text = true ->
  Cleanup.splitAtFirst (String "`" needle) (text +:+ s) =
  match Cleanup.splitAtFirst (String "`" needle) s with
  | Some (before, after) => Some (text +:+ before, after)
  | None => None
  end.
Proof.
  induction text as [|c text IH]; intros Hno.
  - rewrite append_nil. destruct (Cleanup.splitAtFirst _ s) as [[? ?]|]; reflexivity.
  - cbn [Files.allChars] in Hno. apply andb_true_iff in Hno. destruct Hno as [Hc Hno].
    rewrite append_cons, splitAtFirst_eq. cbn [Str.startsWith].
    unfold notBackquote in Hc. apply negb_true_iff in Hc.
    rewrite (Ascii.eqb_sym "`" c), Hc. cbn [andb].
    rewrite (IH Hno).
    destruct (Cleanup.splitAtFirst _ s) as [[? ?]|]; reflexivity.
Qed.

Lemma splitAtFirst_none needle text :
  Files.allChars notBackquote text = true ->
  Cleanup.splitAtFirst (String "`" needle) text = None.
Proof.
  induction text as [|c text IH]; intros Hno; [reflexivity|].
  cbn [Files.allChars] in Hno. apply andb_true_iff in Hno. destruct Hno as [Hc Hno].
  rewrite splitAtFirst_eq. cbn [Str.startsWith].
  unfold notBackquote in Hc. apply negb_true_iff in Hc.
    rewrite (Ascii.eqb_sym "`" c), Hc. cbn [andb].
  rewrite (IH Hno). reflexivity.
Qed.

(** In a text without backquotes followed by a closing fence, the first
    closing fence is that one. *)
Lemma splitAtFirst_closer text after :
  Files.allChars notBackquote text = true ->
  Cleanup.splitAtFirst (Report.nl +:+ Cleanup.fence)
                       (text +:+ (Report.nl +:+ Cleanup.fence) +:+ after) =
  Some (text, after).
Proof.
  induction text as [|c text IH]; intros Hno.
  - rewrite append_nil. apply splitAtFirst_here.
  - cbn [Files.allChars] in Hno. apply andb_true_iff in Hno. destruct Hno as [Hc Hno].
    rewrite append_cons, splitAtFirst_eq.
    replace (Str.startsWith
               (String c (text +:+ (Report.nl +:+ Cleanup.fence) +:+ after))
               (Report.nl +:+ Cleanup.fence)) with false.
    + rewrite (IH Hno). reflexivity.
    + symmetry. unfold Report.nl, Cleanup.fence. rewrite !append_cons, !append_nil.
      cbn [Str.startsWith]. apply andb_false_iff. right.
      destruct text as [|c' text]; rewrite ?append_cons, ?append_nil;
        cbn [Str.startsWith]; [reflexivity|].
      cbn [Files.allChars] in Hno. apply andb_true_iff in Hno. destruct Hno as [Hc' _].
      unfold notBackquote in Hc'. apply negb_true_iff in Hc'.
      rewrite (Ascii.eqb_sym "`" c'), Hc'. reflexivity.
Qed.

(** X16. When the answer holds a block fenced with [```json] and the
    texts before the fence and inside it have no backquote, the text that
    is parsed is the inside of the block alone, whatever follows the
    closing fence; [cleanedEvents] is then what [JSON.parse] makes of
    it. *)
Theorem fenced_json_is_what_is_parsed
    (host : Host) (before inside after : string) :
  Files.allChars notBackquote before = true ->
  Files.allChars notBackquote inside = true ->
  let content :=
    before +:+ (Cleanup.fence +:+ "json" +:+ Report.nl) +:+ inside +:+
    (Report.nl +:+ Cleanup.fence) +:+ after in
  Cleanup.jsonText content = inside /\
  Cleanup.cleanedEvents host (answer (JStr content)) = JSON_parse host inside.
Proof.
  intros Hbefore Hinside content.
  assert (H : Cleanup.jsonText content = inside).
  { unfold Cleanup.jsonText, Cleanup.fenced, content.
    change (Cleanup.fence +:+ "json" +:+ Report.nl)
      with (String "`" (String "`" (String "`" ("json" +:+ Report.nl)))).
    rewrite (splitAtFirst_skip _ before _ Hbefore), splitAtFirst_here.
    rewrite (splitAtFirst_closer inside after Hinside). reflexivity. }
  split; [exact H|].
  unfold Cleanup.cleanedEvents, answer. cbn. rewrite H. reflexivity.
Qed.

Lemma fenced_json_is_what_is_parsed_witness :
  let inside := Demo.stringify Demo.bandY in
  let content :=
    "Here are the events:" +:+ (Cleanup.fence +:+ "json" +:+ Report.nl) +:+ inside +:+
    (Report.nl +:+ Cleanup.fence) +:+ " and `more`" in
  Cleanup.jsonText content = inside /\
  Cleanup.cleanedEvents Demo.host (answer (JStr content)) = JSON_parse Demo.host inside.
Proof.
  intros inside.
  apply (fenced_json_is_what_is_parsed Demo.host "Here are the events:" inside " and `more`");
    vm_compute; reflexivity.
Defined.

(** X17. When the answer has no backquote at all, the whole content is
    what is parsed. *)
Theorem unfenced_answer_is_parsed_whole (host : Host) (content : string) :
  Files.allChars notBackquote content = true ->
  Cleanup.jsonText content = content /\
  Cleanup.cleanedEvents host (answer (JStr content)) = JSON_parse host content.
Proof.
  intros Hno.
  assert (H : Cleanup.jsonText content = content).
  { unfold Cleanup.jsonText, Cleanup.fenced.
    change (Cleanup.fence +:+ "json" +:+ Report.nl)
      with (String "`" (String "`" (String "`" ("json" +:+ Report.nl)))).
    change (Cleanup.fence +:+ Report.nl)
      with (String "`" (String "`" (String "`" Report.nl))).
    rewrite !(splitAtFirst_none _ content Hno). reflexivity. }
  split; [exact H|].
  unfold Cleanup.cleanedEvents, answer. cbn. rewrite H. reflexivity.
Qed.

Lemma unfenced_answer_is_parsed_whole_witness :
  Cleanup.jsonText (Demo.stringify Demo.bandY) = Demo.stringify Demo.bandY /\
  Cleanup.cleanedEvents Demo.host (answer (JStr (Demo.stringify Demo.bandY))) =
    JSON_parse Demo.host (Demo.stringify Demo.bandY).
Proof.
  apply (unfenced_answer_is_parsed_whole Demo.host (Demo.stringify Demo.bandY)).
  vm_compute. reflexivity.
Defined.

Lemma fenced_step opener c s :
  Str.startsWith (String c s) opener = false ->
  Cleanup.fenced opener (String c s) = Cleanup.fenced opener s.
Proof.
  intros H. unfold Cleanup.fenced. rewrite (splitAtFirst_eq opener (String c s)), H.
  destruct (Cleanup.splitAtFirst opener s) as [[? ?]|]; reflexivity.
Qed.

Lemma fenced_skip opener text s :
  Files.allChars notBackquote text = true ->
  Cleanup.fenced (String "`" opener) (text +:+ s) = Cleanup.fenced (String "`" opener) s.
Proof.
  intros H. unfold Cleanup.fenced. rewrite (splitAtFirst_skip _ _ _ H).
  destruct (Cleanup.splitAtFirst _ s) as [[? ?]|]; reflexivity.
Qed.

Lemma startsWith_backquote s needle :
  Files.allChars notBackquote s = true -> Str.startsWith s (String "`" needle) = false.
Proof.
  destruct s as [|c s]; [reflexivity|]. cbn [Files.allChars Str.startsWith].
  intros H. apply andb_true_iff in H. destruct H as [Hc _].
  unfold notBackquote in Hc. apply negb_true_iff in Hc.
  rewrite (Ascii.eqb_sym "`" c), Hc. reflexivity.
Qed.

Lemma drop_notBackquote n : forall s,
  Files.allChars notBackquote s = true -> Files.allChars notBackquote (Str.drop n s) = true.
Proof.
  induction n as [|n IH]; intros s H; [exact H|].
  destruct s as [|c s]; [reflexivity|]. cbn [Str.drop]. apply IH.
  cbn [Files.allChars] in H. apply andb_true_iff in H. tauto.
Qed.

(** No closing fence in a text without backquotes. *)
Lemma closer_none s :
  Files.allChars notBackquote s = true ->
  Cleanup.splitAtFirst (Report.nl +:+ Cleanup.fence) s = None.
Proof.
  induction s as [|c s IH]; intros H; [reflexivity|].
  cbn [Files.allChars] in H. apply andb_true_iff in H. destruct H as [_ H].
  rewrite splitAtFirst_eq.
  replace (Str.startsWith (String c s) (Report.nl +:+ Cleanup.fence)) with false.
  - rewrite (IH H). reflexivity.
  - symmetry. unfold Report.nl, Cleanup.fence. rewrite append_cons, append_nil.
    cbn [Str.startsWith]. rewrite (startsWith_backquote s _ H). apply andb_false_r.
Qed.

(** After a closing fence and a text without backquotes, no block opened
    by three backquotes and [needle] is found. *)
Lemma no_fence_after_the_closer needle after :
  Files.allChars notBackquote after = true ->
  Cleanup.fenced (String "`" (String "`" (String "`" needle)))
                 (String "`" (String "`" (String "`" after))) = None.
Proof.
  intros H. destruct (Str.startsWith after needle) eqn:Hneedle.
  - unfold Cleanup.fenced. rewrite splitAtFirst_eq. cbn [Str.startsWith].
    rewrite !Ascii.eqb_refl, Hneedle. cbn [andb String.length Str.drop].
    rewrite closer_none; [reflexivity|]. apply drop_notBackquote, H.
  - rewrite fenced_step
      by (cbn [Str.startsWith]; rewrite !Ascii.eqb_refl, Hneedle; reflexivity).
    rewrite fenced_step
      by (cbn [Str.startsWith]; rewrite !Ascii.eqb_refl;
          rewrite (startsWith_backquote after _ H); reflexivity).
    rewrite fenced_step
      by (cbn [Str.startsWith]; rewrite !Ascii.eqb_refl;
          rewrite (startsWith_backquote after _ H); reflexivity).
    unfold Cleanup.fenced. rewrite (splitAtFirst_none _ after H). reflexivity.
Qed.

(** X24. When the answer holds a block with a plain fence and the texts
    before the fence, inside it and after it have no backquote, the text
    that is parsed is the inside of the block alone. *)
Theorem plain_fence_is_what_is_parsed
    (host : Host) (before inside after : string) :
  Files.allChars notBackquote before = true ->
  Files.allChars notBackquote inside = true ->
  Files.allChars notBackquote after = true ->
  let content :=
    before +:+ (Cleanup.fence +:+ Report.nl) +:+ inside +:+
    (Report.nl +:+ Cleanup.fence) +:+ after in
  Cleanup.jsonText content = inside /\
  Cleanup.cleanedEvents host (answer (JStr content)) = JSON_parse host inside.
Proof.
  intros Hbefore Hinside Hafter content.
  assert (Hnl : Files.allChars notBackquote Report.nl = true) by reflexivity.
  assert (Hjson : Cleanup.fenced (Cleanup.fence +:+ "json" +:+ Report.nl) content = None).
  { unfold content.
    change (Cleanup.fence +:+ "json" +:+ Report.nl)
      with (String "`" (String "`" (String "`" ("json" +:+ Report.nl)))).
    rewrite (fenced_skip _ before _ Hbefore).
    change ((Cleanup.fence +:+ Report.nl) +:+ inside +:+ (Report.nl +:+ Cleanup.fence) +:+ after)
      with (String "`" (String "`" (String "`"
              (Report.nl +:+ inside +:+ Report.nl +:+
               String "`" (String "`" (String "`" after)))))).
    rewrite fenced_step by reflexivity.
    rewrite fenced_step by reflexivity.
    rewrite fenced_step by reflexivity.
    rewrite (fenced_skip _ Report.nl _ Hnl), (fenced_skip _ inside _ Hinside).
    rewrite (fenced_skip _ Report.nl _ Hnl).
    apply (no_fence_after_the_closer _ after Hafter). }
  assert (H : Cleanup.jsonText content = inside).
  { unfold Cleanup.jsonText. rewrite Hjson.
    unfold Cleanup.fenced, content.
    change (Cleanup.fence +:+ Report.nl) with (String "`" (String "`" (String "`" Report.nl))).
    rewrite (splitAtFirst_skip _ before _ Hbefore), splitAtFirst_here.
    change (String "`" (String "`" (String "`" EmptyString))) with Cleanup.fence.
    rewrite (splitAtFirst_closer inside after Hinside). reflexivity. }
  split; [exact H|].
  unfold Cleanup.cleanedEvents, answer. cbn. rewrite H. reflexivity.
Qed.

Lemma plain_fence_is_what_is_parsed_witness :
  let inside := Demo.stringify Demo.bandY in
  let content :=
    "Here are the events:" +:+ (Cleanup.fence +:+ Report.nl) +:+ inside +:+
    (Report.nl +:+ Cleanup.fence) +:+ "json" in
  Cleanup.jsonText content = inside /\
  Cleanup.cleanedEvents Demo.host (answer (JStr content)) = JSON_parse Demo.host inside.
Proof.
  intros inside.
  apply (plain_fence_is_what_is_parsed Demo.host "Here are the events:" inside "json");
    vm_compute; reflexivity.
Defined.

(** ** A json source on a page without embedded JSON *)



(** ** The texts of a record of the HTML strategy *)

Lemma collapseFrom_singleSpaced s : forall inRun,
  singleSpaced inRun (Str.collapseFrom inRun s) = true.
Proof.
  induction s as [|c s IH]; intros inRun; [reflexivity|].
  cbn [Str.collapseFrom]. destruct (Str.isWhiteSpace c) eqn:Hc.
  - destruct inRun; [apply IH|].
    cbn [singleSpaced]. change (Str.isWhiteSpace " ") with true. cbn. apply IH.
  - cbn [singleSpaced]. rewrite Hc. apply IH.
Qed.

Lemma singleSpaced_true_false s :
  singleSpaced true s = true -> singleSpaced false s = true.
Proof.
  destruct s as [|c s]; [reflexivity|]. cbn [singleSpaced].
  destruct (Str.isWhiteSpace c); [|tauto].
  rewrite andb_false_r. discriminate.
Qed.

Lemma trimStart_singleSpaced s : forall afterSpace,
  singleSpaced afterSpace s = true -> singleSpaced true (Str.trimStart s) = true.
Proof.
  induction s as [|c s IH]; intros afterSpace H; [reflexivity|].
  cbn [Str.trimStart]. cbn [singleSpaced] in H.
  destruct (Str.isWhiteSpace c) eqn:Hc.
  - apply andb_true_iff in H. destruct H as [_ H]. apply (IH true H).
  - cbn [singleSpaced]. rewrite Hc. exact H.
Qed.

Lemma trimEnd_eq c s :
  Str.trimEnd (String c s) =
  if Str.allWhiteSpace (String c s) then EmptyString else String c (Str.trimEnd s).
Proof. reflexivity. Qed.

Lemma trimEnd_singleSpaced s : forall afterSpace,
  singleSpaced afterSpace s = true -> singleSpaced afterSpace (Str.trimEnd s) = true.
Proof.
  induction s as [|c s IH]; intros afterSpace H; [reflexivity|].
  rewrite trimEnd_eq. destruct (Str.allWhiteSpace (String c s)); [reflexivity|].
  cbn [singleSpaced] in *. destruct (Str.isWhiteSpace c).
  - apply andb_true_iff in H. destruct H as [H1 H]. rewrite H1, (IH true H). reflexivity.
  - apply (IH false H).
Qed.

Lemma trimEnd_allWhiteSpace s : Str.allWhiteSpace s = true -> Str.trimEnd s = EmptyString.
Proof. destruct s as [|c s]; [reflexivity|]. rewrite trimEnd_eq. intros ->. reflexivity. Qed.

Lemma trimEnd_last s : forall dflt,
  Str.allWhiteSpace s = false ->
  exists c, Str.lastChar dflt (Str.trimEnd s) = Some c /\ Str.isWhiteSpace c = false.
Proof.
  induction s as [|c s IH]; intros dflt H; [discriminate H|].
  rewrite trimEnd_eq, H. cbn [Str.lastChar].
  destruct (Str.allWhiteSpace s) eqn:Hs.
  - rewrite (trimEnd_allWhiteSpace s Hs). cbn [Str.lastChar]. exists c. split; [reflexivity|].
    cbn [Str.allWhiteSpace] in H. rewrite Hs, andb_true_r in H. exact H.
  - apply (IH (Some c) eq_refl).
Qed.

Lemma trimStart_head s :
  match Str.head (Str.trimStart s) with
  | Some c => Str.isWhiteSpace c = false
  | None => Str.trimStart s = EmptyString
  end.
Proof.
  induction s as [|c s IH]; [reflexivity|]. cbn [Str.trimStart].
  destruct (Str.isWhiteSpace c) eqn:Hc; [exact IH | exact Hc].
Qed.

Lemma trim_trimmed s : trimmed (Str.trim s) = true.
Proof.
  unfold Str.trim, trimmed. pose proof (trimStart_head s) as Hhead.
  destruct (Str.trimStart s) as [|c t]; [reflexivity|].
  cbn [Str.head] in Hhead.
  assert (Hnot : Str.allWhiteSpace (String c t) = false)
    by (cbn [Str.allWhiteSpace]; rewrite Hhead; reflexivity).
  destruct (trimEnd_last (String c t) None Hnot) as (l & Hl & Hws).
  rewrite Hl, Hws. rewrite trimEnd_eq, Hnot. cbn [Str.head]. rewrite Hhead. reflexivity.
Qed.

Lemma joinedText_normalised elements :
  trimmed (joinedText elements) = true /\ singleSpaced true (joinedText elements) = true.
Proof.
  unfold joinedText. cbv zeta. split; [apply trim_trimmed|].
  unfold Str.trim. apply trimEnd_singleSpaced.
  apply (trimStart_singleSpaced _ false). apply collapseFrom_singleSpaced.
Qed.

(** X19. In every record of a source whose extraction type is not json,
    the title has no white space at either end, and the date and the time
    are single-spaced: no white space at either end, and inside only
    single spaces (no line break, tab or run of spaces). *)
Theorem html_texts_are_normalised
    (host : Host) (today : DateFields) (html : RawDocument)
    (source : SourceInfo) (sourceUrl : string) (evs : list EventRecord) (r : EventRecord) :
  Src.extraction_type source <> "json" ->
  extractEvents host today html source sourceUrl = Ok evs ->
  In r evs ->
  exists t d tm,
    title r = JStr t /\ date r = JStr d /\ time r = JStr tm /\
    trimmed t = true /\
    trimmed d = true /\ singleSpaced true d = true /\
    trimmed tm = true /\ singleSpaced true tm = true.
Proof.
  intros Hty H Hr.
  cut (Forall (fun r => exists t d tm,
         title r = JStr t /\ date r = JStr d /\ time r = JStr tm /\
         trimmed t = true /\
         trimmed d = true /\ singleSpaced true d = true /\
         trimmed tm = true /\ singleSpaced true tm = true) evs).
  { rewrite Forall_forall. intros Inv. apply Inv, list_elem_of_In, Hr. }
  apply (extractEvents_invariant host today html source sourceUrl); [..| exact H];
    try (intros Hjson; contradiction).
  intros container r0 H0. unfold htmlEvent in H0.
  assert (Htitle : forall t, htmlTitle source container = Ok t -> trimmed t = true).
  { unfold htmlTitle. intros t Ht.
    destruct (nonEmpty (Src.title_selector source)); [|injection Ht as <-; reflexivity].
    destruct (find container (Src.title_selector source)) as [matched|];
      cbn [bindExc] in Ht; [|discriminate].
    destruct (nonEmpty (Str.trim (firstText matched))); [injection Ht as <-; apply trim_trimmed|].
    destruct (findAll matched "a") as [[|a anchors]|]; cbn [bindExc] in Ht;
      try discriminate; injection Ht as <-; apply trim_trimmed. }
  assert (Hjoined : forall selector t, htmlJoined selector container = Ok t ->
            trimmed t = true /\ singleSpaced true t = true).
  { unfold htmlJoined. intros selector t Ht.
    destruct (nonEmpty selector); [|injection Ht as <-; split; reflexivity].
    destruct (find container selector) as [matched|]; cbn [bindExc] in Ht; [|discriminate].
    injection Ht as <-. apply joinedText_normalised. }
  destruct (htmlTitle source container) as [t|] eqn:Ht; cbn [bindExc] in H0; [|discriminate].
  destruct (htmlJoined (Src.date_selector source) container) as [d|] eqn:Hd;
    cbn [bindExc] in H0; [|discriminate].
  destruct (htmlJoined (Src.time_selector source) container) as [tm|] eqn:Htm;
    cbn [bindExc] in H0; [|discriminate].
  destruct (Hjoined _ _ Hd) as [Hd1 Hd2]. destruct (Hjoined _ _ Htm) as [Htm1 Htm2].
  specialize (Htitle t eq_refl).
  exc_inv H0; injection H0 as <-; cbn [title date time]; eauto 12.
Qed.

Lemma html_texts_are_normalised_witness :
  let r := record "Band X" "Fri May 2" "" "https://example.com/show/123" "The Chapel" true in
  extractEvents Demo.host Demo.may2 (Demo.page [Demo.splitCard]) Demo.standardSource
                Demo.pageUrl = Ok [r] /\
  exists t d tm,
    title r = JStr t /\ date r = JStr d /\ time r = JStr tm /\
    trimmed t = true /\
    trimmed d = true /\ singleSpaced true d = true /\
    trimmed tm = true /\ singleSpaced true tm = true.
Proof.
  intros r.
  assert (H : extractEvents Demo.host Demo.may2 (Demo.page [Demo.splitCard])
                Demo.standardSource Demo.pageUrl = Ok [r]) by (vm_compute; reflexivity).
  split; [exact H|].
  apply (html_texts_are_normalised Demo.host Demo.may2 (Demo.page [Demo.splitCard])
           Demo.standardSource Demo.pageUrl [r] r).
  - discriminate.
  - exact H.
  - left. reflexivity.
Defined.

(** ** Which JSON is read *)

Lemma forOf_callbackRecords record items : forall rs fr,
  callbackRecords record items = Ok rs ->
  Stm.forOf items (fun event =>
    Stm.eval (record event) (fun r =>
      match r with
      | Some e => Stm.push e
      | None => Stm.skip
      end)) fr =
  (Next, mkFrame (events fr ++ rs) (foundEvents fr)).
Proof.
  induction items as [|event rest IH]; intros rs fr H; cbn [callbackRecords] in H.
  - injection H as <-. destruct fr. cbn. rewrite app_nil_r. reflexivity.
  - destruct (record event) as [r|] eqn:Hr; cbn [bindExc] in H; [|discriminate].
    destruct (callbackRecords record rest) as [others|]; cbn [bindExc] in H; [|discriminate].
    injection H as <-. cbn [Stm.forOf]. unfold Stm.seq, Stm.eval at 1. rewrite Hr.
    destruct r as [e|].
    + unfold Stm.push at 1. rewrite (IH others _ eq_refl). cbn [events foundEvents].
      rewrite <- app_assoc. reflexivity.
    + unfold Stm.skip at 1. apply (IH others fr eq_refl).
Qed.

Lemma forEachPush_callbackRecords record items rs fr :
  callbackRecords record items = Ok rs ->
  Stm.forEachPush (JArr items) record fr = (Next, mkFrame (events fr ++ rs) (foundEvents fr)).
Proof.
  intros H. unfold Stm.forEachPush, Stm.eval at 1. cbn [JS.arrayItems].
  apply forOf_callbackRecords, H.
Qed.

(** X20. For the Eventbrite source with extraction type json, when the
    page assigns [__SERVER_DATA__], its search results are an array and
    the callback throws on none of them, the records of the results, if
    there are any, are the whole answer, in the order of the array: no
    ld+json block and no container is read. *)
Theorem eventbrite_server_data_is_the_answer
    (host : Host) (today : DateFields) (html : RawDocument)
    (source : SourceInfo) (sourceUrl text : string) (data : JSValue)
    (items : list JSValue) (rs : list EventRecord) :
  Src.extraction_type source = "json" ->
  Src.source source = "Eventbrite" ->
  serverDataMatch html = Some text ->
  JSON_parse host text = Ok data ->
  JS.truthy data = true ->
  serverDataResults data = Ok (JArr items) ->
  callbackRecords (serverDataEvent host today source sourceUrl) items = Ok rs ->
  rs <> [] ->
  extractEvents host today html source sourceUrl = Ok rs.
Proof.
  intros Hty Hsrc Hmatch Hparse Htruthy Hresults Hrs Hne.
  unfold extractEvents, extractEventsBody, jsonStrategies. rewrite Hty, Hsrc.
  cbn [String.eqb Ascii.eqb Bool.eqb andb].
  unfold Stm.seq at 1 2. unfold eventbrite, eventbriteJsonData.
  rewrite Hmatch, Hparse, Htruthy. cbn [negb]. rewrite Htruthy.
  unfold Stm.tryCatch, Stm.seq at 1. unfold Stm.eval at 1. rewrite Hresults.
  cbn [JS.truthy]. rewrite (forEachPush_callbackRecords _ _ _ _ Hrs).
  unfold Stm.returnIfEvents. cbn [events app].
  destruct rs as [|r rs]; [contradiction|]. reflexivity.
Qed.

Lemma eventbrite_server_data_is_the_answer_witness :
  let source := Demo.venueSource "Eventbrite" "San Francisco" "json" in
  let html := Demo.serverDataPage (Demo.stringify Demo.serverData) in
  extractEvents Demo.host Demo.may2 html source Demo.pageUrl =
    Ok [record "Jazz Night" "Fri, May 2" "8:00 PM" "https://example.com/jazz" "SFJAZZ" true].
Proof.
  intros source html.
  refine (eventbrite_server_data_is_the_answer Demo.host Demo.may2 html source Demo.pageUrl
            (Demo.stringify Demo.serverData) Demo.serverData
            [JObj [("name", JStr "Jazz Night"); ("start_date", JStr "2025-05-02");
                   ("start_time", JStr "20:00"); ("url", JStr "https://example.com/jazz");
                   ("primary_venue", JObj [("name", JStr "SFJAZZ")])];
             JObj [("start_date", JStr "2025-05-03")]]
            _ _ _ _ _ _ _ _ _); try (vm_compute; reflexivity).
  discriminate.
Defined.

(** X21. For a source with extraction type json other than Eventbrite
    and Bandsintown, when the first ld+json block parses, holds events and
    the callback throws on none of them, the records of that block, if
    there are any, are the whole answer: no later block and no container
    is read. *)
Theorem first_json_ld_block_is_the_answer
    (host : Host) (today : DateFields) (html : RawDocument)
    (source : SourceInfo) (sourceUrl tag : string) (others : list string) (data : JSValue)
    (items : list JSValue) (rs : list EventRecord) :
  Src.extraction_type source = "json" ->
  Src.source source <> "Eventbrite" ->
  Src.source source <> "Bandsintown" ->
  ldJsonMatches html = tag :: others ->
  JSON_parse host (Str.trim tag) = Ok data ->
  eventOrEventsOrGraph data = Ok (Some items) ->
  callbackRecords (schemaOrgEvent host today source sourceUrl anyOfferUrl) items = Ok rs ->
  rs <> [] ->
  extractEvents host today html source sourceUrl = Ok rs.
Proof.
  intros Hty Heb Hbit Hld Hparse Hitems Hrs Hne.
  unfold extractEvents, extractEventsBody, jsonStrategies. rewrite Hty.
  apply String.eqb_neq in Heb, Hbit. rewrite Heb, Hbit. cbn [String.eqb Ascii.eqb Bool.eqb andb].
  unfold Stm.seq at 1 2 3. unfold Stm.skip at 1 2.
  unfold genericJson. rewrite Hld. cbn [Stm.forOf].
  unfold Stm.tryCatch at 1. unfold Stm.seq at 1. unfold Stm.tryCatch at 1.
  unfold genericLdTag. unfold Stm.eval at 1. rewrite Hparse.
  unfold Stm.eval at 1. rewrite Hitems.
  destruct items as [|item items].
  { cbn [callbackRecords] in Hrs. injection Hrs as <-. contradiction. }
  unfold Stm.seq at 1. rewrite (forEachPush_callbackRecords _ _ _ _ Hrs).
  unfold Stm.returnIfEvents. cbn [events app].
  destruct rs as [|r rs]; [contradiction|]. reflexivity.
Qed.

Lemma first_json_ld_block_is_the_answer_witness :
  extractEvents Demo.host Demo.may2 (Demo.ldPage (Demo.stringify Demo.bandY))
                Demo.jsonSource Demo.pageUrl =
    Ok [record "Band Y" "Fri, May 2" "8:00 PM" "https://example.com/band-y"
               "The Independent" true].
Proof.
  refine (first_json_ld_block_is_the_answer Demo.host Demo.may2
            (Demo.ldPage (Demo.stringify Demo.bandY)) Demo.jsonSource Demo.pageUrl
            (Demo.stringify Demo.bandY) [] Demo.bandY [Demo.bandY] _
            _ _ _ _ _ _ _ _); try (vm_compute; reflexivity); discriminate.
Defined.

(** X25. For the Bandsintown source with extraction type json: the
    script first computes the three paths of the first JSON script tag
    ([events], [upcomingEvents] and the [flatMap] over
    [dehydratedState?.queries]), then visits them in this order. When the
    tag parses, the computation of the third path does not throw
    ([queries] is absent or an array whose elements can be read), the
    [events] array is not empty, its first element looks like an event and
    the callback throws on none of its elements, the records of that array,
    if there are any, are the whole answer: the elements of the two other
    paths, the other tags, the ld+json blocks and the containers are not
    visited. *)
Theorem bandsintown_next_js_is_the_answer
    (host : Host) (today : DateFields) (html : RawDocument)
    (source : SourceInfo) (sourceUrl tag : string) (others : list string)
    (data pageProps first dehydrated : JSValue)
    (rest : list JSValue) (rs : list EventRecord) :
  Src.extraction_type source = "json" ->
  Src.source source = "Bandsintown" ->
  jsonScriptTags html = tag :: others ->
  JSON_parse host (Str.trim tag) = Ok data ->
  nextJsPageProps data = Ok pageProps ->
  JS.truthy pageProps = true ->
  JS.getp pageProps "events" = Ok (JArr (first :: rest)) ->
  dehydratedData pageProps = Ok dehydrated ->
  looksLikeEvent first = Ok true ->
  callbackRecords (nextJsEvent host today source sourceUrl) (first :: rest) = Ok rs ->
  rs <> [] ->
  extractEvents host today html source sourceUrl = Ok rs.
Proof.
  intros Hty Hsrc Htags Hparse Hprops Htruthy Hevents Hdehydrated Hlooks Hrs Hne.
  assert (Hupcoming : exists upcoming, JS.getp pageProps "upcomingEvents" = Ok upcoming).
  { destruct pageProps; try discriminate Hevents; eexists; reflexivity. }
  destruct Hupcoming as [upcoming Hupcoming].
  unfold extractEvents, extractEventsBody, jsonStrategies. rewrite Hty, Hsrc.
  cbn [String.eqb Ascii.eqb Bool.eqb andb].
  unfold Stm.seq at 1 2. unfold Stm.skip at 1. unfold Stm.seq at 1.
  unfold bandsintown. rewrite Htags. cbn [Stm.forOf].
  unfold Stm.tryCatch at 1. unfold Stm.seq at 1. unfold Stm.setFound at 1.
  unfold Stm.seq at 1 2. unfold Stm.tryCatch at 1.
  unfold nextJsScriptTag. unfold Stm.eval at 1. rewrite Hparse.
  unfold Stm.eval at 1. rewrite Hprops, Htruthy.
  unfold Stm.eval at 1. rewrite Hevents, Hupcoming, Hdehydrated. cbn [bindExc Stm.forOf].
  unfold Stm.seq at 1. unfold nextJsPath at 1. unfold Stm.eval at 1. rewrite Hlooks.
  unfold Stm.seq at 1. unfold Stm.setFound at 1. unfold Stm.seq at 1.
  rewrite (forEachPush_callbackRecords _ _ _ _ Hrs).
  unfold Stm.returnIfEvents. cbn [events app].
  destruct rs as [|r rs]; [contradiction|]. reflexivity.
Qed.

Lemma bandsintown_next_js_is_the_answer_witness :
  let event := JObj [("title", JStr "Band Z"); ("datetime", JStr "2025-05-03T21:30:00");
                     ("venue", JObj [("name", JStr "Great American Music Hall")])] in
  let pageProps := JObj [("events", JArr [event])] in
  let data := JObj [("props", JObj [("pageProps", pageProps)])] in
  let host := {| JSON_parse := fun _ => Ok data;
                 Date_new := Date_new Demo.host;
                 toLocaleDateString := toLocaleDateString Demo.host;
                 toLocaleTimeString := toLocaleTimeString Demo.host;
                 URL_href := URL_href Demo.host |} in
  let source := Demo.venueSource "Bandsintown" "San Francisco" "json" in
  extractEvents host Demo.may2 (Demo.nextPage "{}" []) source Demo.pageUrl =
    Ok [record "Band Z" "Sat, May 3" "9:30 PM" "" "Great American Music Hall" false].
Proof.
  intros event pageProps data host source.
  refine (bandsintown_next_js_is_the_answer host Demo.may2 (Demo.nextPage "{}" []) source
            Demo.pageUrl "{}" [] data pageProps event JUndefined [] _
            _ _ _ _ _ _ _ _ _ _ _); try (vm_compute; reflexivity).
  discriminate.
Defined.

(** ** The markdown of the records of one venue *)






(** * Examples *)

(** ** The string, value and calendar functions on small inputs *)

Example includes_ex : Str.includes "fri may 12" "2" = true.
Proof. reflexivity. Qed.
Example trim_ex : Str.trim "  a b  " = "a b".
Proof. reflexivity. Qed.
Example endsWith_ex : Str.endsWith "may 2" "2" = true /\ Str.endsWith "may 21" "2" = false.
Proof. split; reflexivity. Qed.
Example collapse_ex : Str.collapseWhiteSpace "a   b  c" = "a b c".
Proof. reflexivity. Qed.
Example ofZ_ex : Str.ofZ 12 = "12" /\ Str.ofZ 0 = "0".
Proof. split; reflexivity. Qed.
Example two_ex : Str.twoNumbers "/" "5/12" = Some (5, 12).
Proof. reflexivity. Qed.
Example wb_ex :
  Str.testWordBounded "5/2" "5/2" = true /\ Str.testWordBounded "5/2" "5/21" = false /\
  Str.testWordBounded "5/2" "15/2" = false /\ Str.testWordBounded "5/2" "on 5/2." = true.
Proof. repeat split; reflexivity. Qed.
Example lower_ex : Str.toLowerCase "Friday, May 2" = "friday, may 2".
Proof. reflexivity. Qed.

Example cal_ex : Cal.daysFromCivil 1970 1 1 = 0 /\ Cal.civilFromDays 0 = (1970, 1, 1)
  /\ Cal.getDay (mkDate 2025 4 2 0) = 5 /\ Cal.getDay (mkDate 2026 4 2 0) = 6
  /\ Cal.newDate 2025 4 12 = ValidDate (mkDate 2025 4 12 0)
  /\ Cal.newDate 2025 12 32 = ValidDate (mkDate 2026 1 1 0)
  /\ Cal.newDate 2024 1 29 = ValidDate (mkDate 2024 1 29 0)
  /\ Cal.newDate 2025 1 29 = ValidDate (mkDate 2025 2 1 0)
  /\ Cal.newDate 2025 (-1) 0 = ValidDate (mkDate 2024 10 30 0).
Proof. repeat split; reflexivity. Qed.
Example tostr_ex :
  JS.ToString (JArr [JNum 1; JNull; JStr "a"; JArr [JNum 2; JNum 3]]) = "1,,a,2,3".
Proof. reflexivity. Qed.

(** ** The strategies on sample pages *)


Example long_event_text :
  Demo.longEventText =
  "{" +:+ Demo.quote +:+ "@type" +:+ Demo.quote +:+ ":" +:+ Demo.quote +:+ "Event" +:+
  Demo.quote +:+ "," +:+ Demo.quote +:+ "name" +:+ Demo.quote +:+ ":" +:+ Demo.quote +:+
  Demo.longName +:+ Demo.quote +:+ "}".
Proof. reflexivity. Qed.

(** The end-to-end scenario of the specification, on 2 May 2025. *)
Example standard_source_band_x :
  extractEvents Demo.host Demo.may2 (Demo.page [Demo.card "Band X" "Fri May 2" "8:00 PM" None])
                Demo.standardSource Demo.pageUrl
  = Ok [record "Band X" "Fri May 2" "8:00 PM" "" "The Chapel" true].
Proof. vm_compute. reflexivity. Qed.

Example json_source_band_y :
  extractEvents Demo.host Demo.may2 (Demo.ldPage (Demo.stringify Demo.bandY))
                Demo.jsonSource Demo.pageUrl
  = Ok [record "Band Y" "Fri, May 2" "8:00 PM" "https://example.com/band-y"
               "The Independent" true].
Proof. vm_compute. reflexivity. Qed.

Example json_source_graph :
  extractEvents Demo.host Demo.may2 (Demo.ldPage (Demo.stringify Demo.graphData))
                Demo.jsonSource Demo.pageUrl
  = Ok [record "Band Y" "Fri, May 2" "8:00 PM" "https://example.com/band-y"
               "The Independent" true].
Proof. vm_compute. reflexivity. Qed.

Example eventbrite_server_data :
  extractEvents Demo.host Demo.may2 (Demo.serverDataPage (Demo.stringify Demo.serverData))
                (Demo.venueSource "Eventbrite" "San Francisco" "json") Demo.pageUrl
  = Ok [record "Jazz Night" "Fri, May 2" "8:00 PM" "https://example.com/jazz" "SFJAZZ" true].
Proof. vm_compute. reflexivity. Qed.

Example eventbrite_ld_json :
  extractEvents Demo.host Demo.may2 (Demo.ldPage (Demo.stringify Demo.bandY))
                (Demo.venueSource "Eventbrite" "San Francisco" "json") Demo.pageUrl
  = Ok [record "Band Y" "Fri, May 2" "8:00 PM" "https://example.com/band-y"
               "The Independent" true].
Proof. vm_compute. reflexivity. Qed.

Example bandsintown_ld_json :
  extractEvents Demo.host Demo.may2 (Demo.ldPage (Demo.stringify Demo.bandY))
                (Demo.venueSource "Bandsintown" "San Francisco" "json") Demo.pageUrl
  = Ok [record "Band Y" "Fri, May 2" "8:00 PM" "https://example.com/band-y"
               "The Independent" true].
Proof. vm_compute. reflexivity. Qed.

(** The [null] in the array makes the callback throw after the first
    record was pushed; the exception is caught, the record stays, and the
    HTML stage adds its own. *)
Example bandsintown_partial :
  extractEvents Demo.host Demo.may2
    (Demo.nextPage (Demo.stringify Demo.nextData) [Demo.card "Band X" "Fri May 2" "8:00 PM" None])
    (Demo.venueSource "Bandsintown" "San Francisco" "json") Demo.pageUrl
  = Ok [record "Band Z" "Sat, May 3" "9:30 PM" "" "Great American Music Hall" false;
        record "Band X" "Fri May 2" "8:00 PM" "" "Bandsintown" true].
Proof. vm_compute. reflexivity. Qed.

Example bandsintown_dehydrated :
  extractEvents Demo.host Demo.may2 (Demo.nextPage (Demo.stringify Demo.dehydratedPage) [])
                (Demo.venueSource "Bandsintown" "San Francisco" "json") Demo.pageUrl
  = Ok [record "Band Q" "" "" "https://example.com/q" "Bimbo's 365" false].
Proof. vm_compute. reflexivity. Qed.

(** The title falls back to the link inside the title element, the date is
    joined from its parts, the link is resolved, and the container on which
    the selector engine throws is passed over. *)
Example html_fallbacks :
  extractEvents Demo.host Demo.may2 (Demo.page [Demo.brokenCard; Demo.splitCard])
                Demo.standardSource Demo.pageUrl
  = Ok [record "Band X" "Fri May 2" "" "https://example.com/show/123" "The Chapel" true].
Proof. vm_compute. reflexivity. Qed.

Example songkick_venue :
  extractEvents Demo.host Demo.may2 (Demo.page [Demo.card "Band X" "Fri May 2" "The Fillmore" None])
                (Demo.venueSource "Songkick" "San Francisco" "standard") Demo.pageUrl
  = Ok [record "Band X" "Fri May 2" "" "" "The Fillmore" true].
Proof. vm_compute. reflexivity. Qed.

Example thirty_of_thirty_one :
  match extractEvents Demo.host Demo.may2
          (Demo.page (List.repeat (Demo.card "Band X" "Fri May 2" "8:00 PM" None) 31))
          Demo.standardSource Demo.pageUrl with
  | Ok evs => List.length evs
  | Throw => 0%nat
  end = 30%nat.
Proof. vm_compute. reflexivity. Qed.

(** The two filters in sequence, on 2 May 2025: the today filter keeps the
    three records that are marked or whose text matches, and the strict
    pass then drops the one whose text names a Saturday. *)
Example two_passes :
  let a := record "Band X" "Fri May 2" "8:00 PM" "" "The Chapel" true in
  let b := record "Band Y" "5/2" "" "" "The Chapel" false in
  let c := record "Band Z" "Sat May 3" "" "" "The Chapel" false in
  let d := record "Band W" "Sat 5.2" "" "" "The Chapel" false in
  todaysEvents Demo.host Demo.may2 [a; b; c; d] = Ok [a; b; d] /\
  strictlyFilteredEvents Demo.host Demo.may2 [a; b; c; d] = Ok [a; b].
Proof. split; vm_compute; reflexivity. Qed.

(** The patterns with a space or a comma are substrings: on 12 May the
    date text "May 12" contains " 1", and the strict pass removes the
    record. *)
Example may_12_on_12_may :
  keptByStrictPass (mkDate 2025 4 12 0) (record "Band X" "May 12" "" "" "The Chapel" true)
  = Ok false.
Proof. vm_compute. reflexivity. Qed.

(** A date of a record that is not a string makes the today filter throw. *)
Example date_not_a_string :
  isTodaysEvent Demo.host Demo.may2
    {| title := JStr "Band X"; date := JNum 20250502; time := JStr ""; url := JStr "";
       venue := JStr "The Chapel"; region := "San Francisco"; source_url := Demo.pageUrl;
       is_today := false |} = Throw.
Proof. reflexivity. Qed.

Example grouping_sample :
  let a := record "A" "" "" "" "" false in
  let b := record "B" "" "" "" "The Chapel" false in
  let c := record "C" "" "" "" "" false in
  Report.eventsByRegion (fun _ _ => true) [a; b; c] =
    Report.Done [("San Francisco", [("Unknown Venue", [a; c]); ("The Chapel", [b])])].
Proof. vm_compute. reflexivity. Qed.

(** The lookups that reach [Object.prototype]: a venue with one of its
    names stops the loop, also after other records; a region with one of
    its names leaves no property, or stops the loop when the built-in
    rejects the venue; the region [__proto__] changes [Object.prototype]. *)
Example inherited_names :
  let a := record "A" "" "" "" "The Chapel" false in
  let b := record "B" "" "" "" "valueOf" false in
  let c := {| title := JStr "C"; date := JStr ""; time := JStr ""; url := JStr "";
              venue := JStr "length"; region := "hasOwnProperty";
              source_url := Demo.pageUrl; is_today := false |} in
  let d := {| title := JStr "D"; date := JStr ""; time := JStr ""; url := JStr "";
              venue := JStr "The Chapel"; region := "__proto__";
              source_url := Demo.pageUrl; is_today := false |} in
  let rejects := fun region venue : string => String.eqb venue "length" in
  Report.eventsByRegion rejects [a; b] = Report.TypeError /\
  Report.eventsByRegion rejects [a; c] = Report.TypeError /\
  Report.eventsByRegion (fun _ _ => false) [a; c] =
    Report.Done [("San Francisco", [("The Chapel", [a])])] /\
  Report.eventsByRegion rejects [a; d] = Report.ExtendsObjectPrototype.
Proof. repeat split; vm_compute; reflexivity. Qed.

(** ** The scripts around the engine *)

(** White space in the name of the source becomes one underscore per run,
    the URL is lower-cased with every other character replaced; a slash in
    the name stays, and the base name then differs from the file name. *)
Example file_names :
  Files.htmlFileName "AC/DC  Club" "https://Example.com/a?b=1" =
    "AC/DC_Club_https___example_com_a_b_1.html" /\
  Files.basename (Files.htmlFileName "AC/DC  Club" "https://Example.com/a?b=1") =
    "DC_Club_https___example_com_a_b_1.html".
Proof. split; vm_compute; reflexivity. Qed.

(** Two rows with the same source name: the dump of the second row is read
    with the selectors of the first, here a row without a title selector,
    so that nothing is extracted from it. *)
Example rows_with_the_same_name :
  let first := Csv.mk (Src.mk "The Chapel" "San Francisco" ".event" "" "" "" "" "standard")
                      "https://example.com/a" in
  let second := Csv.mk Demo.standardSource Demo.pageUrl in
  let page := Demo.page [Demo.card "Band Y" "Fri May 2" "8pm" None] in
  let existsSync := fun f => String.eqb f (fileNameOf second) in
  let readFileSync := fun f => if String.eqb f (fileNameOf second) then Ok page else Throw in
  allEvents Demo.host Demo.may2 readFileSync [first; second]
            (successfulFetches existsSync [first; second]) = [] /\
  allEvents Demo.host Demo.may2 readFileSync [second]
            (successfulFetches existsSync [second]) =
    [record "Band Y" "Fri May 2" "8pm" "" "The Chapel" true].
Proof. split; vm_compute; reflexivity. Qed.

(** [for ... in] visits the names that are array indices first, in
    ascending order, then the other names in the order of their creation. *)
Example enumeration_order :
  List.map fst (Report.forIn [("b", 1); ("10", 2); ("a", 3); ("2", 4); ("07", 5)]) =
    ["2"; "10"; "b"; "a"; "07"].
Proof. vm_compute. reflexivity. Qed.

(** A report with two regions; the venue named 924 comes before the venue
    created first, and the lines of empty fields are left out. *)
Example report_sample :
  let a := record "Band Y" "Fri, May 2" "8pm" "https://example.com/y" "The Chapel" true in
  let b := {| title := JStr "Band Q"; date := JStr ""; time := JStr "9pm"; url := JStr "";
              venue := JStr ""; region := ""; source_url := ""; is_today := false |} in
  let c := record "Band Z" "" "" "" "924" false in
  Report.markdown (fun _ _ => true) "Friday, May 2" [a; b; c] =
    Report.Done (Str.join Report.nl
      ["# Live Music Events in SF Bay Area for Friday, May 2"; "";
       "## San Francisco"; "";
       "### 924"; "";
       "#### Band Z"; "";
       "### The Chapel"; "";
       "#### Band Y";
       "- **Date:** Fri, May 2";
       "- **Time:** 8pm";
       "- **Event Link:** [Get Tickets](https://example.com/y)"; "";
       "## Other Areas"; "";
       "### Unknown Venue"; "";
       "#### Band Q";
       "- **Time:** 9pm"; ""; ""]) /\
  Report.listed (fun _ _ => true) [a; b; c] = Report.Done [c; a; b].
Proof. split; vm_compute; reflexivity. Qed.

(** The text that is parsed: the inside of a plain fence; the inside of
    the json fence even when a plain fence comes first; the whole content
    when the fence is not closed. *)
Example fences :
  Cleanup.jsonText ("x" +:+ Cleanup.fence +:+ Report.nl +:+ "[1]" +:+ Report.nl +:+
                    Cleanup.fence +:+ "y") = "[1]" /\
  Cleanup.jsonText (Cleanup.fence +:+ Report.nl +:+ "A" +:+ Report.nl +:+ Cleanup.fence +:+
                    Report.nl +:+ Cleanup.fence +:+ "json" +:+ Report.nl +:+ "B" +:+
                    Report.nl +:+ Cleanup.fence) = "B" /\
  Cleanup.jsonText (Cleanup.fence +:+ "json" +:+ Report.nl +:+ "[1]") =
    Cleanup.fence +:+ "json" +:+ Report.nl +:+ "[1]".
Proof. repeat split; vm_compute; reflexivity. Qed.

(** An answer without choices, without a first choice or without content
    ends in the [catch] of [cleanupEvents]; a fenced answer is parsed. *)
Example answers :
  Cleanup.cleanedEvents Demo.host (JObj [("error", JStr "no credit")]) = Throw /\
  Cleanup.cleanedEvents Demo.host (JObj [("choices", JArr [])]) = Throw /\
  Cleanup.cleanedEvents Demo.host (answer JNull) = Throw /\
  Cleanup.cleanedEvents Demo.host
    (answer (JStr (Cleanup.fence +:+ "json" +:+ Report.nl +:+ Demo.stringify Demo.bandY +:+
                   Report.nl +:+ Cleanup.fence))) = Ok Demo.bandY.
Proof. repeat split; vm_compute; reflexivity. Qed.
